(** * Model.py: a 1-D bottleneck ResNet for multi-label ECG classification

    A shallow embedding of [src/Model.py].

    - The network ([Bottleneck], [ResNet], [_make_layer]) is embedded at the
      level of tensor shapes: a module is the record of its hyper-parameters
      and [forward] maps the shape of the input to the shape of the output,
      or to the exception PyTorch raises.
    - The loops ([train], [test]) and the metric reporter ([metric_func])
      are embedded in a small monad that records the printed lines and the
      exception that ends a run.
    - Floating-point numbers are embedded as exact rationals extended with
      [NaN] and the two infinities.  Rounding is modelled where a property
      of the program depends on it: the threshold that torch converts to
      float32 before it compares ([Np.float32]), and the micro rates in
      binary64 ([F64]).
    - scikit-learn is embedded as it behaves when the program runs with
      its warnings silenced: an undefined score is nan, not an exception. *)

From Stdlib Require Import List Arith Lia Bool ZArith QArith Qcanon.
From Stdlib Require PrimFloat.
Import ListNotations.

Local Open Scope nat_scope.

(* ================================================================== *)
(** * Exceptions and results *)

Inductive exn : Type :=
| ValueError
| IndexError
| RuntimeError
| ZeroDivisionError.

(** A computation that returns or raises. *)
Definition result (A : Type) : Type := (exn + A)%type.

Definition ok {A} (a : A) : result A := inr a.
Definition raise {A} (e : exn) : result A := inl e.

Definition rbind {A B} (c : result A) (k : A -> result B) : result B :=
  match c with
  | inl e => inl e
  | inr a => k a
  end.

Declare Scope result_scope.
Delimit Scope result_scope with result.
Notation "x <- c ;; k" := (rbind c (fun x => k))
  (at level 61, c at next level, right associativity) : result_scope.

(* ================================================================== *)
(** * torch.nn layers, at the level of shapes *)

Module Nn.

(** The shape of a batched 1-D feature tensor: (batch, channels, length). *)
Record shape3 : Type := Shape3
  { sz_batch : nat; sz_channels : nat; sz_length : nat }.

(** The shape of a flattened tensor: (batch, features). *)
Record shape2 : Type := Shape2
  { sz_rows : nat; sz_features : nat }.

Record Conv1d : Type := MkConv1d
  { in_channels : nat;
    out_channels : nat;
    kernel_size : nat;
    conv_stride : nat;
    padding : nat }.

Record BatchNorm1d : Type := MkBatchNorm1d { num_features : nat }.

Record MaxPool1d : Type := MkMaxPool1d
  { pool_kernel : nat; pool_stride : nat; pool_padding : nat }.

Record Linear : Type := MkLinear
  { in_features : nat; out_features : nat }.

(** [nn.Conv1d.forward]: the weight must have at least one output
    channel, the channel count of the input must be [in_channels], the
    stride positive and the padded input at least as long as the kernel;
    the output length is floor((L + 2p - k) / s) + 1. *)
Definition Conv1d_forward (c : Conv1d) (x : shape3) : result shape3 :=
  if out_channels c =? 0 then raise RuntimeError
  else if negb (sz_channels x =? in_channels c) then raise RuntimeError
  else if conv_stride c =? 0 then raise RuntimeError
  else if sz_length x + 2 * padding c <? kernel_size c then raise RuntimeError
  else
    let span := sz_length x + 2 * padding c - kernel_size c in
    ok (Shape3 (sz_batch x) (out_channels c) (span / conv_stride c + 1)).

(** [nn.BatchNorm1d.forward]: in training mode a batch with a single value
    per channel is refused with a ValueError before anything else; the
    channel count must be [num_features]. *)
Definition BatchNorm1d_forward (training : bool) (b : BatchNorm1d)
    (x : shape3) : result shape3 :=
  if training && (sz_batch x * sz_length x =? 1) then raise ValueError
  else if negb (sz_channels x =? num_features b) then raise RuntimeError
  else ok x.

(** [nn.ReLU] keeps the shape. *)
Definition relu (x : shape3) : shape3 := x.

(** [nn.MaxPool1d.forward], with dilation 1 and floor rounding. *)
Definition MaxPool1d_forward (m : MaxPool1d) (x : shape3) : result shape3 :=
  if pool_stride m =? 0 then raise RuntimeError
  else if sz_length x + 2 * pool_padding m <? pool_kernel m
  then raise RuntimeError
  else
    let span := sz_length x + 2 * pool_padding m - pool_kernel m in
    ok (Shape3 (sz_batch x) (sz_channels x) (span / pool_stride m + 1)).

(** [nn.AdaptiveAvgPool1d(1)]: the length axis is averaged to one value;
    an empty length axis is refused. *)
Definition AdaptiveAvgPool1d_1 (x : shape3) : result shape3 :=
  if sz_length x =? 0 then raise RuntimeError
  else ok (Shape3 (sz_batch x) (sz_channels x) 1).

(** [torch.flatten(out, 1)]. *)
Definition flatten_1 (x : shape3) : shape2 :=
  Shape2 (sz_batch x) (sz_channels x * sz_length x).

(** [nn.Linear.forward]. *)
Definition Linear_forward (l : Linear) (x : shape2) : result shape2 :=
  if negb (sz_features x =? in_features l) then raise RuntimeError
  else ok (Shape2 (sz_rows x) (out_features l)).

(** One axis of a broadcast: equal sizes, or one of them 1. *)
Definition broadcast_dim (a b : nat) : result nat :=
  if a =? b then ok a
  else if a =? 1 then ok b
  else if b =? 1 then ok a
  else raise RuntimeError.

(** [out + residual] on tensors: the shapes are broadcast together. *)
Definition tensor_add (x y : shape3) : result shape3 :=
  (b <- broadcast_dim (sz_batch x) (sz_batch y) ;;
   c <- broadcast_dim (sz_channels x) (sz_channels y) ;;
   l <- broadcast_dim (sz_length x) (sz_length y) ;;
   ok (Shape3 b c l))%result.

End Nn.
Import Nn.

(* ================================================================== *)
(** * class Bottleneck *)

(** The skip-path projection that [_make_layer] builds:
    [nn.Sequential(nn.Conv1d(...), nn.BatchNorm1d(...))]. *)
Record Downsample : Type := MkDownsample
  { ds_conv : Conv1d; ds_norm : BatchNorm1d }.

Definition Downsample_forward (training : bool) (d : Downsample)
    (x : shape3) : result shape3 :=
  (out <- Conv1d_forward (ds_conv d) x ;;
   BatchNorm1d_forward training (ds_norm d) out)%result.

(** [Bottleneck.expansion] *)
Definition expansion : nat := 4.

Record Bottleneck : Type := MkBottleneck
  { conv_1 : Conv1d;
    batch_norm_1 : BatchNorm1d;
    conv_2 : Conv1d;
    batch_norm_2 : BatchNorm1d;
    conv_3 : Conv1d;
    batch_norm_3 : BatchNorm1d;
    downsample : option Downsample;
    stride : nat }.

(** [Bottleneck.__init__(self, inplanes, planes, stride=1, downsample=None)] *)
Definition Bottleneck_init (inplanes planes stride : nat)
    (downsample : option Downsample) : Bottleneck :=
  {| conv_1 := MkConv1d inplanes planes 1 1 0;
     batch_norm_1 := MkBatchNorm1d planes;
     conv_2 := MkConv1d planes planes 3 stride 1;
     batch_norm_2 := MkBatchNorm1d planes;
     conv_3 := MkConv1d planes (planes * expansion) 1 1 0;
     batch_norm_3 := MkBatchNorm1d (planes * expansion);
     downsample := downsample;
     stride := stride |}.

(** [Bottleneck.forward(self, x)]; [training] is [self.training]. *)
Definition Bottleneck_forward (training : bool) (self : Bottleneck)
    (x : shape3) : result shape3 :=
  (let residual := x in
   out <- Conv1d_forward (conv_1 self) x ;;
   out <- BatchNorm1d_forward training (batch_norm_1 self) out ;;
   let out := relu out in
   out <- Conv1d_forward (conv_2 self) out ;;
   out <- BatchNorm1d_forward training (batch_norm_2 self) out ;;
   let out := relu out in
   out <- Conv1d_forward (conv_3 self) out ;;
   out <- BatchNorm1d_forward training (batch_norm_3 self) out ;;
   let out := relu out in
   residual <- match downsample self with
               | Some d => Downsample_forward training d x
               | None => ok residual
               end ;;
   out <- tensor_add out residual ;;
   ok (relu out))%result.

(** [nn.Sequential] applied to the list of bottleneck blocks. *)
Fixpoint Sequential_forward (training : bool) (layers : list Bottleneck)
    (x : shape3) : result shape3 :=
  match layers with
  | [] => ok x
  | b :: rest =>
      (out <- Bottleneck_forward training b x ;;
       Sequential_forward training rest out)%result
  end.

(* ================================================================== *)
(** * class ResNet *)

(** [ResNet._make_layer(self, block, planes, blocks, stride=1)] with
    [block = Bottleneck], the only block class of the file.  The method
    reads and overwrites [self.inplanes]: the value read is the first
    argument and the value written is the first component of the result. *)
Definition _make_layer (self_inplanes planes blocks stride : nat)
    : nat * list Bottleneck :=
  let downsample :=
    if negb (stride =? 1) || negb (self_inplanes =? planes * expansion)
    then Some (MkDownsample
                 (MkConv1d self_inplanes (planes * expansion) 1 stride 0)
                 (MkBatchNorm1d (planes * expansion)))
    else None in
  let first := Bottleneck_init self_inplanes planes stride downsample in
  let self_inplanes := planes * expansion in
  (self_inplanes,
   first :: map (fun _ => Bottleneck_init self_inplanes planes 1 None)
              (seq 1 (blocks - 1))).

Record ResNet : Type := MkResNet
  { inplanes : nat;
    stem_conv_1 : Conv1d;
    stem_batch_norm_1 : BatchNorm1d;
    maxpool_1 : MaxPool1d;
    layer_1 : list Bottleneck;
    layer_2 : list Bottleneck;
    layer_3 : list Bottleneck;
    layer_4 : list Bottleneck;
    fc : Linear }.

(** [layers[i]] on a Python list. *)
Definition getitem {A} (l : list A) (i : nat) : result A :=
  match nth_error l i with
  | Some a => ok a
  | None => raise IndexError
  end.

(** [ResNet.__init__(self, block, layers, num_classes=1000)] with
    [block = Bottleneck].  The initialisation of the weights does not
    change any shape and is left out. *)
Definition ResNet_init (layers : list nat) (num_classes : nat)
    : result ResNet :=
  (let inplanes := 64 in
   let conv_1 := MkConv1d 12 64 15 2 7 in
   let batch_norm_1 := MkBatchNorm1d 64 in
   let maxpool_1 := MkMaxPool1d 3 2 1 in
   n0 <- getitem layers 0 ;;
   let '(inplanes, layer_1) := _make_layer inplanes 64 n0 1 in
   n1 <- getitem layers 1 ;;
   let '(inplanes, layer_2) := _make_layer inplanes 128 n1 2 in
   n2 <- getitem layers 2 ;;
   let '(inplanes, layer_3) := _make_layer inplanes 256 n2 2 in
   n3 <- getitem layers 3 ;;
   let '(inplanes, layer_4) := _make_layer inplanes 512 n3 2 in
   let fc := MkLinear (512 * expansion) num_classes in
   ok (MkResNet inplanes conv_1 batch_norm_1 maxpool_1
         layer_1 layer_2 layer_3 layer_4 fc))%result.

(** [ResNet.forward(self, x)] *)
Definition ResNet_forward (training : bool) (self : ResNet)
    (x : shape3) : result shape2 :=
  (out <- Conv1d_forward (stem_conv_1 self) x ;;
   out <- BatchNorm1d_forward training (stem_batch_norm_1 self) out ;;
   let out := relu out in
   out <- MaxPool1d_forward (maxpool_1 self) out ;;
   out <- Sequential_forward training (layer_1 self) out ;;
   out <- Sequential_forward training (layer_2 self) out ;;
   out <- Sequential_forward training (layer_3 self) out ;;
   out <- Sequential_forward training (layer_4 self) out ;;
   out <- AdaptiveAvgPool1d_1 out ;;
   let out := flatten_1 out in
   Linear_forward (fc self) out)%result.

(** ceil(a / b) on naturals. *)
Definition ceil_div (a b : nat) : nat := (a + b - 1) / b.

(** A length survives the stem and the strided stages when no layer is
    handed an empty length axis and, in training mode, no normalisation
    layer is handed a single value per channel: the five halvings of the
    length leave ceil(length / 32) values. *)
Definition survives (training : bool) (batch length : nat) : Prop :=
  1 <= length /\ (training = true -> batch = 1 -> 33 <= length).


(** The projection of the skip path: a 1x1 convolution with the stride of
    the block, followed by normalisation. *)
Definition projection (inplanes planes stride : nat) : Downsample :=
  MkDownsample (MkConv1d inplanes (planes * expansion) 1 stride 0)
               (MkBatchNorm1d (planes * expansion)).

(** A block is validly constructed when its channel counts and its stride
    are positive and a projection is supplied whenever the channel counts
    or the stride mismatch; without a mismatch the projection is
    optional. *)
Definition validly_constructed (inplanes planes stride : nat)
    (ds : option Downsample) : Prop :=
  1 <= inplanes /\ 1 <= planes /\ 1 <= stride /\
  match ds with
  | Some d => d = projection inplanes planes stride
  | None => stride = 1 /\ inplanes = planes * expansion
  end.

(* ================================================================== *)
(** * numpy: float64 scalars and two-dimensional arrays *)

Module Np.

(** A float64, rounding apart: an exact rational, or one of the three
    special values.  The integer counts of the metrics (int64 in the
    source) are naturals: a count of samples is far below the
    wrap-around. *)
Inductive float : Type :=
| NaN
| PInf
| NInf
| Fin (q : Qc).

Definition zero : float := Fin (Q2Qc 0).
Definition one : float := Fin (Q2Qc 1).
Definition two : float := Fin (Q2Qc 2).

(** An integer count seen as a rational, and as a float64. *)
Definition Qc_of_nat (n : nat) : Qc := Q2Qc (inject_Z (Z.of_nat n)).
Definition of_nat (n : nat) : float := Fin (Qc_of_nat n).

Definition is_finite (x : float) : bool :=
  match x with Fin _ => true | _ => false end.

Definition Qc_eqb (a b : Qc) : bool :=
  match Qccompare a b with Eq => true | _ => false end.

Definition Qc_ltb (a b : Qc) : bool :=
  match Qccompare a b with Lt => true | _ => false end.

(** [x + y] *)
Definition add (x y : float) : float :=
  match x, y with
  | NaN, _ | _, NaN => NaN
  | PInf, NInf | NInf, PInf => NaN
  | PInf, _ | _, PInf => PInf
  | NInf, _ | _, NInf => NInf
  | Fin a, Fin b => Fin (a + b)
  end.

(** The infinity of the sign of [pos]. *)
Definition inf_of (pos : bool) : float := if pos then PInf else NInf.

(** [x * y] *)
Definition mul (x y : float) : float :=
  match x, y with
  | NaN, _ | _, NaN => NaN
  | Fin a, Fin b => Fin (a * b)
  | PInf, PInf | NInf, NInf => PInf
  | PInf, NInf | NInf, PInf => NInf
  | PInf, Fin q | Fin q, PInf =>
      if Qc_eqb q (Q2Qc 0) then NaN else inf_of (Qc_ltb (Q2Qc 0) q)
  | NInf, Fin q | Fin q, NInf =>
      if Qc_eqb q (Q2Qc 0) then NaN else inf_of (Qc_ltb q (Q2Qc 0))
  end.

(** [x / y] on numpy scalars: nothing is raised, 0/0 is nan and a
    non-zero value over zero is an infinity (zero is taken positive). *)
Definition div (x y : float) : float :=
  match x, y with
  | NaN, _ | _, NaN => NaN
  | PInf, PInf | PInf, NInf | NInf, PInf | NInf, NInf => NaN
  | PInf, Fin q => inf_of (negb (Qc_ltb q (Q2Qc 0)))
  | NInf, Fin q => inf_of (Qc_ltb q (Q2Qc 0))
  | Fin _, PInf | Fin _, NInf => zero
  | Fin a, Fin b =>
      if Qc_eqb b (Q2Qc 0)
      then if Qc_eqb a (Q2Qc 0) then NaN else inf_of (Qc_ltb (Q2Qc 0) a)
      else Fin (a / b)
  end.

(** [x > y]: false as soon as one side is nan. *)
Definition gtb (x y : float) : bool :=
  match x, y with
  | NaN, _ | _, NaN => false
  | PInf, PInf => false
  | PInf, _ => true
  | _, PInf => false
  | NInf, _ => false
  | Fin _, NInf => true
  | Fin a, Fin b => Qc_ltb b a
  end.

(** ** Rounding to float32 *)

(** 2^e as a rational. *)
Definition pow2 (e : Z) : Q :=
  if (0 <=? e)%Z then inject_Z (2 ^ e) else Qinv (inject_Z (2 ^ (- e))).

(** The binade of the positive rational n/d: the exponent e with
    2^e <= n/d < 2^(e+1). *)
Definition binade (n d : positive) : Z :=
  let e := (Z.log2 (Zpos n) - Z.log2 (Zpos d))%Z in
  if Qle_bool (pow2 e) (Zpos n # d) then e else (e - 1)%Z.

(** The integer nearest to the non-negative rational a/b, ties to even. *)
Definition round_half_even (a b : Z) : Z :=
  let f := (a / b)%Z in
  match (2 * (a mod b) ?= b)%Z with
  | Lt => f
  | Gt => (f + 1)%Z
  | Eq => if Z.even f then f else (f + 1)%Z
  end.

(** The float32 nearest to the positive rational n/d, ties to even, or
    nothing past the largest float32: 24 significant bits, exponents from
    -126 (below which the steps stay 2^-149) to 127. *)
Definition round32_pos (n d : positive) : option Q :=
  let e := Z.max (binade n d) (-126) in
  let ulp := (e - 23)%Z in
  let m :=
    if (0 <=? ulp)%Z
    then round_half_even (Zpos n) (Zpos d * 2 ^ ulp)
    else round_half_even (Zpos n * 2 ^ (- ulp)) (Zpos d) in
  let r := (inject_Z m * pow2 ulp)%Q in
  if Qle_bool (pow2 128) r then None else Some r.

(** A Python float converted to float32, as torch converts a number that
    is compared with a float32 tensor. *)
Definition float32 (x : float) : float :=
  match x with
  | Fin q =>
      match Qnum (this q) with
      | Z0 => x
      | Zpos n =>
          match round32_pos n (Qden (this q)) with
          | Some r => Fin (Q2Qc r)
          | None => PInf
          end
      | Zneg n =>
          match round32_pos n (Qden (this q)) with
          | Some r => Fin (Q2Qc (Qopp r))
          | None => NInf
          end
      end
  | _ => x
  end.

(** The strict order of the floats, as a relation: nan is related to
    nothing. *)
Inductive lt : float -> float -> Prop :=
| lt_fin (a b : Qc) : (a < b)%Qc -> lt (Fin a) (Fin b)
| lt_ninf_fin (b : Qc) : lt NInf (Fin b)
| lt_fin_pinf (a : Qc) : lt (Fin a) PInf
| lt_ninf_pinf : lt NInf PInf.

(** [TP_i / (TP_i + FN_i)] on integer counts: numpy's true division. *)
Definition true_divide (a b : nat) : float := div (of_nat a) (of_nat b).

Definition sum (l : list float) : float := fold_left add l zero.

(** [np.mean] of a list: the sum over the number of entries; the mean of
    the empty list is nan. *)
Definition mean (l : list float) : float := div (sum l) (of_nat (length l)).

(** [np.mean] of a list of integer counts. *)
Definition mean_counts (l : list nat) : float := mean (map of_nat l).

(** A two-dimensional array of shape [(length rows, shape1)]. *)
Record ndarray (A : Type) : Type := MkArray
  { shape1 : nat; rows : list (list A) }.
Arguments MkArray {A} _ _.
Arguments shape1 {A} _.
Arguments rows {A} _.

Definition shape0 {A} (a : ndarray A) : nat := length (rows a).

(** The entries of column [i], top to bottom. *)
Definition col {A} (d : A) (a : ndarray A) (i : nat) : list A :=
  map (fun r => nth i r d) (rows a).

(** [a[:, i]]: the column, or IndexError past the last column. *)
Definition column {A} (d : A) (a : ndarray A) (i : nat) : result (list A) :=
  if i <? shape1 a then ok (col d a i) else raise IndexError.

(** [np.concatenate(arrays)] along the first axis. *)
Definition concatenate {A} (arrays : list (ndarray A)) : result (ndarray A) :=
  match arrays with
  | [] => raise ValueError
  | a :: rest =>
      if forallb (fun b => shape1 b =? shape1 a) rest
      then ok (MkArray (shape1 a) (concat (map rows arrays)))
      else raise ValueError
  end.

(** An elementwise operation. *)
Definition map_array {A B} (f : A -> B) (a : ndarray A) : ndarray B :=
  MkArray (shape1 a) (map (map f) (rows a)).

End Np.

(** Python's [x / n] on a float and an [int]: a zero divisor raises. *)
Definition py_truediv (x : Np.float) (n : nat) : result Np.float :=
  if n =? 0 then raise ZeroDivisionError else ok (Np.div x (Np.of_nat n)).

(* ================================================================== *)
(** * sklearn.metrics *)

Module Sk.

(** The number of samples with ground truth [t] and prediction [p]. *)
Definition count_pairs (t p : bool) (y_true y_pred : list bool) : nat :=
  length (filter (fun tp => Bool.eqb (fst tp) t && Bool.eqb (snd tp) p)
                 (combine y_true y_pred)).

(** [confusion_matrix(y_true, y_pred, labels=[0, 1])]: the entry
    [[t][p]] counts the samples of class [t] predicted [p]; columns of
    different lengths and empty columns are refused. *)
Definition confusion_matrix (y_true y_pred : list bool)
    : result ((nat * nat) * (nat * nat)) :=
  if negb (length y_true =? length y_pred) then raise ValueError
  else if length y_true =? 0 then raise ValueError
  else ok ((count_pairs false false y_true y_pred,
            count_pairs false true y_true y_pred),
           (count_pairs true false y_true y_pred,
            count_pairs true true y_true y_pred)).

Definition score (x : Np.float) : Qc :=
  match x with Np.Fin q => q | _ => Q2Qc 0 end.

(** What a (positive, negative) pair of scores adds to the rank
    statistic: 1 when the positive is ranked higher, 1/2 on a tie. *)
Definition pair_credit (s_pos s_neg : Qc) : Qc :=
  if Np.Qc_ltb s_neg s_pos then Q2Qc 1
  else if Np.Qc_eqb s_neg s_pos then Q2Qc (1 # 2)
  else Q2Qc 0.

Definition scores_of (c : bool) (y_true : list bool)
    (y_score : list Np.float) : list Qc :=
  map (fun ts => score (snd ts))
      (filter (fun ts => Bool.eqb (fst ts) c) (combine y_true y_score)).

(** The area under the ROC curve, as the normalised rank statistic. *)
Definition auc (y_true : list bool) (y_score : list Np.float) : Np.float :=
  let pos := scores_of true y_true y_score in
  let neg := scores_of false y_true y_score in
  let credit :=
    fold_left Qcplus
      (flat_map (fun p => map (fun n => pair_credit p n) neg) pos)
      (Q2Qc 0) in
  Np.div (Np.Fin credit) (Np.of_nat (length pos * length neg)).

(** [roc_auc_score(y_true, y_score)] on one label.  Empty columns and
    scores that are not finite are refused when the arguments are
    checked.  With a single class in [y_true] the score is undefined:
    scikit-learn warns, which the program silences in its line 9, and
    returns nan (earlier releases of the library raised a ValueError
    here).  With both classes, columns of different lengths are refused
    by the ROC curve. *)
Definition roc_auc_score (y_true : list bool) (y_score : list Np.float)
    : result Np.float :=
  if (length y_true =? 0) || (length y_score =? 0) then raise ValueError
  else if negb (forallb Np.is_finite y_score) then raise ValueError
  else if negb (existsb (fun t => t) y_true && existsb negb y_true)
  then ok Np.NaN
  else if negb (length y_true =? length y_score) then raise ValueError
  else ok (auc y_true y_score).

(** [classification_report(y_true, y_pred)] succeeds on arrays of one
    shape with at least one column (targets without a column are of no
    supported type); the text of the report is not modelled. *)
Definition classification_report (y_true y_pred : Np.ndarray bool)
    : result unit :=
  if (1 <=? Np.shape1 y_true)
     && (Np.shape1 y_true =? Np.shape1 y_pred)
     && (Np.shape0 y_true =? Np.shape0 y_pred)
  then ok tt else raise ValueError.

End Sk.

(* ================================================================== *)
(** * The micro rates in binary64 *)

(** The arithmetic of lines 267 to 270 of the source on float64 numbers
    as the machine has them. *)
Module F64.

(** An integer count as a float64; exact below 2^53. *)
Fixpoint of_pos (p : positive) : PrimFloat.float :=
  match p with
  | xH => PrimFloat.one
  | xO p => PrimFloat.mul PrimFloat.two (of_pos p)
  | xI p =>
      PrimFloat.add (PrimFloat.mul PrimFloat.two (of_pos p)) PrimFloat.one
  end.

Definition of_nat (n : nat) : PrimFloat.float :=
  match N.of_nat n with
  | N0 => PrimFloat.zero
  | Npos p => of_pos p
  end.

(** [np.mean] of a list of integer counts: their sum, accumulated in
    float64, over their number. *)
Definition mean_counts (l : list nat) : PrimFloat.float :=
  PrimFloat.div (fold_left PrimFloat.add (map of_nat l) PrimFloat.zero)
                (of_nat (length l)).

(** [micro_sensitivity], [micro_specificity] and [micro_precision]. *)
Definition micro_rates (TP FP TN FN : list nat)
    : PrimFloat.float * PrimFloat.float * PrimFloat.float :=
  let TP_mean := mean_counts TP in
  let FP_mean := mean_counts FP in
  let TN_mean := mean_counts TN in
  let FN_mean := mean_counts FN in
  let micro_sensitivity :=
    PrimFloat.div TP_mean (PrimFloat.add TP_mean FN_mean) in
  let micro_specificity :=
    PrimFloat.div TN_mean (PrimFloat.add TN_mean FP_mean) in
  let micro_precision :=
    PrimFloat.div TP_mean (PrimFloat.add TP_mean FP_mean) in
  (micro_sensitivity, micro_specificity, micro_precision).

(** The rate a out of a + b from counts pooled over the labels, in
    float64. *)
Definition pooled_rate (a b : list nat) : PrimFloat.float :=
  PrimFloat.div (of_nat (list_sum a)) (of_nat (list_sum a + list_sum b)).

End F64.

(* ================================================================== *)
(** * Printing and raising *)

(** What the program prints, one constructor per [print] call of the
    source; a formatted number stands for its text. *)
Inductive line : Type :=
| Line_epoch (epoch n_epoch : nat)
| Line_validation_metrics
| Line_test_metrics
| Line_counts_header
| Line_counts (TP_i FP_i TN_i FN_i : nat)
| Line_micro (sensitivity specificity precision f1 : Np.float)
| Line_macro (sensitivity specificity precision f1 : Np.float)
| Line_weighted (f1_score : Np.float)
| Line_roc_auc (roc_auc : Np.float)
| Line_classification_report (bin_labels bin_preds : Np.ndarray bool)
| Line_losses (train_loss val_loss : Np.float)
| Line_test_loss (test_loss : Np.float).

(** A run: the lines printed so far, and the value returned or the
    exception raised. *)
Definition M (A : Type) : Type := (list line * result A)%type.

Definition ret {A} (a : A) : M A := ([], ok a).

Definition bind {A B} (m : M A) (k : A -> M B) : M B :=
  match snd m with
  | inl e => (fst m, inl e)
  | inr a => (fst m ++ fst (k a), snd (k a))
  end.

Definition print (l : line) : M unit := ([l], ok tt).

Definition lift {A} (r : result A) : M A := ([], r).

Definition printed {A} (m : M A) : list line := fst m.
Definition outcome {A} (m : M A) : result A := snd m.

Declare Scope run_scope.
Delimit Scope run_scope with run.
Notation "x <- c ;; k" := (bind c (fun x => k))
  (at level 61, c at next level, right associativity) : run_scope.
Notation "c ;;; k" := (bind c (fun _ => k))
  (at level 61, right associativity) : run_scope.

(** [for i in range(...)] over a loop state. *)
Fixpoint for_each {S I} (body : S -> I -> M S) (l : list I) (s : S) : M S :=
  match l with
  | [] => ret s
  | i :: rest => (s' <- body s i ;; for_each body rest s')%run
  end.

(* ================================================================== *)
(** * metric_func *)

(** The lists that the loop over the labels appends to. *)
Record metric_lists : Type := MkLists
  { TP : list nat; FP : list nat; TN : list nat; FN : list nat;
    sensitivity : list Np.float;
    specificity : list Np.float;
    precision : list Np.float;
    my_f1 : list Np.float;
    roc_auc : list Np.float }.

Definition empty_lists : metric_lists := MkLists [] [] [] [] [] [] [] [] [].

(** The three rates of one label, from its confusion counts. *)
Definition sensitivity_of (TP_i FN_i : nat) : Np.float :=
  Np.true_divide TP_i (TP_i + FN_i).
Definition specificity_of (TN_i FP_i : nat) : Np.float :=
  Np.true_divide TN_i (TN_i + FP_i).
Definition precision_of (TP_i FP_i : nat) : Np.float :=
  Np.true_divide TP_i (TP_i + FP_i).

(** [2 * s * p / (s + p)] *)
Definition f1_of (s p : Np.float) : Np.float :=
  Np.div (Np.mul (Np.mul Np.two s) p) (Np.add s p).

(** The body of [for i in range(0, bin_labels.shape[1])]. *)
Definition label_body (bin_labels bin_preds : Np.ndarray bool)
    (preds : Np.ndarray Np.float) (acc : metric_lists) (i : nat)
    : M metric_lists :=
  (y_true <- lift (Np.column false bin_labels i) ;;
   y_pred <- lift (Np.column false bin_preds i) ;;
   conf_matrix <- lift (Sk.confusion_matrix y_true y_pred) ;;
   let TP_i := snd (snd conf_matrix) in
   let FP_i := snd (fst conf_matrix) in
   let TN_i := fst (fst conf_matrix) in
   let FN_i := fst (snd conf_matrix) in
   print Line_counts_header ;;;
   print (Line_counts TP_i FP_i TN_i FN_i) ;;;
   let sensitivity_i := sensitivity_of TP_i FN_i in
   let specificity_i := specificity_of TN_i FP_i in
   let precision_i := precision_of TP_i FP_i in
   let f1_i := f1_of sensitivity_i precision_i in
   y_true <- lift (Np.column false bin_labels i) ;;
   y_score <- lift (Np.column Np.NaN preds i) ;;
   roc_auc_i <- lift (Sk.roc_auc_score y_true y_score) ;;
   ret {| TP := TP acc ++ [TP_i];
          FP := FP acc ++ [FP_i];
          TN := TN acc ++ [TN_i];
          FN := FN acc ++ [FN_i];
          sensitivity := sensitivity acc ++ [sensitivity_i];
          specificity := specificity acc ++ [specificity_i];
          precision := precision acc ++ [precision_i];
          my_f1 := my_f1 acc ++ [f1_i];
          roc_auc := roc_auc acc ++ [roc_auc_i] |})%run.

(** The micro block: the counts are averaged over the labels first. *)
Definition micro_block (acc : metric_lists) : line :=
  let TP_mean := Np.mean_counts (TP acc) in
  let FP_mean := Np.mean_counts (FP acc) in
  let TN_mean := Np.mean_counts (TN acc) in
  let FN_mean := Np.mean_counts (FN acc) in
  let micro_sensitivity := Np.div TP_mean (Np.add TP_mean FN_mean) in
  let micro_specificity := Np.div TN_mean (Np.add TN_mean FP_mean) in
  let micro_precision := Np.div TP_mean (Np.add TP_mean FP_mean) in
  let micro_f1 := f1_of micro_sensitivity micro_precision in
  Line_micro micro_sensitivity micro_specificity micro_precision micro_f1.

(** The macro block: the rates of the labels are averaged. *)
Definition macro_block (acc : metric_lists) : line :=
  let macro_sensitivity := Np.mean (sensitivity acc) in
  let macro_specificity := Np.mean (specificity acc) in
  let macro_precision := Np.mean (precision acc) in
  let macro_f1 := f1_of macro_sensitivity macro_precision in
  Line_macro macro_sensitivity macro_specificity macro_precision macro_f1.

(** [metric_func(bin_labels, bin_preds, preds)] *)
Definition metric_func (bin_labels bin_preds : Np.ndarray bool)
    (preds : Np.ndarray Np.float) : M unit :=
  (acc <- for_each (label_body bin_labels bin_preds preds)
            (seq 0 (Np.shape1 bin_labels)) empty_lists ;;
   print (micro_block acc) ;;;
   print (macro_block acc) ;;;
   print (Line_weighted (Np.mean (my_f1 acc))) ;;;
   print (Line_roc_auc (Np.mean (roc_auc acc))) ;;;
   lift (Sk.classification_report bin_labels bin_preds) ;;;
   print (Line_classification_report bin_labels bin_preds))%run.

(** ** The words of the specification *)

(** The rate a out of a + b, from counts pooled (summed) over the labels. *)
Definition pooled_rate (a b : list nat) : Np.float :=
  Np.true_divide (list_sum a) (list_sum a + list_sum b).

(** The confusion counts of one label, and a family of them as the four
    lists that the micro block reads. *)
Record counts : Type := MkCounts
  { c_TP : nat; c_FP : nat; c_TN : nat; c_FN : nat }.

Definition lists_of_family (family : list counts) : metric_lists :=
  {| TP := map c_TP family;
     FP := map c_FP family;
     TN := map c_TN family;
     FN := map c_FN family;
     sensitivity := []; specificity := []; precision := [];
     my_f1 := []; roc_auc := [] |}.

(** The scores of one label taken straight from its two columns. *)
Definition label_TP (y_true y_pred : list bool) : nat :=
  Sk.count_pairs true true y_true y_pred.
Definition label_FP (y_true y_pred : list bool) : nat :=
  Sk.count_pairs false true y_true y_pred.
Definition label_FN (y_true y_pred : list bool) : nat :=
  Sk.count_pairs true false y_true y_pred.

Definition label_f1 (y_true y_pred : list bool) : Np.float :=
  let s := sensitivity_of (label_TP y_true y_pred) (label_FN y_true y_pred) in
  let p := precision_of (label_TP y_true y_pred) (label_FP y_true y_pred) in
  f1_of s p.

(** The columns of an array, left to right. *)
Definition columns {A} (d : A) (a : Np.ndarray A) : list (list A) :=
  map (Np.col d a) (seq 0 (Np.shape1 a)).

(** Both classes occur in a column of labels. *)
Definition two_class (y_true : list bool) : bool :=
  existsb (fun t => t) y_true && existsb negb y_true.

(** Inputs on which the reporter runs to its end with a ROC AUC for every
    label: three arrays of one shape with at least one column, both
    classes in every column of labels, finite probabilities. *)
Definition reportable (bin_labels bin_preds : Np.ndarray bool)
    (preds : Np.ndarray Np.float) : bool :=
  (1 <=? Np.shape1 bin_labels)
  && (Np.shape1 bin_preds =? Np.shape1 bin_labels)
  && (Np.shape1 preds =? Np.shape1 bin_labels)
  && (Np.shape0 bin_preds =? Np.shape0 bin_labels)
  && (Np.shape0 preds =? Np.shape0 bin_labels)
  && forallb (fun i => two_class (Np.col false bin_labels i)
                       && forallb Np.is_finite (Np.col Np.NaN preds i))
       (seq 0 (Np.shape1 bin_labels)).

(** Label [i] passes through the body of the loop: its three columns
    exist and are not empty, the two binary columns have one length, its
    probabilities are finite and, when both classes occur in its ground
    truth, as many as the labels. *)
Definition label_ok (bin_labels bin_preds : Np.ndarray bool)
    (preds : Np.ndarray Np.float) (i : nat) : bool :=
  (i <? Np.shape1 bin_labels)
  && (i <? Np.shape1 bin_preds)
  && (Np.shape0 bin_labels =? Np.shape0 bin_preds)
  && (1 <=? Np.shape0 bin_labels)
  && (i <? Np.shape1 preds)
  && (1 <=? Np.shape0 preds)
  && forallb Np.is_finite (Np.col Np.NaN preds i)
  && (negb (two_class (Np.col false bin_labels i))
      || (Np.shape0 bin_labels =? Np.shape0 preds)).

(** Inputs on which [metric_func] runs to its end: labels and
    predictions of one shape with at least one row and one column,
    probabilities with as many rows and no fewer columns, finite in the
    columns read.  A column of labels with a single class is no
    obstacle. *)
Definition runs_to_end (bin_labels bin_preds : Np.ndarray bool)
    (preds : Np.ndarray Np.float) : bool :=
  (1 <=? Np.shape1 bin_labels)
  && (Np.shape1 bin_preds =? Np.shape1 bin_labels)
  && (Np.shape1 bin_labels <=? Np.shape1 preds)
  && (1 <=? Np.shape0 bin_labels)
  && (Np.shape0 bin_preds =? Np.shape0 bin_labels)
  && (Np.shape0 preds =? Np.shape0 bin_labels)
  && forallb (fun i => forallb Np.is_finite (Np.col Np.NaN preds i))
       (seq 0 (Np.shape1 bin_labels)).

(** What one label adds to the lists when the body of the loop runs to
    its end. *)
Definition label_step (bin_labels bin_preds : Np.ndarray bool)
    (preds : Np.ndarray Np.float) (acc : metric_lists) (i : nat)
    : metric_lists :=
  let y_true := Np.col false bin_labels i in
  let y_pred := Np.col false bin_preds i in
  let TP_i := Sk.count_pairs true true y_true y_pred in
  let FP_i := Sk.count_pairs false true y_true y_pred in
  let TN_i := Sk.count_pairs false false y_true y_pred in
  let FN_i := Sk.count_pairs true false y_true y_pred in
  {| TP := TP acc ++ [TP_i];
     FP := FP acc ++ [FP_i];
     TN := TN acc ++ [TN_i];
     FN := FN acc ++ [FN_i];
     sensitivity := sensitivity acc ++ [sensitivity_of TP_i FN_i];
     specificity := specificity acc ++ [specificity_of TN_i FP_i];
     precision := precision acc ++ [precision_of TP_i FP_i];
     my_f1 := my_f1 acc
              ++ [f1_of (sensitivity_of TP_i FN_i) (precision_of TP_i FP_i)];
     roc_auc := roc_auc acc ++ [Sk.auc y_true (Np.col Np.NaN preds i)] |}.

(** The lists after the loop has run over the labels [idx]. *)
Definition lists_after (bin_labels bin_preds : Np.ndarray bool)
    (preds : Np.ndarray Np.float) (idx : list nat) : metric_lists :=
  fold_left (label_step bin_labels bin_preds preds) idx empty_lists.

(** The two lines that the body of the loop prints for label [i]. *)
Definition label_lines (bin_labels bin_preds : Np.ndarray bool) (i : nat)
    : list line :=
  let y_true := Np.col false bin_labels i in
  let y_pred := Np.col false bin_preds i in
  [Line_counts_header;
   Line_counts (Sk.count_pairs true true y_true y_pred)
               (Sk.count_pairs false true y_true y_pred)
               (Sk.count_pairs false false y_true y_pred)
               (Sk.count_pairs true false y_true y_pred)].

(** The unweighted arithmetic mean: the sum over the number of terms. *)
Definition arithmetic_mean (l : list Np.float) : Np.float :=
  Np.div (fold_right Np.add Np.zero l) (Np.of_nat (length l)).

(** The support of a label: its number of positive samples. *)
Definition support (y_true : list bool) : nat :=
  length (filter (fun t => t) y_true).

(** A sample-weighted (support-weighted) mean of per-label scores. *)
Definition support_weighted_mean (supports : list nat)
    (scores : list Np.float) : Np.float :=
  Np.div
    (fold_right Np.add Np.zero
       (map (fun ws => Np.mul (Np.of_nat (fst ws)) (snd ws))
            (combine supports scores)))
    (Np.of_nat (list_sum supports)).

(** The lines that the loop over the labels prints: the header of the
    counts and the counts. *)
Definition counts_line (l : line) : Prop :=
  match l with
  | Line_counts_header | Line_counts _ _ _ _ => True
  | _ => False
  end.

(* ================================================================== *)
(** * train and test *)

Section Loops.

(** The collaborators that the caller hands to [train] and [test].  The
    network and the optimizer are objects that the loop mutates: their
    states are threaded through the calls.  The collaborators are taken
    to return. *)
Variables Net Opt Samples : Type.

(** [net(samples)] in training mode ([true]) or in evaluation mode: the
    logits, and the network after the call. *)
Variable net_call : bool -> Net -> Samples -> Net * Np.ndarray Np.float.

(** [criterion(preds, labels).item()] *)
Variable criterion : Np.ndarray Np.float -> Np.ndarray bool -> Np.float.

(** [loss.backward()] followed by [optimizer.step()], on the gradients
    that [optimizer.zero_grad()] cleared before the forward pass. *)
Variable backward_step :
  Opt -> Net -> Samples -> Np.ndarray bool -> Opt * Net.

(** [torch.sigmoid] on one entry. *)
Variable sigmoid : Np.float -> Np.float.

(** A batch of the loader: a mapping with the two keys. *)
Record Batch : Type := MkBatch
  { ecg_signals : Samples; labels : Np.ndarray bool }.

(** [torch.sigmoid(preds)] *)
Definition torch_sigmoid (preds : Np.ndarray Np.float)
    : Np.ndarray Np.float :=
  Np.map_array sigmoid preds.

(** [(preds > treshold_preds).float()]: [preds] is a float32 tensor and
    [treshold_preds] a Python number, which torch converts to the type of
    the tensor before it compares; the entries 1.0 and 0.0 are kept as
    booleans. *)
Definition binarize (preds : Np.ndarray Np.float)
    (treshold_preds : Np.float) : Np.ndarray bool :=
  Np.map_array (fun p => Np.gtb p (Np.float32 treshold_preds)) preds.

(** The binarisation entry by entry, straight from the logits: the bit
    of a logit says whether its sigmoid is greater than the threshold as
    float32. *)
Definition strict_bits (treshold_preds : Np.float)
    (logits : Np.ndarray Np.float) : Np.ndarray bool :=
  Np.map_array
    (fun logit => Np.gtb (sigmoid logit) (Np.float32 treshold_preds))
    logits.

(** The variables of the training pass of one epoch. *)
Record train_vars : Type := MkTrainVars
  { tr_net : Net;
    tr_optimizer : Opt;
    train_loss : Np.float;
    train_labels : list (Np.ndarray bool);
    train_preds : list (Np.ndarray bool);
    train_prob : list (Np.ndarray Np.float) }.

(** The body of [for (batch_idx, train_batch) in enumerate(train_loader)]. *)
Definition train_body (treshold_preds : Np.float) (v : train_vars)
    (train_batch : Batch) : train_vars :=
  let samples := ecg_signals train_batch in
  let labels := labels train_batch in
  let '(net, preds) := net_call true (tr_net v) samples in
  let loss := criterion preds labels in
  let '(optimizer, net) :=
    backward_step (tr_optimizer v) net samples labels in
  let train_loss := Np.add (train_loss v) loss in
  let preds := torch_sigmoid preds in
  let bin_preds := binarize preds treshold_preds in
  {| tr_net := net;
     tr_optimizer := optimizer;
     train_loss := train_loss;
     train_labels := train_labels v ++ [labels];
     train_preds := train_preds v ++ [bin_preds];
     train_prob := train_prob v ++ [preds] |}.

(** The variables of an evaluation pass (validation or test). *)
Record eval_vars : Type := MkEvalVars
  { ev_net : Net;
    ev_loss : Np.float;
    ev_labels : list (Np.ndarray bool);
    ev_preds : list (Np.ndarray bool);
    ev_prob : list (Np.ndarray Np.float) }.

(** The body of [for val_batch in val_loader] and of
    [for (batch_idx, test_batch) in enumerate(test_loader)]. *)
Definition eval_body (treshold_preds : Np.float) (v : eval_vars)
    (batch : Batch) : eval_vars :=
  let samples := ecg_signals batch in
  let labels := labels batch in
  let '(net, preds) := net_call false (ev_net v) samples in
  let loss := Np.add (ev_loss v) (criterion preds labels) in
  let preds := torch_sigmoid preds in
  let bin_preds := binarize preds treshold_preds in
  {| ev_net := net;
     ev_loss := loss;
     ev_prob := ev_prob v ++ [preds];
     ev_labels := ev_labels v ++ [labels];
     ev_preds := ev_preds v ++ [bin_preds] |}.

(** The training pass of one epoch, from the fresh variables of
    [train_loss = 0.0] and the six empty lists. *)
Definition train_pass (train_loader : list Batch)
    (treshold_preds : Np.float) (net : Net) (optimizer : Opt)
    : train_vars :=
  fold_left (train_body treshold_preds) train_loader
    (MkTrainVars net optimizer Np.zero [] [] []).

Definition eval_pass (loader : list Batch) (treshold_preds : Np.float)
    (net : Net) : eval_vars :=
  fold_left (eval_body treshold_preds) loader
    (MkEvalVars net Np.zero [] [] []).

(** What survives from one epoch to the next. *)
Record train_state : Type := MkTrainState
  { st_net : Net;
    st_optimizer : Opt;
    loss_train_history : list Np.float;
    loss_val_history : list Np.float }.

(** One epoch after its training pass: everything from
    [train_loss /= len(train_loader)] to the last [print]. *)
Definition epoch_after_train_pass (train_loader val_loader : list Batch)
    (treshold_preds : Np.float) (st : train_state) (tv : train_vars)
    : M train_state :=
  (train_loss <- lift (py_truediv (train_loss tv) (length train_loader)) ;;
   let loss_train_history := loss_train_history st ++ [train_loss] in
   let ev := eval_pass val_loader treshold_preds (tr_net tv) in
   val_loss <- lift (py_truediv (ev_loss ev) (length val_loader)) ;;
   let loss_val_history := loss_val_history st ++ [val_loss] in
   print Line_validation_metrics ;;;
   val_labels <- lift (Np.concatenate (ev_labels ev)) ;;
   val_preds <- lift (Np.concatenate (ev_preds ev)) ;;
   val_prob <- lift (Np.concatenate (ev_prob ev)) ;;
   metric_func val_labels val_preds val_prob ;;;
   print (Line_losses train_loss val_loss) ;;;
   ret (MkTrainState (ev_net ev) (tr_optimizer tv)
          loss_train_history loss_val_history))%run.

(** The body of [for epoch in range(n_epoch)]. *)
Definition epoch_body (train_loader val_loader : list Batch)
    (n_epoch : nat) (treshold_preds : Np.float)
    (st : train_state) (epoch : nat) : M train_state :=
  (print (Line_epoch (epoch + 1) n_epoch) ;;;
   let tv := train_pass train_loader treshold_preds
               (st_net st) (st_optimizer st) in
   epoch_after_train_pass train_loader val_loader treshold_preds st tv)%run.

(** [train(net, train_loader, val_loader, n_epoch, optimizer, criterion,
    treshold_preds)]; the optimizer is mutated and not returned. *)
Definition train (net : Net) (train_loader val_loader : list Batch)
    (n_epoch : nat) (optimizer : Opt) (treshold_preds : Np.float)
    : M (Net * list Np.float * list Np.float) :=
  (st <- for_each (epoch_body train_loader val_loader n_epoch treshold_preds)
           (seq 0 n_epoch) (MkTrainState net optimizer [] []) ;;
   ret (st_net st, loss_train_history st, loss_val_history st))%run.

(** [test(net, test_loader, criterion, treshold_preds)] *)
Definition test (net : Net) (test_loader : list Batch)
    (treshold_preds : Np.float) : M Np.float :=
  (let ev := eval_pass test_loader treshold_preds net in
   test_loss <- lift (py_truediv (ev_loss ev) (length test_loader)) ;;
   print Line_test_metrics ;;;
   test_labels <- lift (Np.concatenate (ev_labels ev)) ;;
   test_preds <- lift (Np.concatenate (ev_preds ev)) ;;
   test_prob <- lift (Np.concatenate (ev_prob ev)) ;;
   metric_func test_labels test_preds test_prob ;;;
   print (Line_test_loss test_loss) ;;;
   ret test_loss)%run.

(** ** The words of the specification *)

(** The network and the optimizer at the start of epoch [e]. *)
Fixpoint state_at (train_loader val_loader : list Batch)
    (treshold_preds : Np.float) (net : Net) (optimizer : Opt) (e : nat)
    : Net * Opt :=
  match e with
  | 0 => (net, optimizer)
  | S e' =>
      let '(net, optimizer) :=
        state_at train_loader val_loader treshold_preds net optimizer e' in
      let tv := train_pass train_loader treshold_preds net optimizer in
      let ev := eval_pass val_loader treshold_preds (tr_net tv) in
      (ev_net ev, tr_optimizer tv)
  end.

(** The loss accumulated over the training batches of epoch [e], and
    over its validation batches. *)
Definition accumulated_train_loss (train_loader val_loader : list Batch)
    (treshold_preds : Np.float) (net : Net) (optimizer : Opt) (e : nat)
    : Np.float :=
  let '(net, optimizer) :=
    state_at train_loader val_loader treshold_preds net optimizer e in
  train_loss (train_pass train_loader treshold_preds net optimizer).

Definition accumulated_val_loss (train_loader val_loader : list Batch)
    (treshold_preds : Np.float) (net : Net) (optimizer : Opt) (e : nat)
    : Np.float :=
  let '(net, optimizer) :=
    state_at train_loader val_loader treshold_preds net optimizer e in
  let tv := train_pass train_loader treshold_preds net optimizer in
  ev_loss (eval_pass val_loader treshold_preds (tr_net tv)).

(** The arrays of an evaluation pass can be reported: they concatenate
    into three arrays on which the reporter runs to its end. *)
Definition pass_reportable (ev : eval_vars) : Prop :=
  exists val_labels val_preds val_prob,
    Np.concatenate (ev_labels ev) = ok val_labels /\
    Np.concatenate (ev_preds ev) = ok val_preds /\
    Np.concatenate (ev_prob ev) = ok val_prob /\
    reportable val_labels val_preds val_prob = true.

(** The outcome of the report on the arrays of an evaluation pass: the
    three concatenations, then the reporter. *)
Definition report_outcome (ev : eval_vars) : result unit :=
  (val_labels <- Np.concatenate (ev_labels ev) ;;
   val_preds <- Np.concatenate (ev_preds ev) ;;
   val_prob <- Np.concatenate (ev_prob ev) ;;
   outcome (metric_func val_labels val_preds val_prob))%result.

(** The report of epoch [e] does not raise: the validation arrays of the
    epoch concatenate and the reporter returns on them. *)
Definition epoch_reported (train_loader val_loader : list Batch)
    (treshold_preds : Np.float) (net : Net) (optimizer : Opt) (e : nat)
    : Prop :=
  let '(net, optimizer) :=
    state_at train_loader val_loader treshold_preds net optimizer e in
  let tv := train_pass train_loader treshold_preds net optimizer in
  report_outcome (eval_pass val_loader treshold_preds (tr_net tv)) = ok tt.

End Loops.

Arguments MkBatch {Samples} _ _.
Arguments ecg_signals {Samples} _.
Arguments labels {Samples} _.
Arguments MkTrainVars {Net Opt} _ _ _ _ _ _.
Arguments tr_net {Net Opt} _.
Arguments tr_optimizer {Net Opt} _.
Arguments train_loss {Net Opt} _.
Arguments train_labels {Net Opt} _.
Arguments train_preds {Net Opt} _.
Arguments train_prob {Net Opt} _.
Arguments MkEvalVars {Net} _ _ _ _ _.
Arguments ev_net {Net} _.
Arguments ev_loss {Net} _.
Arguments ev_labels {Net} _.
Arguments ev_preds {Net} _.
Arguments ev_prob {Net} _.
Arguments MkTrainState {Net Opt} _ _ _ _.
Arguments st_net {Net Opt} _.
Arguments st_optimizer {Net Opt} _.
Arguments loss_train_history {Net Opt} _.
Arguments loss_val_history {Net Opt} _.
Arguments train_body {Net Opt Samples} _ _ _ _ _ _ _.
Arguments eval_body {Net Samples} _ _ _ _ _ _.
Arguments train_pass {Net Opt Samples} _ _ _ _ _ _ _ _.
Arguments eval_pass {Net Samples} _ _ _ _ _ _.
Arguments epoch_after_train_pass {Net Opt Samples} _ _ _ _ _ _ _ _.
Arguments epoch_body {Net Opt Samples} _ _ _ _ _ _ _ _ _ _.
Arguments train {Net Opt Samples} _ _ _ _ _ _ _ _ _ _.
Arguments test {Net Samples} _ _ _ _ _ _.
Arguments state_at {Net Opt Samples} _ _ _ _ _ _ _ _ _ _.
Arguments accumulated_train_loss {Net Opt Samples} _ _ _ _ _ _ _ _ _ _.
Arguments accumulated_val_loss {Net Opt Samples} _ _ _ _ _ _ _ _ _ _.
Arguments pass_reportable {Net} _.
Arguments report_outcome {Net} _.
Arguments epoch_reported {Net Opt Samples} _ _ _ _ _ _ _ _ _ _.

(** A small instance of the collaborators, to run the loops on: the
    network is a counter of its training steps and answers with the
    samples themselves as logits, the loss is constantly one, and the
    squashing function is a step between 1/4 and 3/4. *)
Module Toy.

Definition Net : Type := nat.
Definition Opt : Type := unit.
Definition Samples : Type := Np.ndarray Np.float.

Definition net_call (training : bool) (net : Net) (samples : Samples)
    : Net * Np.ndarray Np.float := (net, samples).

Definition criterion (preds : Np.ndarray Np.float)
    (labels : Np.ndarray bool) : Np.float := Np.one.

Definition backward_step (optimizer : Opt) (net : Net) (samples : Samples)
    (labels : Np.ndarray bool) : Opt * Net := (optimizer, S net).

Definition sigmoid (x : Np.float) : Np.float :=
  if Np.gtb x Np.zero then Np.Fin (Q2Qc (3 # 4)) else Np.Fin (Q2Qc (1 # 4)).

Definition treshold : Np.float := Np.Fin (Q2Qc (1 # 2)).

(** Two samples, two labels. *)
Definition samples_a : Samples :=
  Np.MkArray 2 [[Np.one; Np.NInf]; [Np.NInf; Np.one]].
Definition labels_a : Np.ndarray bool :=
  Np.MkArray 2 [[true; false]; [false; true]].
Definition batch_a : Batch Samples := MkBatch samples_a labels_a.

(** A batch whose second label has no positive sample. *)
Definition labels_b : Np.ndarray bool :=
  Np.MkArray 2 [[true; false]; [false; false]].
Definition batch_b : Batch Samples := MkBatch samples_a labels_b.

(** A batch with two labels per sample for which the network answers
    with one logit per sample. *)
Definition samples_c : Samples := Np.MkArray 1 [[Np.one]; [Np.NInf]].
Definition batch_c : Batch Samples := MkBatch samples_c labels_a.

End Toy.

(* ================================================================== *)
(** * Further definitions *)

(** The first nine statements of [ResNet.forward]: the stem and the four
    stages, up to the features that reach the average pool. *)
Definition ResNet_features (training : bool) (self : ResNet)
    (x : shape3) : result shape3 :=
  (out <- Conv1d_forward (stem_conv_1 self) x ;;
   out <- BatchNorm1d_forward training (stem_batch_norm_1 self) out ;;
   let out := relu out in
   out <- MaxPool1d_forward (maxpool_1 self) out ;;
   out <- Sequential_forward training (layer_1 self) out ;;
   out <- Sequential_forward training (layer_2 self) out ;;
   out <- Sequential_forward training (layer_3 self) out ;;
   Sequential_forward training (layer_4 self) out)%result.

(** The last three statements of [ResNet.forward]. *)
Definition ResNet_head (self : ResNet) (out : shape3) : result shape2 :=
  (out <- AdaptiveAvgPool1d_1 out ;;
   let out := flatten_1 out in
   Linear_forward (fc self) out)%result.

(** The four stages of a network, first to last. *)
Definition stages (self : ResNet) : list (list Bottleneck) :=
  [layer_1 self; layer_2 self; layer_3 self; layer_4 self].

(** The counts of a printed line add up to [n]; other lines pass. *)
Definition counts_add_up (n : nat) (l : line) : Prop :=
  match l with
  | Line_counts TP_i FP_i TN_i FN_i => TP_i + FP_i + TN_i + FN_i = n
  | _ => True
  end.

(** Two outcomes agree up to the value returned: both return, or both
    raise the same exception. *)
Definition same_exn {A B} (r : result A) (r' : result B) : Prop :=
  match r, r' with
  | inl e, inl e' => e = e'
  | inr _, inr _ => True
  | _, _ => False
  end.

(* ================================================================== *)
(** * Shapes through the network *)

Section NetShapes.

Lemma ceil_div_1 (a : nat) : ceil_div a 1 = a.
Proof. unfold ceil_div. rewrite Nat.div_1_r. lia. Qed.

Lemma ceil_div_strided (a s : nat) :
  1 <= a -> 1 <= s -> (a + 2 * 1 - 3) / s + 1 = ceil_div a s.
Proof.
  intros Ha Hs. unfold ceil_div.
  replace (a + s - 1) with ((a + 2 * 1 - 3) + 1 * s) by lia.
  rewrite Nat.div_add by lia. reflexivity.
Qed.

Lemma ceil_div_pointwise (a s : nat) :
  1 <= a -> 1 <= s -> (a + 2 * 0 - 1) / s + 1 = ceil_div a s.
Proof.
  intros Ha Hs. rewrite <- ceil_div_strided by assumption.
  f_equal. f_equal. lia.
Qed.

Lemma ceil_div_stem (a : nat) :
  1 <= a -> (a + 2 * 7 - 15) / 2 + 1 = ceil_div a 2.
Proof.
  intros Ha. rewrite <- ceil_div_strided by lia. f_equal. f_equal. lia.
Qed.

Lemma ceil_div_pos (a s : nat) : 1 <= a -> 1 <= s -> 1 <= ceil_div a s.
Proof.
  intros Ha Hs. unfold ceil_div.
  apply Nat.div_le_lower_bound; lia.
Qed.

Lemma ceil_div_le (a s : nat) : 1 <= s -> ceil_div a s <= a.
Proof.
  intros Hs. unfold ceil_div.
  destruct a as [|a].
  - rewrite Nat.div_small by lia. lia.
  - apply Nat.Div0.div_le_upper_bound. nia.
Qed.

Lemma ceil_div_2_lower (a : nat) : a <= 2 * ceil_div a 2.
Proof.
  unfold ceil_div.
  pose proof (Nat.div_mod_eq (a + 2 - 1) 2) as E.
  pose proof (Nat.mod_upper_bound (a + 2 - 1) 2) as B. lia.
Qed.

Lemma ceil_div_2_upper (a b : nat) : a <= 2 * b -> ceil_div a 2 <= b.
Proof.
  intros H. unfold ceil_div.
  pose proof (Nat.div_mod_eq (a + 2 - 1) 2) as E.
  pose proof (Nat.mod_upper_bound (a + 2 - 1) 2) as B. lia.
Qed.

Lemma single_value_iff (b l : nat) : b * l = 1 <-> b = 1 /\ l = 1.
Proof.
  split; [|intros [-> ->]; reflexivity].
  intros E. destruct b as [|[|b]], l as [|[|l]]; cbn in E; lia.
Qed.

(** What each layer does to a well-shaped input. *)

Lemma Conv1d_forward_shape (cin cout k s p b l : nat) :
  1 <= cout -> 1 <= s -> k <= l + 2 * p ->
  Conv1d_forward (MkConv1d cin cout k s p) (Shape3 b cin l)
  = ok (Shape3 b cout ((l + 2 * p - k) / s + 1)).
Proof.
  intros Hc Hs Hk. unfold Conv1d_forward. cbn [sz_channels in_channels
    conv_stride sz_length padding kernel_size sz_batch out_channels].
  destruct (Nat.eqb_spec cout 0) as [->|_]; [lia|].
  rewrite Nat.eqb_refl. cbn [negb].
  destruct (Nat.eqb_spec s 0) as [->|_]; [lia|].
  destruct (Nat.ltb_spec (l + 2 * p) k) as [H|_]; [lia|]. reflexivity.
Qed.

Lemma BatchNorm1d_forward_shape (training : bool) (c b l : nat) :
  (training = true -> b * l <> 1) ->
  BatchNorm1d_forward training (MkBatchNorm1d c) (Shape3 b c l)
  = ok (Shape3 b c l).
Proof.
  intros H. unfold BatchNorm1d_forward.
  cbn [sz_batch sz_length sz_channels num_features].
  rewrite Nat.eqb_refl. cbn [negb].
  destruct training; cbn [andb]; [|reflexivity].
  destruct (Nat.eqb_spec (b * l) 1) as [E|_]; [|reflexivity].
  exfalso. now apply H.
Qed.

Lemma tensor_add_same (x : shape3) : tensor_add x x = ok x.
Proof.
  destruct x as [b c l]. unfold tensor_add, broadcast_dim.
  cbn [sz_batch sz_channels sz_length].
  rewrite !Nat.eqb_refl. reflexivity.
Qed.

Lemma expansion_pos (planes : nat) : 1 <= planes -> 1 <= planes * expansion.
Proof. unfold expansion. lia. Qed.

(** The shape a block returns, whatever the (valid) skip path. *)
Lemma Bottleneck_forward_shape (training : bool)
    (inplanes planes stride : nat) (ds : option Downsample)
    (batch length : nat) :
  1 <= planes -> 1 <= stride ->
  match ds with
  | Some d => d = projection inplanes planes stride
  | None => stride = 1 /\ inplanes = planes * expansion
  end ->
  1 <= length ->
  (training = true -> batch * ceil_div length stride <> 1) ->
  Bottleneck_forward training (Bottleneck_init inplanes planes stride ds)
    (Shape3 batch inplanes length)
  = ok (Shape3 batch (planes * expansion) (ceil_div length stride)).
Proof.
  intros Hp Hs Hds Hl Hbn.
  pose proof (expansion_pos planes Hp) as Hpe.
  assert (Hbn0 : training = true -> batch * length <> 1).
  { intros Ht E. apply single_value_iff in E as [-> ->].
    apply (Hbn Ht). apply single_value_iff. split; [reflexivity|].
    pose proof (ceil_div_pos 1 stride) as P.
    pose proof (ceil_div_le 1 stride Hs) as Q. lia. }
  unfold Bottleneck_forward, Bottleneck_init.
  cbn [conv_1 batch_norm_1 conv_2 batch_norm_2 conv_3 batch_norm_3
       downsample relu].
  rewrite Conv1d_forward_shape by lia. cbn [rbind ok]; unfold relu.
  rewrite ceil_div_pointwise, ceil_div_1 by lia.
  rewrite BatchNorm1d_forward_shape by assumption. cbn [rbind ok]; unfold relu.
  rewrite Conv1d_forward_shape by lia. cbn [rbind ok]; unfold relu.
  rewrite ceil_div_strided by lia.
  rewrite BatchNorm1d_forward_shape by assumption. cbn [rbind ok]; unfold relu.
  pose proof (ceil_div_pos length stride Hl Hs) as Hpos.
  rewrite Conv1d_forward_shape by lia. cbn [rbind ok]; unfold relu.
  rewrite ceil_div_pointwise, ceil_div_1 by lia.
  rewrite BatchNorm1d_forward_shape by assumption. cbn [rbind ok]; unfold relu.
  destruct ds as [d|].
  - subst d. unfold Downsample_forward, projection. cbn [ds_conv ds_norm].
    rewrite Conv1d_forward_shape by lia. cbn [rbind ok]; unfold relu.
    rewrite ceil_div_pointwise by lia.
    rewrite BatchNorm1d_forward_shape by assumption.
    cbn [rbind ok]; unfold relu.
    rewrite tensor_add_same. reflexivity.
  - destruct Hds as [-> ->]. rewrite ceil_div_1. cbn [rbind ok]; unfold relu.
    rewrite tensor_add_same. reflexivity.
Qed.

(** The blocks after the first keep the shape. *)
Lemma Sequential_forward_tail (training : bool) (planes : nat)
    (idx : list nat) (batch length : nat) :
  1 <= planes ->
  1 <= length ->
  (training = true -> batch * length <> 1) ->
  Sequential_forward training
    (map (fun _ => Bottleneck_init (planes * expansion) planes 1 None) idx)
    (Shape3 batch (planes * expansion) length)
  = ok (Shape3 batch (planes * expansion) length).
Proof.
  intros Hp Hl Hbn. induction idx as [|i idx IH]; [reflexivity|].
  cbn [map Sequential_forward].
  rewrite Bottleneck_forward_shape.
  - rewrite ceil_div_1. cbn [rbind ok]; unfold relu. exact IH.
  - assumption.
  - lia.
  - split; reflexivity.
  - assumption.
  - rewrite ceil_div_1. assumption.
Qed.

(** A whole stage: the first block changes channels and length, the
    others keep them. *)
Lemma stage_forward_shape (training : bool)
    (self_inplanes planes blocks stride batch length : nat) :
  1 <= planes -> 1 <= stride -> 1 <= length ->
  (training = true -> batch * ceil_div length stride <> 1) ->
  Sequential_forward training
    (snd (_make_layer self_inplanes planes blocks stride))
    (Shape3 batch self_inplanes length)
  = ok (Shape3 batch (planes * expansion) (ceil_div length stride)).
Proof.
  intros Hp Hs Hl Hbn. unfold _make_layer. cbn [snd Sequential_forward].
  rewrite Bottleneck_forward_shape; try assumption.
  - cbn [rbind ok]; unfold relu.
    apply Sequential_forward_tail; [assumption| |assumption].
    now apply ceil_div_pos.
  - destruct (Nat.eqb_spec stride 1) as [E1|N1]; cbn [negb orb];
      [|reflexivity].
    destruct (Nat.eqb_spec self_inplanes (planes * expansion)) as [E2|N2];
      cbn [negb]; [split; assumption | reflexivity].
Qed.

(** The constructor returns exactly when the list has four entries or
    more, and the stages are the four calls of [_make_layer]. *)
Lemma ResNet_init_inv (layers : list nat) (num_classes : nat) (net : ResNet) :
  ResNet_init layers num_classes = ok net ->
  exists n0 n1 n2 n3 rest,
    layers = n0 :: n1 :: n2 :: n3 :: rest /\
    net = MkResNet (512 * expansion) (MkConv1d 12 64 15 2 7)
            (MkBatchNorm1d 64) (MkMaxPool1d 3 2 1)
            (snd (_make_layer 64 64 n0 1))
            (snd (_make_layer (64 * expansion) 128 n1 2))
            (snd (_make_layer (128 * expansion) 256 n2 2))
            (snd (_make_layer (256 * expansion) 512 n3 2))
            (MkLinear (512 * expansion) num_classes).
Proof.
  intros H.
  destruct layers as [|n0 [|n1 [|n2 [|n3 rest]]]]; try discriminate H.
  exists n0, n1, n2, n3, rest. split; [reflexivity|].
  unfold ResNet_init in H. cbn in H. injection H as <-. reflexivity.
Qed.

Lemma ResNet_forward_shape (training : bool) (layers : list nat)
    (num_classes : nat) (net : ResNet) (batch length : nat) :
  ResNet_init layers num_classes = ok net ->
  survives training batch length ->
  ResNet_forward training net (Shape3 batch 12 length)
  = ok (Shape2 batch num_classes).
Proof.
  intros Hinit [Hl Hbn].
  destruct (ResNet_init_inv _ _ _ Hinit) as (n0 & n1 & n2 & n3 & rest & _ & ->).
  pose proof (ceil_div_2_lower length) as B1.
  pose proof (ceil_div_2_lower (ceil_div length 2)) as B2.
  pose proof (ceil_div_2_lower (ceil_div (ceil_div length 2) 2)) as B3.
  pose proof (ceil_div_2_lower
                (ceil_div (ceil_div (ceil_div length 2) 2) 2)) as B4.
  pose proof (ceil_div_2_lower
                (ceil_div (ceil_div (ceil_div (ceil_div length 2) 2) 2) 2))
    as B5.
  set (l1 := ceil_div length 2) in *.
  set (l2 := ceil_div l1 2) in *.
  set (l3 := ceil_div l2 2) in *.
  set (l4 := ceil_div l3 2) in *.
  set (l5 := ceil_div l4 2) in *.
  assert (Hsingle : forall l, 1 <= l -> (33 <= length -> 2 <= l) ->
                              training = true -> batch * l <> 1).
  { intros l H1 H2 Ht E. apply single_value_iff in E as [Eb El].
    specialize (Hbn Ht Eb). lia. }
  unfold ResNet_forward.
  cbn [stem_conv_1 stem_batch_norm_1 maxpool_1 layer_1 layer_2 layer_3
       layer_4 fc relu].
  rewrite Conv1d_forward_shape by lia. cbn [rbind ok]; unfold relu.
  rewrite ceil_div_stem by lia. fold l1.
  rewrite BatchNorm1d_forward_shape by (apply Hsingle; lia).
  cbn [rbind ok]; unfold relu. unfold MaxPool1d_forward.
  cbn [pool_stride pool_padding pool_kernel sz_length sz_batch sz_channels
       Nat.eqb].
  destruct (Nat.ltb_spec (l1 + 2 * 1) 3) as [H|_]; [lia|].
  cbn [rbind ok]; unfold relu. rewrite ceil_div_strided by lia. fold l2.
  rewrite (stage_forward_shape training 64 64 n0 1)
    by (rewrite ?ceil_div_1; try apply Hsingle; lia).
  cbn [rbind ok]; unfold relu. rewrite ceil_div_1.
  rewrite (stage_forward_shape training (64 * expansion) 128 n1 2)
    by (try apply Hsingle; fold l3; lia).
  cbn [rbind ok]; unfold relu. fold l3.
  rewrite (stage_forward_shape training (128 * expansion) 256 n2 2)
    by (try apply Hsingle; fold l4; lia).
  cbn [rbind ok]; unfold relu. fold l4.
  rewrite (stage_forward_shape training (256 * expansion) 512 n3 2)
    by (try apply Hsingle; fold l5; lia).
  cbn [rbind ok]; unfold relu. fold l5.
  unfold AdaptiveAvgPool1d_1. cbn [sz_length sz_batch sz_channels].
  destruct (Nat.eqb_spec l5 0) as [E|_]; [lia|].
  cbn [rbind ok]; unfold relu. unfold flatten_1, Linear_forward.
  cbn [sz_batch sz_channels sz_length sz_features in_features sz_rows
       out_features].
  rewrite Nat.mul_1_r, Nat.eqb_refl. reflexivity.
Qed.

(** A stage in training mode that leaves a single value per channel
    raises in its first block. *)
Lemma stage_forward_single_value
    (self_inplanes planes blocks stride length : nat) :
  1 <= planes -> 1 <= stride -> 1 <= length -> ceil_div length stride = 1 ->
  Sequential_forward true
    (snd (_make_layer self_inplanes planes blocks stride))
    (Shape3 1 self_inplanes length)
  = raise ValueError.
Proof.
  intros Hp Hs Hl H1. unfold _make_layer. cbn [snd Sequential_forward].
  unfold Bottleneck_forward, Bottleneck_init.
  cbn [conv_1 batch_norm_1 conv_2 batch_norm_2].
  rewrite Conv1d_forward_shape by lia. cbn [rbind ok]; unfold relu.
  rewrite ceil_div_pointwise, ceil_div_1 by lia.
  destruct (Nat.eq_dec length 1) as [->|Hne]; [reflexivity|].
  rewrite BatchNorm1d_forward_shape by (intros _; lia).
  cbn [rbind ok]; unfold relu.
  rewrite Conv1d_forward_shape by lia. cbn [rbind ok]; unfold relu.
  rewrite ceil_div_strided, H1 by lia. reflexivity.
Qed.

(** [survives] is exact: on any other length the forward pass raises. *)
Lemma ResNet_forward_raises (training : bool) (layers : list nat)
    (num_classes : nat) (net : ResNet) (batch length : nat) :
  ResNet_init layers num_classes = ok net ->
  ~ survives training batch length ->
  exists e, ResNet_forward training net (Shape3 batch 12 length) = raise e.
Proof.
  intros Hinit Hn.
  destruct (ResNet_init_inv _ _ _ Hinit) as (n0 & n1 & n2 & n3 & rest & _ & ->).
  unfold ResNet_forward.
  cbn [stem_conv_1 stem_batch_norm_1 maxpool_1 layer_1 layer_2 layer_3
       layer_4 fc].
  destruct (Nat.eq_dec length 0) as [->|Hl].
  { exists RuntimeError. reflexivity. }
  assert (Ht : training = true /\ batch = 1 /\ length <= 32).
  { unfold survives in Hn. destruct training; [|exfalso; apply Hn; split;
      [lia | discriminate]].
    destruct (Nat.eq_dec batch 1) as [->|Hb];
      [|exfalso; apply Hn; split; [lia | intros _ E; contradiction]].
    destruct (le_lt_dec length 32);
      [auto | exfalso; apply Hn; split; [lia | intros _ _; lia]]. }
  destruct Ht as (-> & -> & Hle).
  exists ValueError.
  pose proof (ceil_div_2_lower length) as B1.
  pose proof (ceil_div_le length 2 ltac:(lia)) as U1.
  set (l1 := ceil_div length 2) in *.
  pose proof (ceil_div_2_lower l1) as B2.
  pose proof (ceil_div_le l1 2 ltac:(lia)) as U2.
  set (l2 := ceil_div l1 2) in *.
  pose proof (ceil_div_2_lower l2) as B3.
  set (l3 := ceil_div l2 2) in *.
  pose proof (ceil_div_2_lower l3) as B4.
  set (l4 := ceil_div l3 2) in *.
  pose proof (ceil_div_2_lower l4) as B5.
  set (l5 := ceil_div l4 2) in *.
  assert (P1 : 1 <= l1) by (apply ceil_div_pos; lia).
  assert (P2 : 1 <= l2) by (apply ceil_div_pos; lia).
  assert (P3 : 1 <= l3) by (apply ceil_div_pos; lia).
  assert (P4 : 1 <= l4) by (apply ceil_div_pos; lia).
  assert (P5 : 1 <= l5) by (apply ceil_div_pos; lia).
  assert (Q1 : l1 <= 16) by (apply ceil_div_2_upper; lia).
  assert (Q2 : l2 <= 8) by (apply ceil_div_2_upper; lia).
  assert (Q3 : l3 <= 4) by (apply ceil_div_2_upper; lia).
  assert (Q4 : l4 <= 2) by (apply ceil_div_2_upper; lia).
  assert (Q5 : l5 <= 1) by (apply ceil_div_2_upper; lia).
  rewrite Conv1d_forward_shape by lia. cbn [rbind ok]; unfold relu.
  rewrite ceil_div_stem by lia. fold l1.
  destruct (Nat.eq_dec l1 1) as [E1|N1]; [rewrite E1; reflexivity|].
  rewrite BatchNorm1d_forward_shape by (intros _; lia).
  cbn [rbind ok]; unfold relu. unfold MaxPool1d_forward.
  cbn [pool_stride pool_padding pool_kernel sz_length sz_batch sz_channels
       Nat.eqb].
  destruct (Nat.ltb_spec (l1 + 2 * 1) 3) as [H|_]; [lia|].
  cbn [rbind ok]. rewrite ceil_div_strided by lia. fold l2.
  destruct (Nat.eq_dec l2 1) as [E2|N2].
  { rewrite stage_forward_single_value by (rewrite ?ceil_div_1; lia).
    reflexivity. }
  rewrite (stage_forward_shape true 64 64 n0 1)
    by (rewrite ?ceil_div_1; try (intros _); lia).
  cbn [rbind ok]. rewrite ceil_div_1.
  destruct (Nat.eq_dec l3 1) as [E3|N3].
  { rewrite stage_forward_single_value by (fold l3; lia). reflexivity. }
  rewrite (stage_forward_shape true (64 * expansion) 128 n1 2)
    by (try (intros _); fold l3; lia).
  cbn [rbind ok]. fold l3.
  destruct (Nat.eq_dec l4 1) as [E4|N4].
  { rewrite stage_forward_single_value by (fold l4; lia). reflexivity. }
  rewrite (stage_forward_shape true (128 * expansion) 256 n2 2)
    by (try (intros _); fold l4; lia).
  cbn [rbind ok]. fold l4.
  rewrite stage_forward_single_value by (fold l5; lia). reflexivity.
Qed.

End NetShapes.

(** C5.  In [ResNet._make_layer] the first block of a stage carries a
    projection on its skip path (a 1x1 convolution followed by
    normalisation) if and only if the stride differs from 1 or the current
    input channel count differs from planes * 4; every later block of the
    stage, of which there are [blocks - 1], is built without projection. *)
Theorem make_layer_projection_iff
    (self_inplanes planes blocks stride : nat) :
  exists first rest,
    snd (_make_layer self_inplanes planes blocks stride) = first :: rest /\
    (downsample first = Some (projection self_inplanes planes stride) <->
     (stride <> 1 \/ self_inplanes <> planes * 4)) /\
    (downsample first = None <->
     ~ (stride <> 1 \/ self_inplanes <> planes * 4)) /\
    length rest = blocks - 1 /\
    Forall (fun b => b = Bottleneck_init (planes * 4) planes 1 None /\
                     downsample b = None) rest.
Proof.
  unfold _make_layer. cbn [snd]. eexists. eexists.
  split; [reflexivity|]. cbn [Bottleneck_init downsample].
  change expansion with 4.
  destruct (Nat.eqb_spec stride 1) as [E1|N1];
    destruct (Nat.eqb_spec self_inplanes (planes * 4)) as [E2|N2];
    cbn [negb orb]; unfold projection; change expansion with 4.
  - split; [split; [discriminate | lia]|].
    split; [split; [lia | reflexivity]|].
    split; [now rewrite length_map, length_seq|].
    apply Forall_forall. intros b Hb. apply in_map_iff in Hb as [i [<- _]].
    split; reflexivity.
  - split; [split; [lia | reflexivity]|].
    split; [split; [discriminate | lia]|].
    split; [now rewrite length_map, length_seq|].
    apply Forall_forall. intros b Hb. apply in_map_iff in Hb as [i [<- _]].
    split; reflexivity.
  - split; [split; [lia | reflexivity]|].
    split; [split; [discriminate | lia]|].
    split; [now rewrite length_map, length_seq|].
    apply Forall_forall. intros b Hb. apply in_map_iff in Hb as [i [<- _]].
    split; reflexivity.
  - split; [split; [lia | reflexivity]|].
    split; [split; [discriminate | lia]|].
    split; [now rewrite length_map, length_seq|].
    apply Forall_forall. intros b Hb. apply in_map_iff in Hb as [i [<- _]].
    split; reflexivity.
Qed.

(** C6, as stated, fails: a validly constructed block in training mode
    refuses the input (1, 256, 1) at its first normalisation layer, and a
    block in either mode refuses an input whose length axis is empty. *)
Lemma Bottleneck_forward_refuses_short_input :
  validly_constructed 256 64 1 None /\
  Bottleneck_forward true (Bottleneck_init 256 64 1 None) (Shape3 1 256 1)
    = raise ValueError /\
  Bottleneck_forward true (Bottleneck_init 256 64 1 None) (Shape3 1 256 1)
    <> ok (Shape3 1 (64 * 4) (ceil_div 1 1)) /\
  Bottleneck_forward false (Bottleneck_init 256 64 1 None) (Shape3 4 256 0)
    <> ok (Shape3 4 (64 * 4) (ceil_div 0 1)).
Proof.
  split; [repeat split; lia|].
  split; [reflexivity|]. split; discriminate.
Qed.

(** C6, amended.  For every input of shape (batch, inplanes, length) with
    length at least 1 to a validly constructed block (positive channel
    counts and stride; a projection supplied whenever channels or stride
    mismatch) that, when in training mode, is left more than one value per
    channel (batch * ceil(length/stride) is not 1), [Bottleneck.forward]
    returns a tensor of shape (batch, planes * 4, ceil(length/stride)); any
    other valid skip path for the same block gives the same result. *)
Theorem Bottleneck_forward_output_shape (training : bool)
    (inplanes planes stride : nat) (ds : option Downsample)
    (batch length : nat) :
  validly_constructed inplanes planes stride ds ->
  1 <= length ->
  (training = true -> batch * ceil_div length stride <> 1) ->
  Bottleneck_forward training (Bottleneck_init inplanes planes stride ds)
    (Shape3 batch inplanes length)
  = ok (Shape3 batch (planes * 4) (ceil_div length stride)) /\
  forall ds', validly_constructed inplanes planes stride ds' ->
    Bottleneck_forward training (Bottleneck_init inplanes planes stride ds')
      (Shape3 batch inplanes length)
    = Bottleneck_forward training (Bottleneck_init inplanes planes stride ds)
        (Shape3 batch inplanes length).
Proof.
  intros (_ & Hp & Hs & Hds) Hl Hbn. split.
  - now apply Bottleneck_forward_shape.
  - intros ds' (_ & _ & _ & Hds'). now rewrite !Bottleneck_forward_shape.
Qed.

Lemma Bottleneck_forward_output_shape_witness :
  validly_constructed 256 128 2 (Some (projection 256 128 2)) /\
  1 <= 250 /\
  (true = true -> 4 * ceil_div 250 2 <> 1) /\
  Bottleneck_forward true
    (Bottleneck_init 256 128 2 (Some (projection 256 128 2)))
    (Shape3 4 256 250)
  = ok (Shape3 4 512 125).
Proof.
  assert (Hv : validly_constructed 256 128 2 (Some (projection 256 128 2)))
    by (repeat split; lia).
  assert (Hbn : true = true -> 4 * ceil_div 250 2 <> 1)
    by (intros _; vm_compute; discriminate).
  split; [exact Hv|]. split; [lia|]. split; [exact Hbn|].
  assert (Hl : 1 <= 250) by lia.
  exact (proj1 (Bottleneck_forward_output_shape true 256 128 2
                  (Some (projection 256 128 2)) 4 250 Hv Hl Hbn)).
Defined.

(** C1.  For every input batch of shape (batch, 12, length) whose length
    survives the stem and the strided stages, [ResNet.forward] returns a
    tensor of shape (batch, num_classes); the result is the same for every
    surviving length. *)
Theorem ResNet_forward_output_shape (training : bool) (layers : list nat)
    (num_classes : nat) (net : ResNet) (batch length : nat) :
  ResNet_init layers num_classes = ok net ->
  survives training batch length ->
  ResNet_forward training net (Shape3 batch 12 length)
  = ok (Shape2 batch num_classes) /\
  forall length', survives training batch length' ->
    ResNet_forward training net (Shape3 batch 12 length')
    = ResNet_forward training net (Shape3 batch 12 length).
Proof.
  intros Hinit Hs. split.
  - now apply ResNet_forward_shape with (layers := layers).
  - intros length' Hs'.
    now rewrite !(ResNet_forward_shape training layers num_classes net).
Qed.

Lemma ResNet_forward_output_shape_witness :
  exists net,
    ResNet_init [3; 4; 6; 3] 5 = ok net /\
    survives true 4 1000 /\
    ResNet_forward true net (Shape3 4 12 1000) = ok (Shape2 4 5).
Proof.
  destruct (ResNet_init [3; 4; 6; 3] 5) as [e|net] eqn:Hinit;
    [discriminate Hinit|].
  exists net.
  assert (Hs : survives true 4 1000) by (split; [lia | intros _ H; lia]).
  split; [reflexivity|]. split; [exact Hs|].
  exact (proj1 (ResNet_forward_output_shape true [3; 4; 6; 3] 5 net 4 1000
                  Hinit Hs)).
Defined.

(* ================================================================== *)
(** * Arithmetic of the floats *)

Section FloatArithmetic.

Local Open Scope Qc_scope.

Lemma Qc_eqb_true (a b : Qc) : Np.Qc_eqb a b = true <-> a = b.
Proof.
  unfold Np.Qc_eqb. rewrite Qceq_alt.
  destruct (a ?= b); split; intros H; congruence.
Qed.

Lemma Qc_eqb_refl (a : Qc) : Np.Qc_eqb a a = true.
Proof. now apply Qc_eqb_true. Qed.

Lemma Qc_ltb_true (a b : Qc) : Np.Qc_ltb a b = true <-> a < b.
Proof.
  unfold Np.Qc_ltb. rewrite Qclt_alt.
  destruct (a ?= b); split; intros H; congruence.
Qed.

Lemma Qc_ltb_irrefl (a : Qc) : Np.Qc_ltb a a = false.
Proof.
  destruct (Np.Qc_ltb a a) eqn:E; [|reflexivity].
  apply Qc_ltb_true in E. exfalso. revert E. apply Qcle_not_lt, Qcle_refl.
Qed.

Lemma Qc_of_nat_add (a b : nat) :
  Np.Qc_of_nat (a + b) = Np.Qc_of_nat a + Np.Qc_of_nat b.
Proof.
  unfold Np.Qc_of_nat, Qcplus. apply Q2Qc_eq_iff. cbn [this Q2Qc].
  rewrite !Qred_correct, Nat2Z.inj_add, inject_Z_plus. reflexivity.
Qed.

Lemma Qc_of_nat_zero_iff (n : nat) : Np.Qc_of_nat n = 0 <-> n = 0%nat.
Proof.
  unfold Np.Qc_of_nat. rewrite Q2Qc_eq_iff. split.
  - intros H. unfold Qeq in H. cbn in H. lia.
  - intros ->. reflexivity.
Qed.

Lemma of_nat_add (a b : nat) :
  Np.add (Np.of_nat a) (Np.of_nat b) = Np.of_nat (a + b).
Proof. unfold Np.of_nat. cbn [Np.add]. now rewrite Qc_of_nat_add. Qed.

Lemma of_nat_0 : Np.of_nat 0 = Np.zero.
Proof. reflexivity. Qed.

(** The quotient of two counts: finite unless the divisor is zero. *)
Lemma true_divide_fin (a b : nat) :
  b <> 0%nat ->
  Np.true_divide a b = Np.Fin (Np.Qc_of_nat a / Np.Qc_of_nat b).
Proof.
  intros Hb. unfold Np.true_divide, Np.of_nat, Np.div.
  destruct (Np.Qc_eqb (Np.Qc_of_nat b) 0) eqn:E; [|reflexivity].
  apply Qc_eqb_true, Qc_of_nat_zero_iff in E. contradiction.
Qed.

Lemma true_divide_0_0 : Np.true_divide 0 0 = Np.NaN.
Proof. reflexivity. Qed.

Lemma true_divide_0_pos (b : nat) :
  b <> 0%nat -> Np.true_divide 0 b = Np.zero.
Proof.
  intros Hb. rewrite true_divide_fin by assumption. unfold Np.zero.
  f_equal. change (Np.Qc_of_nat 0) with 0. field.
  now rewrite Qc_of_nat_zero_iff.
Qed.

Lemma true_divide_self (a : nat) :
  a <> 0%nat -> Np.true_divide a a = Np.one.
Proof.
  intros Ha. rewrite true_divide_fin by assumption. unfold Np.one.
  f_equal. field. now rewrite Qc_of_nat_zero_iff.
Qed.

Lemma sum_of_nat_from (l : list nat) (a : nat) :
  fold_left Np.add (map Np.of_nat l) (Np.of_nat a)
  = Np.of_nat (a + list_sum l).
Proof.
  revert a. induction l as [|x l IH]; intros a; cbn [map fold_left list_sum].
  - now rewrite Nat.add_0_r.
  - rewrite of_nat_add, IH. f_equal.
    change (list_sum (x :: l)) with (x + list_sum l)%nat. lia.
Qed.

Lemma sum_of_nat (l : list nat) :
  Np.sum (map Np.of_nat l) = Np.of_nat (list_sum l).
Proof. unfold Np.sum. rewrite <- of_nat_0. apply sum_of_nat_from. Qed.

(** The mean of a list of counts is their sum over their number. *)
Lemma mean_counts_eq (l : list nat) :
  Np.mean_counts l = Np.true_divide (list_sum l) (length l).
Proof.
  unfold Np.mean_counts, Np.mean, Np.true_divide.
  now rewrite sum_of_nat, length_map.
Qed.

(** Averaging two counts over the same number of labels and deriving a
    rate gives the rate of the pooled counts. *)
Lemma rate_of_means (a b n : nat) :
  n <> 0%nat ->
  Np.div (Np.true_divide a n)
         (Np.add (Np.true_divide a n) (Np.true_divide b n))
  = Np.true_divide a (a + b).
Proof.
  intros Hn.
  assert (Hqn : Np.Qc_of_nat n <> 0) by now rewrite Qc_of_nat_zero_iff.
  rewrite !(true_divide_fin _ n) by assumption. cbn [Np.add].
  replace (Np.Qc_of_nat a / Np.Qc_of_nat n + Np.Qc_of_nat b / Np.Qc_of_nat n)
    with (Np.Qc_of_nat (a + b) / Np.Qc_of_nat n)
    by (rewrite Qc_of_nat_add; now field).
  destruct (Nat.eq_dec (a + b) 0) as [E|N].
  - assert (a = 0%nat) by lia. assert (b = 0%nat) by lia. subst a b.
    cbn [Nat.add]. rewrite true_divide_0_0.
    replace (Np.Qc_of_nat 0 / Np.Qc_of_nat n) with 0
      by (change (Np.Qc_of_nat 0) with 0; now field).
    unfold Np.div. now rewrite Qc_eqb_refl.
  - assert (Hab : Np.Qc_of_nat (a + b) <> 0)
      by now rewrite Qc_of_nat_zero_iff.
    rewrite true_divide_fin by assumption. unfold Np.div.
    destruct (Np.Qc_eqb (Np.Qc_of_nat (a + b) / Np.Qc_of_nat n) 0) eqn:E.
    + apply Qc_eqb_true in E. exfalso. apply Hab.
      rewrite <- (Qcmult_div_r (Np.Qc_of_nat (a + b)) (Np.Qc_of_nat n))
        by assumption.
      rewrite E. apply Qcmult_0_r.
    + f_equal. now field.
Qed.

Lemma div_self (q : Qc) :
  q <> 0 -> Np.div (Np.Fin q) (Np.Fin q) = Np.one.
Proof.
  intros Hq. unfold Np.div.
  destruct (Np.Qc_eqb q 0) eqn:E; [apply Qc_eqb_true in E; contradiction|].
  unfold Np.one. f_equal. now field.
Qed.

Lemma add_zero_r (x : Np.float) : Np.add x Np.zero = x.
Proof.
  destruct x; cbn [Np.add Np.zero]; try reflexivity.
  now rewrite Qcplus_0_r.
Qed.

Lemma add_zero_l (x : Np.float) : Np.add Np.zero x = x.
Proof.
  destruct x; cbn [Np.add Np.zero]; try reflexivity.
  now rewrite Qcplus_0_l.
Qed.

Lemma add_comm (x y : Np.float) : Np.add x y = Np.add y x.
Proof.
  destruct x, y; cbn [Np.add]; try reflexivity.
  now rewrite Qcplus_comm.
Qed.

Lemma add_assoc (x y z : Np.float) :
  Np.add x (Np.add y z) = Np.add (Np.add x y) z.
Proof.
  destruct x, y, z; cbn [Np.add]; try reflexivity.
  now rewrite Qcplus_assoc.
Qed.

(** The sum does not depend on the side it is taken from. *)
Lemma fold_left_add_from (l : list Np.float) (a : Np.float) :
  fold_left Np.add l a = Np.add a (fold_right Np.add Np.zero l).
Proof.
  revert a. induction l as [|x l IH]; intros a; cbn [fold_left fold_right].
  - now rewrite add_zero_r.
  - now rewrite IH, add_assoc.
Qed.

Lemma sum_fold_right (l : list Np.float) :
  Np.sum l = fold_right Np.add Np.zero l.
Proof. unfold Np.sum. now rewrite fold_left_add_from, add_zero_l. Qed.

Lemma mean_arithmetic (l : list Np.float) : Np.mean l = arithmetic_mean l.
Proof. unfold Np.mean, arithmetic_mean. now rewrite sum_fold_right. Qed.

(** The F1 score of a perfect sensitivity and a perfect precision. *)
Lemma f1_of_one_one : f1_of Np.one Np.one = Np.one.
Proof.
  unfold f1_of, Np.two, Np.one. cbn [Np.mul Np.add].
  replace (Q2Qc 2 * 1 * 1) with (1 + 1)
    by (apply Qc_is_canon; reflexivity).
  apply div_self. intros H. apply (f_equal this) in H. discriminate H.
Qed.

Lemma sum_repeat_one (n : nat) :
  Np.sum (repeat Np.one n) = Np.of_nat n.
Proof.
  rewrite sum_fold_right. induction n as [|n IH]; [reflexivity|].
  cbn [repeat fold_right]. rewrite IH.
  change Np.one with (Np.of_nat 1). now rewrite of_nat_add.
Qed.

Lemma mean_repeat_one (n : nat) :
  n <> 0%nat -> Np.mean (repeat Np.one n) = Np.one.
Proof.
  intros Hn. unfold Np.mean. rewrite sum_repeat_one, repeat_length.
  now apply true_divide_self.
Qed.

(** The strict comparison decides the strict order. *)
Lemma gtb_lt (x y : Np.float) : Np.gtb x y = true <-> Np.lt y x.
Proof.
  split.
  - destruct x, y; cbn [Np.gtb]; intros H; try discriminate H;
      try constructor.
    now apply Qc_ltb_true.
  - intros H. destruct H; cbn [Np.gtb]; try reflexivity.
    now apply Qc_ltb_true.
Qed.

Lemma gtb_irrefl (x : Np.float) : Np.gtb x x = false.
Proof. destruct x; cbn [Np.gtb]; try reflexivity. apply Qc_ltb_irrefl. Qed.

Lemma add_nan_r (x : Np.float) : Np.add x Np.NaN = Np.NaN.
Proof. destruct x; reflexivity. Qed.

(** One nan among the terms makes the mean nan. *)
Lemma mean_nan (l : list Np.float) : In Np.NaN l -> Np.mean l = Np.NaN.
Proof.
  intros H. unfold Np.mean. rewrite sum_fold_right.
  assert (E : fold_right Np.add Np.zero l = Np.NaN).
  { induction l as [|x l IH]; [destruct H|].
    cbn [fold_right]. destruct H as [->|H]; [reflexivity|].
    rewrite IH by assumption. apply add_nan_r. }
  rewrite E. reflexivity.
Qed.


End FloatArithmetic.

(* ================================================================== *)
(** * Runs that print and raise *)

Section Runs.

Context {A B : Type}.

Lemma bind_ok (o : list line) (a : A) (k : A -> M B) :
  bind (o, ok a) k = (o ++ fst (k a), snd (k a)).
Proof. reflexivity. Qed.

Lemma bind_lift_ok (a : A) (k : A -> M B) : bind (lift (ok a)) k = k a.
Proof. unfold bind, lift. cbn. now destruct (k a). Qed.

Lemma bind_print (l : line) (k : unit -> M B) :
  bind (print l) k = (l :: fst (k tt), snd (k tt)).
Proof. reflexivity. Qed.

Lemma outcome_bind (m : M A) (k : A -> M B) :
  outcome (bind m k) = rbind (outcome m) (fun a => outcome (k a)).
Proof. destruct m as [o [e|a]]; reflexivity. Qed.

(** A bind returns only if both of its halves do. *)
Lemma bind_ok_inv (m : M A) (k : A -> M B) (b : B) :
  outcome (bind m k) = ok b ->
  exists a, outcome m = ok a /\ outcome (k a) = ok b /\
            printed (bind m k) = printed m ++ printed (k a).
Proof.
  destruct m as [o [e|a]]; unfold outcome, printed, bind; cbn [fst snd].
  - discriminate.
  - intros H. exists a. repeat split. exact H.
Qed.

End Runs.

Section ForEach.

Context {S I : Type}.
Variable body : S -> I -> M S.
Variable step : S -> I -> S.
Variable lines : I -> list line.

(** A loop whose body returns on every element returns, having printed
    the lines of the elements in order. *)
Lemma for_each_returns (l : list I) (s : S) :
  (forall s i, In i l -> body s i = (lines i, ok (step s i))) ->
  for_each body l s = (flat_map lines l, ok (fold_left step l s)).
Proof.
  revert s. induction l as [|i l IH]; intros s Hbody; [reflexivity|].
  cbn [for_each flat_map fold_left].
  rewrite (Hbody s i) by now left.
  rewrite bind_ok, IH by (intros; apply Hbody; now right).
  reflexivity.
Qed.

(** A loop that returns has run its body to the end on every element. *)
Lemma for_each_ok_inv (l : list I) (s s' : S) :
  (forall s i s', In i l -> outcome (body s i) = ok s' ->
                  body s i = (lines i, ok (step s i))) ->
  outcome (for_each body l s) = ok s' ->
  for_each body l s = (flat_map lines l, ok (fold_left step l s)) /\
  forall i, In i l -> exists s0, body s0 i = (lines i, ok (step s0 i)).
Proof.
  revert s. induction l as [|i l IH]; intros s Hbody H.
  - split; [reflexivity | intros i []].
  - cbn [for_each] in H |- *.
    apply bind_ok_inv in H as (s1 & H1 & H2 & _).
    pose proof (Hbody s i s1 (or_introl eq_refl) H1) as E.
    rewrite E in H1. unfold outcome in H1. cbn [snd] in H1.
    injection H1 as <-.
    destruct (IH (step s i)) as [IH1 IH2];
      [intros; eapply Hbody; [now right | eassumption] | exact H2 |].
    split.
    + rewrite E, bind_ok, IH1. reflexivity.
    + intros j [<-|Hj]; [exists s; exact E | now apply IH2].
Qed.

(** A loop with an element on which the body always raises does not
    return. *)
Lemma for_each_raises (l : list I) (s : S) (i : I) :
  In i l ->
  (forall s, exists e, outcome (body s i) = raise e) ->
  exists e, outcome (for_each body l s) = raise e.
Proof.
  revert s. induction l as [|j l IH]; intros s Hin Hi; [destruct Hin|].
  cbn [for_each].
  destruct (body s j) as [o [e|s1]] eqn:E.
  - exists e. reflexivity.
  - rewrite bind_ok. unfold outcome. cbn [snd].
    destruct Hin as [->|Hin].
    + destruct (Hi s) as [e He]. rewrite E in He. discriminate He.
    + apply IH; assumption.
Qed.

End ForEach.

(* ================================================================== *)
(** * Columns with a single class *)

Section SingleClass.

Lemma eqb_0_leb (n : nat) : (n =? 0) = negb (1 <=? n).
Proof. destruct n; reflexivity. Qed.

Lemma two_class_nonempty (y : list bool) :
  two_class y = true -> 1 <= length y.
Proof. destruct y; [discriminate | cbn [length]; lia]. Qed.

Lemma scores_of_absent (c : bool) (p : bool -> bool) (y_true : list bool)
    (y_score : list Np.float) :
  (forall t, p t = Bool.eqb t c) ->
  existsb p y_true = false -> Sk.scores_of c y_true y_score = [].
Proof.
  intros Hp. unfold Sk.scores_of. revert y_score.
  induction y_true as [|a y IH]; intros [|x y_score] H; try reflexivity.
  cbn [existsb] in H. apply orb_false_elim in H as [Ha H].
  cbn [combine filter fst]. rewrite <- Hp, Ha. now apply IH.
Qed.

Lemma flat_map_nil {A B} (l : list A) :
  flat_map (fun _ : A => @nil B) l = [].
Proof. induction l as [|a l IH]; [reflexivity | exact IH]. Qed.

(** Without a pair of a positive and a negative sample the rank
    statistic is the 0/0 form. *)
Lemma auc_single_class (y_true : list bool) (y_score : list Np.float) :
  two_class y_true = false -> Sk.auc y_true y_score = Np.NaN.
Proof.
  unfold two_class. intros H. unfold Sk.auc.
  apply andb_false_elim in H as [H|H].
  - rewrite (scores_of_absent true (fun t => t)); [reflexivity | | exact H].
    now intros [].
  - rewrite (scores_of_absent false negb); [| | exact H].
    + cbn [map]. rewrite flat_map_nil. cbn [length fold_left].
      rewrite Nat.mul_0_r. reflexivity.
    + now intros [].
Qed.

(** When [roc_auc_score] returns, it returns the rank statistic. *)
Lemma roc_auc_score_value (y_true : list bool) (y_score : list Np.float)
    (v : Np.float) :
  Sk.roc_auc_score y_true y_score = ok v -> v = Sk.auc y_true y_score.
Proof.
  unfold Sk.roc_auc_score.
  destruct ((length y_true =? 0) || (length y_score =? 0));
    [discriminate|].
  destruct (negb (forallb Np.is_finite y_score)); [discriminate|].
  fold (two_class y_true). destruct (two_class y_true) eqn:E; cbn [negb].
  - destruct (negb (length y_true =? length y_score)); [discriminate|].
    intros H. now injection H as <-.
  - intros H. injection H as <-. symmetry. now apply auc_single_class.
Qed.

(** On a column with a single class [roc_auc_score] does not raise: it
    returns nan, provided the columns are not empty and the scores are
    finite. *)
Lemma roc_auc_score_single_class (y_true : list bool)
    (y_score : list Np.float) :
  two_class y_true = false ->
  1 <= length y_true -> 1 <= length y_score ->
  forallb Np.is_finite y_score = true ->
  Sk.roc_auc_score y_true y_score = ok Np.NaN.
Proof.
  intros H H1 H2 Hf. unfold Sk.roc_auc_score.
  rewrite !eqb_0_leb. apply Nat.leb_le in H1, H2. rewrite H1, H2, Hf.
  cbn [negb orb]. fold (two_class y_true). now rewrite H.
Qed.

End SingleClass.

(* ================================================================== *)
(** * The metric reporter *)

Section MetricFunc.

Variables bin_labels bin_preds : Np.ndarray bool.
Variable preds : Np.ndarray Np.float.

Lemma length_col {A} (d : A) (a : Np.ndarray A) (i : nat) :
  length (Np.col d a i) = Np.shape0 a.
Proof. unfold Np.col, Np.shape0. apply length_map. Qed.

(** The body of the loop on one label: it returns exactly on the labels
    that are [label_ok], and then adds [label_step] to the lists. *)
Lemma label_body_run (acc : metric_lists) (i : nat) :
  (label_ok bin_labels bin_preds preds i = true /\
   label_body bin_labels bin_preds preds acc i
   = (label_lines bin_labels bin_preds i,
      ok (label_step bin_labels bin_preds preds acc i)))
  \/
  (label_ok bin_labels bin_preds preds i = false /\
   exists e, outcome (label_body bin_labels bin_preds preds acc i)
             = raise e).
Proof.
  unfold label_ok, label_body, Np.column.
  destruct (i <? Np.shape1 bin_labels) eqn:E1; cbn [andb];
    [|right; split; [reflexivity | eexists; reflexivity]].
  rewrite bind_lift_ok.
  destruct (i <? Np.shape1 bin_preds) eqn:E2; cbn [andb];
    [|right; split; [reflexivity | eexists; reflexivity]].
  rewrite bind_lift_ok.
  unfold Sk.confusion_matrix. rewrite !length_col.
  destruct (Np.shape0 bin_labels =? Np.shape0 bin_preds) eqn:E3;
    cbn [andb negb];
    [|right; split; [reflexivity | eexists; reflexivity]].
  rewrite eqb_0_leb.
  destruct (1 <=? Np.shape0 bin_labels) eqn:E4; cbn [andb negb];
    [|right; split; [reflexivity | eexists; reflexivity]].
  rewrite bind_lift_ok. cbn [fst snd]. rewrite !bind_print. cbn [fst snd].
  rewrite bind_lift_ok.
  destruct (i <? Np.shape1 preds) eqn:E5; cbn [andb];
    [|right; split; [reflexivity | eexists; reflexivity]].
  rewrite bind_lift_ok.
  unfold Sk.roc_auc_score. rewrite !length_col, !eqb_0_leb, E4.
  cbn [negb orb].
  destruct (1 <=? Np.shape0 preds) eqn:E6; cbn [andb negb];
    [|right; split; [reflexivity | eexists; reflexivity]].
  destruct (forallb Np.is_finite (Np.col Np.NaN preds i)) eqn:E7;
    cbn [andb negb];
    [|right; split; [reflexivity | eexists; reflexivity]].
  fold (two_class (Np.col false bin_labels i)).
  destruct (two_class (Np.col false bin_labels i)) eqn:E8;
    cbn [andb negb orb].
  - destruct (Np.shape0 bin_labels =? Np.shape0 preds) eqn:E9;
      cbn [negb];
      [|right; split; [reflexivity | eexists; reflexivity]].
    left. split; [reflexivity|]. rewrite bind_lift_ok. reflexivity.
  - left. split; [reflexivity|]. rewrite bind_lift_ok.
    unfold label_step. rewrite (auc_single_class _ _ E8). reflexivity.
Qed.

Lemma label_body_returns (acc : metric_lists) (i : nat) :
  label_ok bin_labels bin_preds preds i = true ->
  label_body bin_labels bin_preds preds acc i
  = (label_lines bin_labels bin_preds i,
     ok (label_step bin_labels bin_preds preds acc i)).
Proof.
  intros H. destruct (label_body_run acc i) as [[_ E]|[E _]];
    [exact E | congruence].
Qed.

Lemma label_body_ok_inv (acc acc' : metric_lists) (i : nat) :
  outcome (label_body bin_labels bin_preds preds acc i) = ok acc' ->
  label_ok bin_labels bin_preds preds i = true.
Proof.
  intros H. destruct (label_body_run acc i) as [[E _]|[_ [e E]]];
    [exact E | rewrite E in H; discriminate H].
Qed.

Lemma fold_label_step (idx : list nat) (acc : metric_lists) :
  let y_true := Np.col false bin_labels in
  let y_pred := Np.col false bin_preds in
  let r := fold_left (label_step bin_labels bin_preds preds) idx acc in
  TP r = TP acc ++ map (fun i => label_TP (y_true i) (y_pred i)) idx /\
  FP r = FP acc ++ map (fun i => label_FP (y_true i) (y_pred i)) idx /\
  TN r = TN acc
         ++ map (fun i => Sk.count_pairs false false (y_true i) (y_pred i))
                idx /\
  FN r = FN acc ++ map (fun i => label_FN (y_true i) (y_pred i)) idx /\
  sensitivity r
  = sensitivity acc
    ++ map (fun i => sensitivity_of (label_TP (y_true i) (y_pred i))
                       (label_FN (y_true i) (y_pred i))) idx /\
  specificity r
  = specificity acc
    ++ map (fun i => specificity_of
                       (Sk.count_pairs false false (y_true i) (y_pred i))
                       (label_FP (y_true i) (y_pred i))) idx /\
  precision r
  = precision acc
    ++ map (fun i => precision_of (label_TP (y_true i) (y_pred i))
                       (label_FP (y_true i) (y_pred i))) idx /\
  my_f1 r = my_f1 acc ++ map (fun i => label_f1 (y_true i) (y_pred i)) idx.
Proof.
  revert acc. induction idx as [|i idx IH]; intros acc; cbn zeta.
  - cbn [fold_left map]. rewrite !app_nil_r. repeat split.
  - cbn [fold_left map].
    destruct (IH (label_step bin_labels bin_preds preds acc i))
      as (H1 & H2 & H3 & H4 & H5 & H6 & H7 & H8).
    cbn zeta in *. rewrite H1, H2, H3, H4, H5, H6, H7, H8.
    unfold label_step. cbn [TP FP TN FN sensitivity specificity precision
                            my_f1].
    rewrite <- !app_assoc. repeat split.
Qed.

Lemma fold_label_step_roc (idx : list nat) (acc : metric_lists) :
  roc_auc (fold_left (label_step bin_labels bin_preds preds) idx acc)
  = roc_auc acc
    ++ map (fun i => Sk.auc (Np.col false bin_labels i)
                       (Np.col Np.NaN preds i)) idx.
Proof.
  revert acc. induction idx as [|i idx IH]; intros acc.
  - cbn [fold_left map]. now rewrite app_nil_r.
  - cbn [fold_left map]. rewrite IH. unfold label_step. cbn [roc_auc].
    now rewrite <- app_assoc.
Qed.

Lemma reportable_two_class (i : nat) :
  reportable bin_labels bin_preds preds = true ->
  i < Np.shape1 bin_labels ->
  two_class (Np.col false bin_labels i) = true.
Proof.
  unfold reportable. intros H Hi.
  apply andb_prop in H as [_ H]. rewrite forallb_forall in H.
  specialize (H i). rewrite in_seq in H.
  apply andb_prop in H as [H _]; [exact H | lia].
Qed.

Lemma reportable_label_ok (i : nat) :
  reportable bin_labels bin_preds preds = true ->
  i < Np.shape1 bin_labels ->
  label_ok bin_labels bin_preds preds i = true.
Proof.
  intros H Hi.
  pose proof (reportable_two_class i H Hi) as Htc.
  pose proof (two_class_nonempty _ Htc) as Hrows.
  rewrite length_col in Hrows.
  unfold reportable in H. unfold label_ok.
  apply andb_prop in H as [H H5]. apply andb_prop in H as [H H4].
  apply andb_prop in H as [H H3]. apply andb_prop in H as [H H2].
  apply andb_prop in H as [_ H1].
  apply Nat.eqb_eq in H1, H2, H3, H4.
  rewrite forallb_forall in H5.
  specialize (H5 i). rewrite in_seq in H5.
  apply andb_prop in H5 as [_ H6]; [|lia].
  rewrite H1, H2, H3, H4, H6, !Nat.eqb_refl.
  apply Nat.ltb_lt in Hi. apply Nat.leb_le in Hrows.
  rewrite Hi, Hrows, orb_true_r. reflexivity.
Qed.

(** When every label passes through the body of the loop and the
    classification report accepts the arrays, the reporter runs to its
    end, and this is what it prints. *)
Lemma metric_func_runs :
  (forall i, i < Np.shape1 bin_labels ->
             label_ok bin_labels bin_preds preds i = true) ->
  Sk.classification_report bin_labels bin_preds = ok tt ->
  let idx := seq 0 (Np.shape1 bin_labels) in
  metric_func bin_labels bin_preds preds
  = (flat_map (label_lines bin_labels bin_preds) idx
     ++ [micro_block (lists_after bin_labels bin_preds preds idx);
         macro_block (lists_after bin_labels bin_preds preds idx);
         Line_weighted
           (Np.mean (my_f1 (lists_after bin_labels bin_preds preds idx)));
         Line_roc_auc
           (Np.mean (roc_auc (lists_after bin_labels bin_preds preds idx)));
         Line_classification_report bin_labels bin_preds],
     ok tt).
Proof.
  intros Hall Hrep idx. unfold metric_func. fold idx.
  rewrite (for_each_returns _ (label_step bin_labels bin_preds preds)
             (label_lines bin_labels bin_preds)).
  - fold (lists_after bin_labels bin_preds preds idx).
    rewrite bind_ok. rewrite !bind_print.
    cbn [fst snd]. rewrite Hrep, bind_lift_ok. reflexivity.
  - intros acc i Hi. apply label_body_returns.
    apply Hall. apply in_seq in Hi. lia.
Qed.

(** On reportable inputs the reporter runs to its end, and this is what
    it prints. *)
Lemma metric_func_run :
  reportable bin_labels bin_preds preds = true ->
  let idx := seq 0 (Np.shape1 bin_labels) in
  metric_func bin_labels bin_preds preds
  = (flat_map (label_lines bin_labels bin_preds) idx
     ++ [micro_block (lists_after bin_labels bin_preds preds idx);
         macro_block (lists_after bin_labels bin_preds preds idx);
         Line_weighted
           (Np.mean (my_f1 (lists_after bin_labels bin_preds preds idx)));
         Line_roc_auc
           (Np.mean (roc_auc (lists_after bin_labels bin_preds preds idx)));
         Line_classification_report bin_labels bin_preds],
     ok tt).
Proof.
  intros H. apply metric_func_runs.
  - intros i Hi. now apply reportable_label_ok.
  - unfold Sk.classification_report. unfold reportable in H.
    apply andb_prop in H as [H _]. apply andb_prop in H as [H _].
    apply andb_prop in H as [H H3]. apply andb_prop in H as [H _].
    apply andb_prop in H as [H0 H1].
    apply Nat.eqb_eq in H1, H3. rewrite H1, H3, H0, !Nat.eqb_refl.
    reflexivity.
Qed.

(** Whenever the loop over the labels returns, it returns the lists of
    [lists_after]. *)
Lemma label_loop_ok_inv (acc : metric_lists) :
  let idx := seq 0 (Np.shape1 bin_labels) in
  outcome (for_each (label_body bin_labels bin_preds preds) idx empty_lists)
  = ok acc ->
  acc = lists_after bin_labels bin_preds preds idx /\
  forall i, i < Np.shape1 bin_labels ->
            label_ok bin_labels bin_preds preds i = true.
Proof.
  intros idx H.
  destruct (for_each_ok_inv (label_body bin_labels bin_preds preds)
              (label_step bin_labels bin_preds preds)
              (label_lines bin_labels bin_preds) idx empty_lists acc)
    as [E Hall].
  - intros s i s' _ Hs. apply label_body_returns.
    eapply label_body_ok_inv. eassumption.
  - exact H.
  - rewrite E in H. unfold outcome in H. cbn [snd] in H.
    injection H as <-. split; [reflexivity|].
    intros i Hi. destruct (Hall i) as [s0 Hs0]; [apply in_seq; lia|].
    eapply label_body_ok_inv. rewrite Hs0. reflexivity.
Qed.

End MetricFunc.

(* ================================================================== *)
(** * Confusion counts of special columns *)

Section Columns.

Lemma count_pairs_cons (t p a b : bool) (y_true y_pred : list bool) :
  Sk.count_pairs t p (a :: y_true) (b :: y_pred)
  = (if Bool.eqb a t && Bool.eqb b p then 1 else 0)
    + Sk.count_pairs t p y_true y_pred.
Proof.
  unfold Sk.count_pairs. cbn [combine filter fst snd].
  destruct (Bool.eqb a t && Bool.eqb b p); reflexivity.
Qed.

(** No positive sample: no true positive and no false negative. *)
Lemma count_pairs_no_positive (p : bool) (y_true y_pred : list bool) :
  forallb negb y_true = true ->
  Sk.count_pairs true p y_true y_pred = 0.
Proof.
  revert y_pred. induction y_true as [|a y IH]; intros [|b y_pred] H;
    try reflexivity.
  cbn [forallb] in H. apply andb_prop in H as [Ha H].
  rewrite count_pairs_cons, IH by assumption.
  destruct a; [discriminate Ha | reflexivity].
Qed.

(** No positive sample: the false positives are the predicted
    positives. *)
Lemma count_pairs_false_positive (y_true y_pred : list bool) :
  forallb negb y_true = true ->
  length y_pred = length y_true ->
  Sk.count_pairs false true y_true y_pred = support y_pred.
Proof.
  revert y_pred. induction y_true as [|a y IH]; intros [|b y_pred] H Hlen;
    try reflexivity; try discriminate Hlen.
  cbn [forallb] in H. apply andb_prop in H as [Ha H].
  injection Hlen as Hlen.
  rewrite count_pairs_cons, IH by assumption.
  unfold support. cbn [filter].
  destruct a; [discriminate Ha|]. destruct b; reflexivity.
Qed.

(** Predictions equal to the labels: the counts of a column. *)
Lemma count_pairs_same (t p : bool) (y : list bool) :
  Sk.count_pairs t p y y
  = if Bool.eqb t p then length (filter (Bool.eqb t) y) else 0.
Proof.
  induction y as [|a y IH]; [now destruct (Bool.eqb t p)|].
  rewrite count_pairs_cons, IH. cbn [filter].
  destruct a, t, p; reflexivity.
Qed.

Lemma two_class_counts (y : list bool) :
  two_class y = true ->
  1 <= length (filter (Bool.eqb true) y) /\
  1 <= length (filter (Bool.eqb false) y).
Proof.
  unfold two_class. intros H. apply andb_prop in H as [Hp Hn].
  apply existsb_exists in Hp as [a [Ha Et]].
  apply existsb_exists in Hn as [b [Hb Ef]].
  destruct a; [|discriminate Et]. destruct b; [discriminate Ef|].
  split.
  - assert (Hin : In true (filter (Bool.eqb true) y))
      by (apply filter_In; split; [assumption | reflexivity]).
    destruct (filter (Bool.eqb true) y); [destruct Hin | cbn; lia].
  - assert (Hin : In false (filter (Bool.eqb false) y))
      by (apply filter_In; split; [assumption | reflexivity]).
    destruct (filter (Bool.eqb false) y); [destruct Hin | cbn; lia].
Qed.

Lemma no_positive_single_class (y : list bool) :
  forallb negb y = true -> two_class y = false.
Proof.
  intros H. unfold two_class.
  destruct (existsb (fun t => t) y) eqn:E; [|reflexivity].
  apply existsb_exists in E as [a [Ha Et]]. subst a.
  rewrite forallb_forall in H. specialize (H true Ha). discriminate H.
Qed.

Lemma map_constant {A B} (f : A -> B) (b : B) (l : list A) :
  (forall a, In a l -> f a = b) -> map f l = repeat b (length l).
Proof.
  induction l as [|a l IH]; intros H; [reflexivity|].
  cbn [map length repeat]. rewrite (H a) by now left.
  rewrite IH by (intros; apply H; now right). reflexivity.
Qed.

Lemma list_sum_repeat_0 (n : nat) : list_sum (repeat 0 n) = 0.
Proof. induction n as [|n IH]; [reflexivity | exact IH]. Qed.

Lemma list_sum_pos (l : list nat) :
  l <> [] -> (forall a, In a l -> 1 <= a) -> 1 <= list_sum l.
Proof.
  destruct l as [|a l]; [congruence|]. intros _ H.
  change (list_sum (a :: l)) with (a + list_sum l).
  specialize (H a (or_introl eq_refl)). lia.
Qed.

End Columns.

(* ================================================================== *)
(** * Claims about the metric reporter *)

(** C3, as stated, fails in the float64 arithmetic of the program: for
    the three labels with counts (TP, FP, TN, FN) = (2, 1, 28, 9),
    (2, 0, 29, 9) and (1, 0, 30, 9) the means are 5/3 and 9, the micro
    sensitivity comes out as 0.15625000000000003, the float64 next above
    the pooled rate 5/32 = 0.15625. *)
Lemma micro_sensitivity_rounded :
  let family := [MkCounts 2 1 28 9; MkCounts 2 0 29 9; MkCounts 1 0 30 9] in
  let acc := lists_of_family family in
  let micro_sensitivity :=
    fst (fst (F64.micro_rates (TP acc) (FP acc) (TN acc) (FN acc))) in
  family <> [] /\
  list_sum (TP acc) + list_sum (FN acc) <> 0 /\
  list_sum (TN acc) + list_sum (FP acc) <> 0 /\
  list_sum (TP acc) + list_sum (FP acc) <> 0 /\
  PrimFloat.eqb micro_sensitivity (F64.pooled_rate (TP acc) (FN acc))
  = false /\
  micro_sensitivity
  = PrimFloat.next_up (F64.pooled_rate (TP acc) (FN acc)) /\
  F64.pooled_rate (TP acc) (FN acc)
  = PrimFloat.div (F64.of_nat 5) (F64.of_nat 32).
Proof.
  cbn zeta. split; [discriminate|].
  split; [cbn; discriminate|]. split; [cbn; discriminate|].
  split; [cbn; discriminate|].
  split; [vm_compute; reflexivity|].
  split; vm_compute; reflexivity.
Qed.

(** C3, amended.  For every non-empty family of per-label confusion
    counts with non-degenerate denominators, the micro-averaged
    sensitivity, specificity and precision that [metric_func] derives from
    the means of TP, FP, TN and FN over the labels are, when the sums and
    the quotients are taken exactly (as rationals, before any rounding),
    the finite rates of the counts pooled over the labels. *)
Theorem micro_rates_are_pooled (family : list counts) :
  family <> [] ->
  let acc := lists_of_family family in
  list_sum (TP acc) + list_sum (FN acc) <> 0 ->
  list_sum (TN acc) + list_sum (FP acc) <> 0 ->
  list_sum (TP acc) + list_sum (FP acc) <> 0 ->
  exists micro_f1,
    micro_block acc
    = Line_micro (pooled_rate (TP acc) (FN acc))
                 (pooled_rate (TN acc) (FP acc))
                 (pooled_rate (TP acc) (FP acc))
                 micro_f1 /\
    Np.is_finite (pooled_rate (TP acc) (FN acc)) = true /\
    Np.is_finite (pooled_rate (TN acc) (FP acc)) = true /\
    Np.is_finite (pooled_rate (TP acc) (FP acc)) = true.
Proof.
  intros Hne acc H1 H2 H3.
  assert (Hn : length family <> 0)
    by (destruct family; [congruence | discriminate]).
  unfold micro_block. rewrite !mean_counts_eq.
  unfold acc, lists_of_family. cbn [TP FP TN FN]. rewrite !length_map.
  rewrite !rate_of_means by assumption.
  eexists. split; [reflexivity|].
  unfold pooled_rate.
  rewrite !true_divide_fin by assumption. repeat split.
Qed.

Lemma micro_rates_are_pooled_witness :
  let family := [MkCounts 3 1 5 1; MkCounts 1 2 6 1] in
  family <> [] /\
  exists micro_f1,
    micro_block (lists_of_family family)
    = Line_micro (pooled_rate [3; 1] [1; 1]) (pooled_rate [5; 6] [1; 2])
                 (pooled_rate [3; 1] [1; 2]) micro_f1.
Proof.
  cbn zeta.
  assert (Hne : [MkCounts 3 1 5 1; MkCounts 1 2 6 1] <> []) by discriminate.
  split; [exact Hne|].
  destruct (micro_rates_are_pooled [MkCounts 3 1 5 1; MkCounts 1 2 6 1] Hne)
    as [f1 [E _]]; try (cbn; discriminate).
  exists f1. exact E.
Defined.

Section Printed.

Lemma for_each_printed {S I} (P : line -> Prop) (body : S -> I -> M S)
    (l : list I) (s : S) :
  (forall s i, Forall P (printed (body s i))) ->
  Forall P (printed (for_each body l s)).
Proof.
  intros Hbody. revert s. induction l as [|i l IH]; intros s.
  - constructor.
  - cbn [for_each]. specialize (Hbody s i).
    destruct (body s i) as [o [e|s1]]; unfold printed in *; cbn [fst] in *.
    + exact Hbody.
    + rewrite bind_ok. cbn [fst]. apply Forall_app. split; [exact Hbody|].
      apply IH.
Qed.

Lemma label_body_printed (bin_labels bin_preds : Np.ndarray bool)
    (preds : Np.ndarray Np.float) (acc : metric_lists) (i : nat) :
  Forall counts_line (printed (label_body bin_labels bin_preds preds acc i)).
Proof.
  unfold label_body.
  destruct (Np.column false bin_labels i) as [e|y_true];
    [constructor|]. rewrite bind_lift_ok.
  destruct (Np.column false bin_preds i) as [e|y_pred];
    [constructor|]. rewrite bind_lift_ok.
  destruct (Sk.confusion_matrix y_true y_pred) as [e|cm];
    [constructor|]. rewrite bind_lift_ok, !bind_print.
  unfold printed. cbn [fst].
  constructor; [exact I|]. constructor; [exact I|].
  rewrite bind_lift_ok.
  destruct (Np.column Np.NaN preds i) as [e|y_score];
    [constructor|]. rewrite bind_lift_ok.
  destruct (Sk.roc_auc_score y_true y_score) as [e|r]; constructor.
Qed.

End Printed.

(** On the inputs of [runs_to_end] every label passes through the body
    of the loop and the classification report accepts the arrays. *)
Lemma runs_to_end_labels (bin_labels bin_preds : Np.ndarray bool)
    (preds : Np.ndarray Np.float) :
  runs_to_end bin_labels bin_preds preds = true ->
  Sk.classification_report bin_labels bin_preds = ok tt /\
  forall i, i < Np.shape1 bin_labels ->
            label_ok bin_labels bin_preds preds i = true.
Proof.
  unfold runs_to_end, Sk.classification_report, label_ok. intros H.
  apply andb_prop in H as [H C7]. apply andb_prop in H as [H C6].
  apply andb_prop in H as [H C5]. apply andb_prop in H as [H C4].
  apply andb_prop in H as [H C3]. apply andb_prop in H as [C1 C2].
  apply Nat.eqb_eq in C2, C5, C6. apply Nat.leb_le in C3.
  rewrite forallb_forall in C7.
  rewrite C1, C2, C5, C6, C4, !Nat.eqb_refl.
  split; [reflexivity|].
  intros i Hi.
  assert (E1 : (i <? Np.shape1 bin_labels) = true) by now apply Nat.ltb_lt.
  assert (E2 : (i <? Np.shape1 preds) = true) by (apply Nat.ltb_lt; lia).
  rewrite E1, E2, orb_true_r, C7 by (apply in_seq; lia). reflexivity.
Qed.

(** Whatever [metric_func] prints besides the lines of counts comes after
    the loop over the labels has returned, and is computed from the lists
    of [lists_after]. *)
Lemma metric_func_averages (bin_labels bin_preds : Np.ndarray bool)
    (preds : Np.ndarray Np.float) (l : line) :
  In l (printed (metric_func bin_labels bin_preds preds)) ->
  ~ counts_line l ->
  let acc := lists_after bin_labels bin_preds preds
               (seq 0 (Np.shape1 bin_labels)) in
  l = micro_block acc \/ l = macro_block acc \/
  l = Line_weighted (Np.mean (my_f1 acc)) \/
  l = Line_roc_auc (Np.mean (roc_auc acc)) \/
  l = Line_classification_report bin_labels bin_preds.
Proof.
  intros Hin Hnc acc. unfold metric_func in Hin.
  pose proof (for_each_printed counts_line
                (label_body bin_labels bin_preds preds)
                (seq 0 (Np.shape1 bin_labels)) empty_lists
                (label_body_printed bin_labels bin_preds preds)) as Hloop.
  pose proof (label_loop_ok_inv bin_labels bin_preds preds) as Hinv.
  cbn zeta in Hinv. rewrite Forall_forall in Hloop.
  destruct (for_each (label_body bin_labels bin_preds preds)
              (seq 0 (Np.shape1 bin_labels)) empty_lists) as [o [e|acc']].
  - unfold printed in *. cbn [fst bind snd] in *.
    apply Hloop in Hin. contradiction.
  - destruct (Hinv acc' eq_refl) as [-> _]. fold acc in Hin.
    rewrite bind_ok, !bind_print in Hin. unfold printed in *.
    cbn [fst snd] in *.
    apply in_app_or in Hin as [Hin|Hin]; [apply Hloop in Hin; contradiction|].
    destruct Hin as [Hin|[Hin|[Hin|[Hin|Hin]]]]; auto.
    destruct (Sk.classification_report bin_labels bin_preds) as [e|[]];
      cbn in Hin.
    + destruct Hin.
    + destruct Hin as [Hin|[]]. auto.
Qed.

(** C2, as stated, fails twice on the label column [0, 0] with the
    predictions [1, 0]: the ROC-AUC computation of the label does not
    raise but returns nan, and the precision of the label is 0/1 = 0.0,
    not the 0/0 form; the counts printed for the label are TP = 0,
    FP = 1, TN = 1, FN = 0. *)
Lemma all_zero_column_precision_defined :
  let bin_labels := Np.MkArray 1 [[false]; [false]] in
  let bin_preds := Np.MkArray 1 [[true]; [false]] in
  let preds := Np.MkArray 1 [[Np.one]; [Np.zero]] in
  forallb negb (Np.col false bin_labels 0) = true /\
  Sk.roc_auc_score (Np.col false bin_labels 0) (Np.col Np.NaN preds 0)
  = ok Np.NaN /\
  firstn 2 (printed (metric_func bin_labels bin_preds preds))
  = [Line_counts_header; Line_counts 0 1 1 0] /\
  sensitivity_of 0 0 = Np.NaN /\
  precision_of 0 1 = Np.zero /\
  precision_of 0 1 <> Np.NaN.
Proof.
  cbn zeta. split; [reflexivity|]. split; [reflexivity|].
  split; [reflexivity|]. split; [reflexivity|].
  assert (E : precision_of 0 1 = Np.zero)
    by (apply true_divide_0_pos; discriminate).
  split; [exact E|]. rewrite E. discriminate.
Qed.

(** C2, amended.  For every label/prediction array pair containing a
    label column whose ground truth is all zero, the per-label ROC-AUC
    computation does not raise on that column (not empty, with as many
    probabilities, all finite) but returns nan; the sensitivity of the
    label evaluates to the 0/0 form (nan); its precision evaluates to the
    0/0 form exactly when no sample is predicted positive for the label,
    and to 0.0 otherwise; its F1 score is nan.  Nothing handles any of
    this: whenever [metric_func] prints them, the macro-averaged
    sensitivity and F1, the figure under 'Weighted averaging' and the mean
    ROC AUC are nan, and on the inputs of [runs_to_end] it runs to its end
    and prints them. *)
Theorem all_zero_label_column (bin_labels bin_preds : Np.ndarray bool)
    (preds : Np.ndarray Np.float) (i : nat) :
  i < Np.shape1 bin_labels ->
  Np.shape0 bin_preds = Np.shape0 bin_labels ->
  forallb negb (Np.col false bin_labels i) = true ->
  let y_true := Np.col false bin_labels i in
  let y_pred := Np.col false bin_preds i in
  let y_score := Np.col Np.NaN preds i in
  let report := printed (metric_func bin_labels bin_preds preds) in
  (1 <= length y_true -> length y_score = length y_true ->
   forallb Np.is_finite y_score = true ->
   Sk.roc_auc_score y_true y_score = ok Np.NaN) /\
  label_TP y_true y_pred = 0 /\
  label_FN y_true y_pred = 0 /\
  label_FP y_true y_pred = support y_pred /\
  sensitivity_of (label_TP y_true y_pred) (label_FN y_true y_pred) = Np.NaN /\
  (support y_pred = 0 ->
   precision_of (label_TP y_true y_pred) (label_FP y_true y_pred) = Np.NaN) /\
  (support y_pred <> 0 ->
   precision_of (label_TP y_true y_pred) (label_FP y_true y_pred) = Np.zero) /\
  label_f1 y_true y_pred = Np.NaN /\
  (forall s sp p f, In (Line_macro s sp p f) report ->
                    s = Np.NaN /\ f = Np.NaN) /\
  (forall v, In (Line_weighted v) report -> v = Np.NaN) /\
  (forall v, In (Line_roc_auc v) report -> v = Np.NaN) /\
  (runs_to_end bin_labels bin_preds preds = true ->
   outcome (metric_func bin_labels bin_preds preds) = ok tt /\
   (exists sp p, In (Line_macro Np.NaN sp p Np.NaN) report) /\
   In (Line_weighted Np.NaN) report /\
   In (Line_roc_auc Np.NaN) report).
Proof.
  intros Hi Hshape Hzero y_true y_pred y_score report.
  assert (Hsingle : two_class y_true = false)
    by now apply no_positive_single_class.
  assert (HTP : label_TP y_true y_pred = 0)
    by now apply count_pairs_no_positive.
  assert (HFN : label_FN y_true y_pred = 0)
    by now apply count_pairs_no_positive.
  assert (HFP : label_FP y_true y_pred = support y_pred).
  { apply count_pairs_false_positive; [assumption|].
    unfold y_true, y_pred. now rewrite !length_col. }
  assert (Hf1 : label_f1 y_true y_pred = Np.NaN).
  { unfold label_f1. cbn zeta. now rewrite HTP, HFN. }
  assert (Hidx : In i (seq 0 (Np.shape1 bin_labels)))
    by (apply in_seq; lia).
  set (acc := lists_after bin_labels bin_preds preds
                (seq 0 (Np.shape1 bin_labels))).
  pose proof (fold_label_step bin_labels bin_preds preds
                (seq 0 (Np.shape1 bin_labels)) empty_lists) as F.
  cbn zeta in F. destruct F as (_ & _ & _ & _ & F5 & _ & _ & F8).
  cbn [empty_lists sensitivity my_f1 app] in F5, F8.
  pose proof (fold_label_step_roc bin_labels bin_preds preds
                (seq 0 (Np.shape1 bin_labels)) empty_lists) as F9.
  cbn [empty_lists roc_auc app] in F9.
  assert (Hsens : Np.mean (sensitivity acc) = Np.NaN).
  { apply mean_nan. unfold acc, lists_after. rewrite F5.
    apply in_map_iff. exists i. split; [|exact Hidx].
    fold y_true y_pred. now rewrite HTP, HFN. }
  assert (Hweighted : Np.mean (my_f1 acc) = Np.NaN).
  { apply mean_nan. unfold acc, lists_after. rewrite F8.
    apply in_map_iff. exists i. split; [exact Hf1 | exact Hidx]. }
  assert (Hroc : Np.mean (roc_auc acc) = Np.NaN).
  { apply mean_nan. unfold acc, lists_after. rewrite F9.
    apply in_map_iff. exists i. split; [|exact Hidx].
    now apply auc_single_class. }
  split.
  { intros H1 H2 Hf. apply roc_auc_score_single_class; try assumption.
    now rewrite H2. }
  split; [exact HTP|]. split; [exact HFN|]. split; [exact HFP|].
  rewrite HTP, HFN, HFP.
  split; [reflexivity|].
  split; [intros ->; reflexivity|].
  split; [intros Hpos; now apply true_divide_0_pos|].
  split; [exact Hf1|].
  split; [|split; [|split]].
  - intros s sp p f H.
    destruct (metric_func_averages bin_labels bin_preds preds _ H)
      as [E|[E|[E|[E|E]]]]; try discriminate E; [exact (fun x => x)|].
    fold acc in E. unfold macro_block in E. rewrite Hsens in E.
    injection E as -> _ _ ->. split; reflexivity.
  - intros v H.
    destruct (metric_func_averages bin_labels bin_preds preds _ H)
      as [E|[E|[E|[E|E]]]]; try discriminate E; [exact (fun x => x)|].
    fold acc in E. rewrite Hweighted in E. now injection E.
  - intros v H.
    destruct (metric_func_averages bin_labels bin_preds preds _ H)
      as [E|[E|[E|[E|E]]]]; try discriminate E; [exact (fun x => x)|].
    fold acc in E. rewrite Hroc in E. now injection E.
  - intros Hrun. apply runs_to_end_labels in Hrun as [Hrep Hall].
    pose proof (metric_func_runs bin_labels bin_preds preds Hall Hrep) as E.
    cbn zeta in E. fold acc in E. unfold report. rewrite E.
    unfold outcome, printed. cbn [fst snd].
    unfold macro_block. rewrite Hsens, Hweighted, Hroc.
    split; [reflexivity|]. split; [|split].
    + eexists. eexists. apply in_or_app. right. right. left. reflexivity.
    + apply in_or_app. right. right. right. left. reflexivity.
    + apply in_or_app. right. right. right. right. left. reflexivity.
Qed.

Lemma all_zero_label_column_witness :
  let bin_labels := Np.MkArray 2 [[false; true]; [false; false]] in
  let bin_preds := Np.MkArray 2 [[true; true]; [false; false]] in
  let preds := Np.MkArray 2 [[Np.one; Np.one]; [Np.zero; Np.zero]] in
  0 < Np.shape1 bin_labels /\
  Np.shape0 bin_preds = Np.shape0 bin_labels /\
  forallb negb (Np.col false bin_labels 0) = true /\
  runs_to_end bin_labels bin_preds preds = true /\
  Sk.roc_auc_score (Np.col false bin_labels 0) (Np.col Np.NaN preds 0)
  = ok Np.NaN /\
  outcome (metric_func bin_labels bin_preds preds) = ok tt /\
  In (Line_roc_auc Np.NaN) (printed (metric_func bin_labels bin_preds preds)).
Proof.
  cbn zeta.
  assert (H1 : 0 < Np.shape1 (Np.MkArray 2 [[false; true]; [false; false]]))
    by (cbn; lia).
  split; [exact H1|]. split; [reflexivity|]. split; [reflexivity|].
  split; [reflexivity|].
  destruct (all_zero_label_column
              (Np.MkArray 2 [[false; true]; [false; false]])
              (Np.MkArray 2 [[true; true]; [false; false]])
              (Np.MkArray 2 [[Np.one; Np.one]; [Np.zero; Np.zero]])
              0 H1 eq_refl eq_refl)
    as (Hroc & _ & _ & _ & _ & _ & _ & _ & _ & _ & _ & Hrun).
  split; [apply Hroc; [cbn; lia | reflexivity | reflexivity]|].
  destruct (Hrun eq_refl) as (Hout & _ & _ & Hin).
  split; [exact Hout | exact Hin].
Defined.

(** C4.  The value that [metric_func] prints under 'Weighted averaging
    with w_k=1' is the unweighted arithmetic mean of the per-label F1
    scores 2*s*p/(s+p); it is not the sample-weighted mean: on some input
    the printed value differs from the mean weighted by the supports of
    the labels. *)
Theorem weighted_f1_is_unweighted_mean :
  (forall (bin_labels bin_preds : Np.ndarray bool)
          (preds : Np.ndarray Np.float) (v : Np.float),
      In (Line_weighted v) (printed (metric_func bin_labels bin_preds preds)) ->
      v = arithmetic_mean
            (map (fun i => label_f1 (Np.col false bin_labels i)
                                    (Np.col false bin_preds i))
                 (seq 0 (Np.shape1 bin_labels)))) /\
  (exists (bin_labels bin_preds : Np.ndarray bool)
          (preds : Np.ndarray Np.float) (v : Np.float),
      In (Line_weighted v) (printed (metric_func bin_labels bin_preds preds)) /\
      v <> support_weighted_mean
             (map support (columns false bin_labels))
             (map (fun i => label_f1 (Np.col false bin_labels i)
                                     (Np.col false bin_preds i))
                  (seq 0 (Np.shape1 bin_labels)))).
Proof.
  split.
  - intros bin_labels bin_preds preds v Hin.
    unfold metric_func in Hin.
    set (idx := seq 0 (Np.shape1 bin_labels)) in *.
    pose proof (for_each_printed counts_line
                  (label_body bin_labels bin_preds preds) idx empty_lists
                  (label_body_printed bin_labels bin_preds preds)) as Hloop.
    pose proof (label_loop_ok_inv bin_labels bin_preds preds) as Hinv.
    cbn zeta in Hinv. fold idx in Hinv.
    destruct (for_each (label_body bin_labels bin_preds preds) idx empty_lists)
      as [o [e|acc]].
    + unfold printed in *. cbn [fst bind snd] in *.
      rewrite Forall_forall in Hloop. apply Hloop in Hin. destruct Hin.
    + destruct (Hinv acc eq_refl) as [-> _].
      rewrite bind_ok, !bind_print in Hin. unfold printed in *.
      cbn [fst snd] in *.
      apply in_app_or in Hin as [Hin|Hin].
      { rewrite Forall_forall in Hloop. apply Hloop in Hin. destruct Hin. }
      destruct Hin as [Hin|[Hin|[Hin|Hin]]]; try discriminate Hin.
      * injection Hin as <-. rewrite mean_arithmetic. f_equal.
        unfold lists_after, idx.
        pose proof (fold_label_step bin_labels bin_preds preds
                      (seq 0 (Np.shape1 bin_labels)) empty_lists) as F.
        cbn zeta in F. destruct F as (_ & _ & _ & _ & _ & _ & _ & F).
        exact F.
      * exfalso.
        destruct (Sk.classification_report bin_labels bin_preds) as [e|[]];
          cbn in Hin.
        -- destruct Hin as [Hin|[]]. discriminate Hin.
        -- destruct Hin as [Hin|[Hin|[]]]; discriminate Hin.
  - exists (Np.MkArray 2 [[true; true]; [true; true]; [true; false];
                          [false; false]]),
           (Np.MkArray 2 [[true; true]; [true; false]; [true; false];
                          [false; false]]),
           (Np.MkArray 2 [[Np.one; Np.one]; [Np.one; Np.zero];
                          [Np.one; Np.zero]; [Np.zero; Np.zero]]).
    eexists. split.
    + rewrite metric_func_run by reflexivity. unfold printed. cbn [fst].
      apply in_or_app. right. right. right. left. reflexivity.
    + intros H.
      apply (f_equal (fun x => match x with Np.Fin q => this q | _ => 0%Q end))
        in H.
      vm_compute in H. discriminate H.
Qed.

Lemma weighted_f1_is_unweighted_mean_witness :
  let bin_labels := Np.MkArray 1 [[true]; [true]; [false]] in
  let bin_preds := Np.MkArray 1 [[true]; [false]; [false]] in
  let preds := Np.MkArray 1 [[Np.one]; [Np.zero]; [Np.zero]] in
  let v := Np.Fin (Q2Qc (2 # 3)) in
  In (Line_weighted v) (printed (metric_func bin_labels bin_preds preds)) /\
  v = arithmetic_mean
        (map (fun i => label_f1 (Np.col false bin_labels i)
                                (Np.col false bin_preds i))
             (seq 0 (Np.shape1 bin_labels))).
Proof.
  cbn zeta.
  assert (Hin : In (Line_weighted (Np.Fin (Q2Qc (2 # 3))))
                  (printed
                     (metric_func
                        (Np.MkArray 1 [[true]; [true]; [false]])
                        (Np.MkArray 1 [[true]; [false]; [false]])
                        (Np.MkArray 1 [[Np.one]; [Np.zero]; [Np.zero]])))).
  { vm_compute. right. right. right. right. left. reflexivity. }
  split; [exact Hin|].
  exact (proj1 weighted_f1_is_unweighted_mean _ _ _ _ Hin).
Defined.

Section PerfectPredictions.

Variable bin_labels : Np.ndarray bool.
Variable preds : Np.ndarray Np.float.
Hypothesis Hreportable : reportable bin_labels bin_labels preds = true.
Hypothesis Hlabels : 1 <= Np.shape1 bin_labels.

Let idx := seq 0 (Np.shape1 bin_labels).
Let y (i : nat) := Np.col false bin_labels i.
Let acc := lists_after bin_labels bin_labels preds idx.

Lemma perfect_two_class (i : nat) : In i idx -> two_class (y i) = true.
Proof.
  intros Hi. apply in_seq in Hi.
  apply (reportable_two_class bin_labels bin_labels preds i Hreportable).
  lia.
Qed.

Lemma perfect_idx_length : length idx <> 0.
Proof. unfold idx. rewrite length_seq. lia. Qed.

Lemma perfect_idx_nonempty : idx <> [].
Proof.
  pose proof perfect_idx_length as H. destruct idx; [contradiction H|].
  - reflexivity.
  - discriminate.
Qed.

Lemma perfect_lists :
  TP acc = map (fun i => length (filter (Bool.eqb true) (y i))) idx /\
  FP acc = repeat 0 (length idx) /\
  TN acc = map (fun i => length (filter (Bool.eqb false) (y i))) idx /\
  FN acc = repeat 0 (length idx) /\
  sensitivity acc = repeat Np.one (length idx) /\
  specificity acc = repeat Np.one (length idx) /\
  precision acc = repeat Np.one (length idx).
Proof.
  pose proof (fold_label_step bin_labels bin_labels preds idx empty_lists)
    as F.
  cbn zeta in F. cbn [empty_lists TP FP TN FN sensitivity
    specificity precision my_f1 app] in F.
  destruct F as (F1 & F2 & F3 & F4 & F5 & F6 & F7 & _).
  unfold label_TP, label_FP, label_FN in *.
  unfold acc, lists_after.
  assert (Hpos : forall i, In i idx ->
                   length (filter (Bool.eqb true) (y i)) <> 0 /\
                   length (filter (Bool.eqb false) (y i)) <> 0).
  { intros i Hi. destruct (two_class_counts (y i) (perfect_two_class i Hi)).
    lia. }
  repeat split.
  - rewrite F1. apply map_ext. intros i. now rewrite count_pairs_same.
  - rewrite F2. apply map_constant. intros i _. now rewrite count_pairs_same.
  - rewrite F3. apply map_ext. intros i. now rewrite count_pairs_same.
  - rewrite F4. apply map_constant. intros i _. now rewrite count_pairs_same.
  - rewrite F5. apply map_constant. intros i Hi.
    rewrite !count_pairs_same. cbn [Bool.eqb]. unfold sensitivity_of.
    rewrite Nat.add_0_r. apply true_divide_self. now apply Hpos.
  - rewrite F6. apply map_constant. intros i Hi.
    rewrite !count_pairs_same. cbn [Bool.eqb]. unfold specificity_of.
    rewrite Nat.add_0_r. apply true_divide_self. now apply Hpos.
  - rewrite F7. apply map_constant. intros i Hi.
    rewrite !count_pairs_same. cbn [Bool.eqb]. unfold precision_of.
    rewrite Nat.add_0_r. apply true_divide_self. now apply Hpos.
Qed.

Lemma perfect_macro_block :
  macro_block acc = Line_macro Np.one Np.one Np.one Np.one.
Proof.
  destruct perfect_lists as (_ & _ & _ & _ & Hs & Hsp & Hp).
  unfold macro_block. rewrite Hs, Hsp, Hp.
  rewrite !mean_repeat_one by apply perfect_idx_length.
  now rewrite f1_of_one_one.
Qed.

Lemma perfect_micro_block :
  micro_block acc = Line_micro Np.one Np.one Np.one Np.one.
Proof.
  destruct perfect_lists as (HTP & HFP & HTN & HFN & _).
  assert (Hlen : forall f : nat -> nat,
             length (map f idx) = length idx) by (intros; apply length_map).
  unfold micro_block. rewrite !mean_counts_eq.
  rewrite HTP, HFP, HTN, HFN, !Hlen, !repeat_length.
  rewrite !rate_of_means by apply perfect_idx_length.
  rewrite list_sum_repeat_0, !Nat.add_0_r.
  rewrite !true_divide_self, f1_of_one_one; [reflexivity| |].
  - pose proof (list_sum_pos
                  (map (fun i => length (filter (Bool.eqb false) (y i))) idx))
      as H.
    enough (1 <= list_sum
              (map (fun i => length (filter (Bool.eqb false) (y i))) idx))
      by lia.
    apply H.
    + intros E. apply map_eq_nil in E. now apply perfect_idx_nonempty.
    + intros a Ha. apply in_map_iff in Ha as [i [<- Hi]].
      now destruct (two_class_counts (y i) (perfect_two_class i Hi)).
  - pose proof (list_sum_pos
                  (map (fun i => length (filter (Bool.eqb true) (y i))) idx))
      as H.
    enough (1 <= list_sum
              (map (fun i => length (filter (Bool.eqb true) (y i))) idx))
      by lia.
    apply H.
    + intros E. apply map_eq_nil in E. now apply perfect_idx_nonempty.
    + intros a Ha. apply in_map_iff in Ha as [i [<- Hi]].
      now destruct (two_class_counts (y i) (perfect_two_class i Hi)).
Qed.

End PerfectPredictions.

Lemma reportable_intro (bin_labels bin_preds : Np.ndarray bool)
    (preds : Np.ndarray Np.float) :
  1 <= Np.shape1 bin_labels ->
  Np.shape1 bin_preds = Np.shape1 bin_labels ->
  Np.shape1 preds = Np.shape1 bin_labels ->
  Np.shape0 bin_preds = Np.shape0 bin_labels ->
  Np.shape0 preds = Np.shape0 bin_labels ->
  (forall i, i < Np.shape1 bin_labels ->
             two_class (Np.col false bin_labels i) = true) ->
  (forall i, i < Np.shape1 bin_labels ->
             forallb Np.is_finite (Np.col Np.NaN preds i) = true) ->
  reportable bin_labels bin_preds preds = true.
Proof.
  intros H0 H1 H2 H3 H4 Hc Hf. unfold reportable.
  rewrite H1, H2, H3, H4, !Nat.eqb_refl.
  apply Nat.leb_le in H0. rewrite H0. cbn [andb].
  apply forallb_forall. intros i Hi. apply in_seq in Hi.
  rewrite Hc, Hf by lia. reflexivity.
Qed.

(** C7, as stated, fails: with no label column every column has both
    classes, and the means of the empty lists make every micro and macro
    figure nan. *)
Lemma no_label_column_f1_nan :
  let bin_labels := Np.MkArray 0 [[]; []] in
  let preds := Np.MkArray 0 [[]; []] in
  (forall i, i < Np.shape1 bin_labels ->
             two_class (Np.col false bin_labels i) = true) /\
  firstn 2 (printed (metric_func bin_labels bin_labels preds))
  = [Line_micro Np.NaN Np.NaN Np.NaN Np.NaN;
     Line_macro Np.NaN Np.NaN Np.NaN Np.NaN] /\
  Np.NaN <> Np.one.
Proof.
  cbn zeta. split; [intros i Hi; cbn in Hi; lia|].
  split; [reflexivity | discriminate].
Qed.

(** C7, amended.  For every input to [metric_func] with at least one label
    column in which the binary predictions equal the binary labels, every
    label column contains at least one positive and one negative sample,
    and the probabilities are finite and of the shape of the labels, the
    reporter runs to its end and the macro-averaged F1 and the
    micro-averaged F1 that it prints both equal 1.0 (as do the averaged
    sensitivity, specificity and precision). *)
Theorem perfect_predictions_f1_one (bin_labels : Np.ndarray bool)
    (preds : Np.ndarray Np.float) :
  1 <= Np.shape1 bin_labels ->
  Np.shape1 preds = Np.shape1 bin_labels ->
  Np.shape0 preds = Np.shape0 bin_labels ->
  (forall i, i < Np.shape1 bin_labels ->
             two_class (Np.col false bin_labels i) = true) ->
  (forall i, i < Np.shape1 bin_labels ->
             forallb Np.is_finite (Np.col Np.NaN preds i) = true) ->
  exists counts_lines roc_auc_mean,
    Forall counts_line counts_lines /\
    metric_func bin_labels bin_labels preds
    = (counts_lines
       ++ [Line_micro Np.one Np.one Np.one Np.one;
           Line_macro Np.one Np.one Np.one Np.one;
           Line_weighted Np.one;
           Line_roc_auc roc_auc_mean;
           Line_classification_report bin_labels bin_labels], ok tt).
Proof.
  intros Hlabels Hs1 Hs0 Hclasses Hfinite.
  assert (Hreportable : reportable bin_labels bin_labels preds = true)
    by now apply reportable_intro.
  pose proof (metric_func_run bin_labels bin_labels preds Hreportable) as E.
  cbn zeta in E.
  rewrite (perfect_micro_block bin_labels preds Hreportable Hlabels) in E.
  rewrite (perfect_macro_block bin_labels preds Hreportable Hlabels) in E.
  eexists. eexists. split; [|rewrite E; repeat f_equal].
  - rewrite Forall_forall. intros l Hl. apply in_flat_map in Hl as [i [_ Hl]].
    destruct Hl as [<-|[<-|[]]]; exact I.
  - pose proof (fold_label_step bin_labels bin_labels preds
                  (seq 0 (Np.shape1 bin_labels)) empty_lists) as F.
    cbn zeta in F. destruct F as (_ & _ & _ & _ & F5 & _ & F7 & F).
    unfold lists_after. rewrite F. cbn [my_f1 empty_lists app].
    destruct (perfect_lists bin_labels preds Hreportable Hlabels)
      as (_ & _ & _ & _ & Hs & _ & Hp).
    unfold lists_after in Hs, Hp. rewrite F5 in Hs. rewrite F7 in Hp.
    cbn [sensitivity precision empty_lists app] in Hs, Hp.
    unfold label_f1.
    rewrite (map_constant _ Np.one).
    + apply mean_repeat_one. rewrite length_seq. lia.
    + intros i Hi.
      assert (Es : forall f : nat -> Np.float, forall n,
                 map f (seq 0 (Np.shape1 bin_labels)) = repeat Np.one n ->
                 f i = Np.one).
      { intros f n Hf.
        assert (Hin : In (f i) (map f (seq 0 (Np.shape1 bin_labels))))
          by now apply in_map.
        rewrite Hf in Hin. now apply repeat_spec in Hin. }
      rewrite (Es _ _ Hs), (Es _ _ Hp). apply f1_of_one_one.
Qed.

Lemma perfect_predictions_f1_one_witness :
  let bin_labels := Np.MkArray 2 [[true; false]; [false; true];
                                  [true; true]; [false; false]] in
  let preds := Np.MkArray 2 [[Np.one; Np.zero]; [Np.zero; Np.one];
                             [Np.one; Np.one]; [Np.zero; Np.zero]] in
  1 <= Np.shape1 bin_labels /\
  (forall i, i < Np.shape1 bin_labels ->
             two_class (Np.col false bin_labels i) = true) /\
  exists counts_lines roc_auc_mean,
    Forall counts_line counts_lines /\
    metric_func bin_labels bin_labels preds
    = (counts_lines
       ++ [Line_micro Np.one Np.one Np.one Np.one;
           Line_macro Np.one Np.one Np.one Np.one;
           Line_weighted Np.one;
           Line_roc_auc roc_auc_mean;
           Line_classification_report bin_labels bin_labels], ok tt).
Proof.
  cbn zeta.
  set (bin_labels := Np.MkArray 2 [[true; false]; [false; true];
                                   [true; true]; [false; false]]).
  set (preds := Np.MkArray 2 [[Np.one; Np.zero]; [Np.zero; Np.one];
                              [Np.one; Np.one]; [Np.zero; Np.zero]]).
  assert (H1 : 1 <= Np.shape1 bin_labels) by (cbn; lia).
  assert (Hc : forall i, i < Np.shape1 bin_labels ->
                         two_class (Np.col false bin_labels i) = true).
  { intros i Hi. cbn in Hi. destruct i as [|[|i]]; [reflexivity.. | lia]. }
  assert (Hf : forall i, i < Np.shape1 bin_labels ->
                         forallb Np.is_finite (Np.col Np.NaN preds i) = true).
  { intros i Hi. cbn in Hi. destruct i as [|[|i]]; [reflexivity.. | lia]. }
  split; [exact H1|]. split; [exact Hc|].
  exact (perfect_predictions_f1_one bin_labels preds H1 eq_refl eq_refl Hc Hf).
Defined.

(* ================================================================== *)
(** * The loops *)

Section LoopFacts.

Variables Net Opt Samples : Type.
Variable net_call : bool -> Net -> Samples -> Net * Np.ndarray Np.float.
Variable criterion : Np.ndarray Np.float -> Np.ndarray bool -> Np.float.
Variable backward_step :
  Opt -> Net -> Samples -> Np.ndarray bool -> Opt * Net.
Variable sigmoid : Np.float -> Np.float.

Variables train_loader val_loader : list (Batch Samples).
Variable treshold_preds : Np.float.

Local Abbreviation train_body' :=
  (train_body net_call criterion backward_step sigmoid treshold_preds).
Local Abbreviation eval_body' :=
  (eval_body net_call criterion sigmoid treshold_preds).
Local Abbreviation train_pass' :=
  (train_pass net_call criterion backward_step sigmoid train_loader
     treshold_preds).
Local Abbreviation eval_pass' :=
  (fun loader => eval_pass net_call criterion sigmoid loader treshold_preds).
Local Abbreviation state_at' :=
  (state_at net_call criterion backward_step sigmoid train_loader val_loader
     treshold_preds).

Local Abbreviation strict_bits' := (strict_bits sigmoid treshold_preds).

Lemma binarize_sigmoid (logits : Np.ndarray Np.float) :
  binarize (torch_sigmoid sigmoid logits) treshold_preds
  = strict_bits' logits.
Proof.
  unfold binarize, torch_sigmoid, strict_bits, Np.map_array.
  cbn [Np.shape1 Np.rows]. f_equal. rewrite map_map.
  apply map_ext. intros r. now rewrite map_map.
Qed.

Lemma train_body_preds (v : train_vars Net Opt) (b : Batch Samples) :
  train_preds (train_body' v b)
  = train_preds v
    ++ [strict_bits' (snd (net_call true (tr_net v) (ecg_signals b)))].
Proof.
  unfold train_body.
  destruct (net_call true (tr_net v) (ecg_signals b)) as [net preds].
  destruct (backward_step (tr_optimizer v) net (ecg_signals b) (labels b))
    as [optimizer net'].
  cbn [train_preds snd]. now rewrite binarize_sigmoid.
Qed.

Lemma eval_body_preds (v : eval_vars Net) (b : Batch Samples) :
  ev_preds (eval_body' v b)
  = ev_preds v
    ++ [strict_bits' (snd (net_call false (ev_net v) (ecg_signals b)))].
Proof.
  unfold eval_body.
  destruct (net_call false (ev_net v) (ecg_signals b)) as [net preds].
  cbn [ev_preds snd]. now rewrite binarize_sigmoid.
Qed.

(** Every array of binary predictions that a pass accumulates is the
    strict binarisation of the logits of one of its batches. *)
Lemma eval_pass_preds_from (loader : list (Batch Samples)) (v : eval_vars Net)
    (a : Np.ndarray bool) :
  In a (ev_preds (fold_left eval_body' loader v)) ->
  In a (ev_preds v) \/
  exists net b, In b loader /\
    a = strict_bits' (snd (net_call false net (ecg_signals b))).
Proof.
  revert v. induction loader as [|b loader IH]; intros v H.
  - now left.
  - cbn [fold_left] in H. apply IH in H as [H|(net & b' & Hb' & E)].
    + rewrite eval_body_preds in H. apply in_app_or in H as [H|[<-|[]]].
      * now left.
      * right. exists (ev_net v), b. split; [now left | reflexivity].
    + right. exists net, b'. split; [now right | exact E].
Qed.

Lemma train_pass_preds_from (loader : list (Batch Samples))
    (v : train_vars Net Opt) (a : Np.ndarray bool) :
  In a (train_preds (fold_left train_body' loader v)) ->
  In a (train_preds v) \/
  exists net b, In b loader /\
    a = strict_bits' (snd (net_call true net (ecg_signals b))).
Proof.
  revert v. induction loader as [|b loader IH]; intros v H.
  - now left.
  - cbn [fold_left] in H. apply IH in H as [H|(net & b' & Hb' & E)].
    + rewrite train_body_preds in H. apply in_app_or in H as [H|[<-|[]]].
      * now left.
      * right. exists (tr_net v), b. split; [now left | reflexivity].
    + right. exists net, b'. split; [now right | exact E].
Qed.

(** The three lists of the training pass grow by one array per batch. *)
Lemma train_body_lengths (v : train_vars Net Opt) (b : Batch Samples) :
  length (train_labels (train_body' v b)) = S (length (train_labels v)) /\
  length (train_preds (train_body' v b)) = S (length (train_preds v)) /\
  length (train_prob (train_body' v b)) = S (length (train_prob v)).
Proof.
  unfold train_body.
  destruct (net_call true (tr_net v) (ecg_signals b)) as [net preds].
  destruct (backward_step (tr_optimizer v) net (ecg_signals b) (labels b))
    as [optimizer net'].
  cbn [train_labels train_preds train_prob].
  rewrite !length_app. cbn [length]. lia.
Qed.

Lemma train_fold_lengths (loader : list (Batch Samples))
    (v : train_vars Net Opt) :
  let v' := fold_left train_body' loader v in
  length (train_labels v') = length (train_labels v) + length loader /\
  length (train_preds v') = length (train_preds v) + length loader /\
  length (train_prob v') = length (train_prob v) + length loader.
Proof.
  revert v. induction loader as [|b loader IH]; intros v; cbn zeta.
  - cbn [fold_left length]. lia.
  - cbn [fold_left length].
    destruct (IH (train_body' v b)) as (H1 & H2 & H3). cbn zeta in *.
    destruct (train_body_lengths v b) as (L1 & L2 & L3). lia.
Qed.

(** Python's division of a loss by the length of a non-empty loader. *)
Lemma py_truediv_nonempty {A} (x : Np.float) (loader : list A) :
  loader <> [] ->
  py_truediv x (length loader) = ok (Np.div x (Np.of_nat (length loader))).
Proof.
  intros H. unfold py_truediv.
  destruct loader; [congruence | reflexivity].
Qed.

(** The outcome of an epoch after its training pass: the two divisions,
    the report, and the state handed to the next epoch. *)
Lemma epoch_outcome (st : train_state Net Opt) (tv : train_vars Net Opt) :
  let ev := eval_pass' val_loader (tr_net tv) in
  outcome (epoch_after_train_pass net_call criterion sigmoid train_loader
             val_loader treshold_preds st tv)
  = (train_loss' <- py_truediv (train_loss tv) (length train_loader) ;;
     val_loss' <- py_truediv (ev_loss ev) (length val_loader) ;;
     _ <- report_outcome ev ;;
     ok (MkTrainState (ev_net ev) (tr_optimizer tv)
           (loss_train_history st ++ [train_loss'])
           (loss_val_history st ++ [val_loss'])))%result.
Proof.
  intros ev. unfold epoch_after_train_pass, report_outcome. fold ev.
  destruct (py_truediv (train_loss tv) (length train_loader)) as [x|tl];
    [reflexivity|]. rewrite bind_lift_ok.
  destruct (py_truediv (ev_loss ev) (length val_loader)) as [x|vl];
    [reflexivity|]. rewrite bind_lift_ok, bind_print.
  unfold outcome. cbn [fst snd rbind].
  destruct (Np.concatenate (ev_labels ev)) as [x|VL]; [reflexivity|].
  rewrite bind_lift_ok.
  destruct (Np.concatenate (ev_preds ev)) as [x|VP]; [reflexivity|].
  rewrite bind_lift_ok.
  destruct (Np.concatenate (ev_prob ev)) as [x|VR]; [reflexivity|].
  rewrite bind_lift_ok. cbn [rbind].
  destruct (metric_func VL VP VR) as [o [x|[]]]; reflexivity.
Qed.

(** One epoch whose report does not raise runs to its end. *)
Lemma epoch_body_outcome (n_epoch e : nat) (st : train_state Net Opt) :
  train_loader <> [] -> val_loader <> [] ->
  let tv := train_pass' (st_net st) (st_optimizer st) in
  let ev := eval_pass' val_loader (tr_net tv) in
  report_outcome ev = ok tt ->
  outcome (epoch_body net_call criterion backward_step sigmoid train_loader
             val_loader n_epoch treshold_preds st e)
  = ok (MkTrainState (ev_net ev) (tr_optimizer tv)
          (loss_train_history st
           ++ [Np.div (train_loss tv) (Np.of_nat (length train_loader))])
          (loss_val_history st
           ++ [Np.div (ev_loss ev) (Np.of_nat (length val_loader))])).
Proof.
  intros Ht Hv tv ev Hrep. unfold epoch_body. fold tv.
  rewrite outcome_bind. unfold outcome at 1. cbn [snd print rbind ok].
  rewrite epoch_outcome. cbn zeta. fold ev.
  rewrite !py_truediv_nonempty by assumption. cbn [rbind ok].
  rewrite Hrep. reflexivity.
Qed.

Variable net : Net.
Variable optimizer : Opt.

Local Abbreviation train_mean_loss :=
  (fun e => Np.div
              (accumulated_train_loss net_call criterion backward_step
                 sigmoid train_loader val_loader treshold_preds net
                 optimizer e)
              (Np.of_nat (length train_loader))).
Local Abbreviation val_mean_loss :=
  (fun e => Np.div
              (accumulated_val_loss net_call criterion backward_step
                 sigmoid train_loader val_loader treshold_preds net
                 optimizer e)
              (Np.of_nat (length val_loader))).

(** The epochs [a], ..., [a + n - 1], from the state at the start of
    epoch [a]. *)
Lemma epochs_run (n_epoch n a : nat) (st : train_state Net Opt) :
  train_loader <> [] -> val_loader <> [] ->
  state_at' net optimizer a = (st_net st, st_optimizer st) ->
  (forall e, a <= e < a + n ->
     epoch_reported net_call criterion backward_step sigmoid
       train_loader val_loader treshold_preds net optimizer e) ->
  outcome
    (for_each (epoch_body net_call criterion backward_step sigmoid
                 train_loader val_loader n_epoch treshold_preds)
       (seq a n) st)
  = ok (MkTrainState
          (fst (state_at' net optimizer (a + n)))
          (snd (state_at' net optimizer (a + n)))
          (loss_train_history st ++ map train_mean_loss (seq a n))
          (loss_val_history st ++ map val_mean_loss (seq a n))).
Proof.
  intros Ht Hv. revert a st.
  induction n as [|n IH]; intros a st Hst Hrep.
  - cbn [seq for_each map]. rewrite Nat.add_0_r, Hst, !app_nil_r.
    destruct st. reflexivity.
  - cbn [seq for_each map]. rewrite outcome_bind.
    pose proof (Hrep a ltac:(lia)) as Ha.
    unfold epoch_reported in Ha. rewrite Hst in Ha.
    rewrite (epoch_body_outcome n_epoch a st Ht Hv Ha).
    cbn [rbind ok].
    set (st1 := MkTrainState _ _ _ _).
    rewrite (IH (S a) st1).
    + replace (a + S n) with (S a + n) by lia.
      unfold st1. cbn [loss_train_history loss_val_history].
      rewrite <- !app_assoc. cbn [app].
      unfold accumulated_train_loss, accumulated_val_loss.
      rewrite Hst. reflexivity.
    + cbn [state_at]. rewrite Hst. reflexivity.
    + intros e He. apply Hrep. lia.
Qed.

(** C8, amended.  For every call to [train] with [n_epoch] epochs over
    non-empty loaders in which the report of no epoch raises (the
    validation arrays of the epoch concatenate and the metric reporter
    returns on them), the collaborators (network, criterion, optimizer)
    being taken to return, [train] returns the network together with a
    training-loss sequence and a validation-loss sequence; each sequence
    has one entry per epoch, in order, and each entry is that epoch's
    accumulated loss divided by the number of batches of the corresponding
    loader. *)
Theorem train_returns_loss_histories (n_epoch : nat) :
  train_loader <> [] -> val_loader <> [] ->
  (forall e, e < n_epoch ->
     epoch_reported net_call criterion backward_step sigmoid
       train_loader val_loader treshold_preds net optimizer e) ->
  exists out loss_train_history loss_val_history,
    train net_call criterion backward_step sigmoid net train_loader
      val_loader n_epoch optimizer treshold_preds
    = (out,
       ok (fst (state_at' net optimizer n_epoch),
           loss_train_history, loss_val_history)) /\
    length loss_train_history = n_epoch /\
    length loss_val_history = n_epoch /\
    loss_train_history = map train_mean_loss (seq 0 n_epoch) /\
    loss_val_history = map val_mean_loss (seq 0 n_epoch).
Proof.
  intros Ht Hv Hrep.
  pose proof (epochs_run n_epoch n_epoch 0 (MkTrainState net optimizer [] [])
                Ht Hv eq_refl) as E.
  cbn [Nat.add loss_train_history loss_val_history app] in E.
  assert (Hall : forall e, 0 <= e < n_epoch ->
            epoch_reported net_call criterion backward_step sigmoid
              train_loader val_loader treshold_preds net optimizer e)
    by (intros e He; apply Hrep; lia).
  specialize (E Hall).
  exists (printed (train net_call criterion backward_step sigmoid net
                     train_loader val_loader n_epoch optimizer
                     treshold_preds)).
  eexists. eexists. split.
  - unfold train, printed. unfold outcome in E.
    destruct (for_each _ (seq 0 n_epoch) _) as [o r]. cbn [snd] in E.
    subst r. rewrite bind_ok. cbn [fst snd ret ok st_net
      loss_train_history loss_val_history]. reflexivity.
  - rewrite !length_map, !length_seq. repeat split.
Qed.

(** C9, amended.  In the loops of [train] and [test] the binarisation is
    strict, against the threshold as torch converts it to the float32 of
    the probabilities: the array of binary predictions that each training,
    validation or test batch appends holds, for every logit, the bit of
    sigmoid(logit) > float32(treshold_preds); the bit is 1 if and only if
    the probability is strictly greater than the converted threshold, so a
    probability equal to the converted threshold is classified negative;
    for a threshold that float32 represents exactly the comparison is with
    the caller-supplied threshold itself. *)
Theorem binarization_is_strict :
  (forall (v : train_vars Net Opt) (b : Batch Samples),
      train_preds (train_body' v b)
      = train_preds v
        ++ [strict_bits' (snd (net_call true (tr_net v) (ecg_signals b)))]) /\
  (forall (v : eval_vars Net) (b : Batch Samples),
      ev_preds (eval_body' v b)
      = ev_preds v
        ++ [strict_bits' (snd (net_call false (ev_net v) (ecg_signals b)))]) /\
  (forall (loader : list (Batch Samples)) (n : Net) (o : Opt)
          (a : Np.ndarray bool),
      In a (train_preds
              (train_pass net_call criterion backward_step sigmoid loader
                 treshold_preds n o)) ->
      exists n' b, In b loader /\
        a = strict_bits' (snd (net_call true n' (ecg_signals b)))) /\
  (forall (loader : list (Batch Samples)) (n : Net) (a : Np.ndarray bool),
      In a (ev_preds (eval_pass' loader n)) ->
      exists n' b, In b loader /\
        a = strict_bits' (snd (net_call false n' (ecg_signals b)))) /\
  (forall logits : Np.ndarray Np.float,
      Np.rows (strict_bits' logits)
      = map (map (fun logit =>
                    Np.gtb (sigmoid logit) (Np.float32 treshold_preds)))
            (Np.rows logits)) /\
  (forall p : Np.float,
      Np.gtb p (Np.float32 treshold_preds) = true
      <-> Np.lt (Np.float32 treshold_preds) p) /\
  Np.gtb (Np.float32 treshold_preds) (Np.float32 treshold_preds) = false /\
  (Np.float32 treshold_preds = treshold_preds ->
   forall p : Np.float,
     Np.gtb p (Np.float32 treshold_preds) = true <-> Np.lt treshold_preds p).
Proof.
  split; [exact train_body_preds|]. split; [exact eval_body_preds|].
  split.
  { intros loader n o a H. unfold train_pass in H.
    apply train_pass_preds_from in H as [[]|H]. exact H. }
  split.
  { intros loader n a H. unfold eval_pass in H.
    apply eval_pass_preds_from in H as [[]|H]. exact H. }
  split; [reflexivity|].
  split; [intros p; apply gtb_lt|].
  split; [apply gtb_irrefl|].
  intros E p. rewrite E. apply gtb_lt.
Qed.

(** C10.  In every epoch of [train] the three accumulation lists of the
    training pass receive one array per training batch, and nothing after
    the training pass reads them: the rest of the epoch is the same for
    any training variables with the same network, optimizer and
    accumulated loss.  What an epoch prints is its header and then, unless
    a division or a concatenation has raised before the report, the header
    of the report, what the metric reporter prints on the concatenated
    validation labels, binary predictions and probabilities, and the line
    of the two losses when the reporter has returned. *)
Theorem metric_report_reads_validation_only (n_epoch e : nat)
    (st : train_state Net Opt) :
  let tv := train_pass' (st_net st) (st_optimizer st) in
  let ev := eval_pass' val_loader (tr_net tv) in
  let run := epoch_body net_call criterion backward_step sigmoid
               train_loader val_loader n_epoch treshold_preds st e in
  (length (train_labels tv) = length train_loader /\
   length (train_preds tv) = length train_loader /\
   length (train_prob tv) = length train_loader) /\
  (forall tv' : train_vars Net Opt,
      tr_net tv' = tr_net tv ->
      tr_optimizer tv' = tr_optimizer tv ->
      train_loss tv' = train_loss tv ->
      epoch_after_train_pass net_call criterion sigmoid train_loader
        val_loader treshold_preds st tv'
      = epoch_after_train_pass net_call criterion sigmoid train_loader
          val_loader treshold_preds st tv) /\
  ((exists x, outcome run = raise x /\
              (printed run = [Line_epoch (e + 1) n_epoch] \/
               printed run = [Line_epoch (e + 1) n_epoch;
                              Line_validation_metrics])) \/
   (exists val_labels val_preds val_prob,
      Np.concatenate (ev_labels ev) = ok val_labels /\
      Np.concatenate (ev_preds ev) = ok val_preds /\
      Np.concatenate (ev_prob ev) = ok val_prob /\
      let report := metric_func val_labels val_preds val_prob in
      ((exists x, outcome report = raise x /\ outcome run = raise x /\
                  printed run
                  = Line_epoch (e + 1) n_epoch
                      :: Line_validation_metrics :: printed report) \/
       (exists st' train_loss' val_loss',
           outcome report = ok tt /\ outcome run = ok st' /\
           printed run
           = Line_epoch (e + 1) n_epoch
               :: Line_validation_metrics
               :: printed report ++ [Line_losses train_loss' val_loss'])))).
Proof.
  intros tv ev run. split; [|split].
  - apply (train_fold_lengths train_loader
             (MkTrainVars (st_net st) (st_optimizer st) Np.zero [] [] [])).
  - intros tv' E1 E2 E3. unfold epoch_after_train_pass.
    now rewrite E1, E2, E3.
  - unfold run, epoch_body. fold tv.
    rewrite bind_print. unfold outcome, printed.
    cbn [fst snd]. unfold epoch_after_train_pass. fold ev.
    destruct (py_truediv (train_loss tv) (length train_loader))
      as [x|train_loss'];
      [left; exists x; split; [reflexivity | left; reflexivity]|].
    rewrite bind_lift_ok.
    destruct (py_truediv (ev_loss ev) (length val_loader))
      as [x|val_loss'];
      [left; exists x; split; [reflexivity | left; reflexivity]|].
    rewrite bind_lift_ok, bind_print. cbn [fst snd].
    destruct (Np.concatenate (ev_labels ev)) as [x|val_labels];
      [left; exists x; split; [reflexivity | right; reflexivity]|].
    rewrite bind_lift_ok.
    destruct (Np.concatenate (ev_preds ev)) as [x|val_preds];
      [left; exists x; split; [reflexivity | right; reflexivity]|].
    rewrite bind_lift_ok.
    destruct (Np.concatenate (ev_prob ev)) as [x|val_prob];
      [left; exists x; split; [reflexivity | right; reflexivity]|].
    rewrite bind_lift_ok.
    right. exists val_labels, val_preds, val_prob.
    repeat (split; [reflexivity|]). cbn zeta.
    destruct (metric_func val_labels val_preds val_prob) as [o [x|[]]].
    + left. exists x. repeat split.
    + right. rewrite bind_ok, bind_print. cbn [fst snd ret].
      eexists. exists train_loss', val_loss'. repeat split.
Qed.

End LoopFacts.

(** C8, as stated, fails: over non-empty loaders, a network that answers
    with one logit per sample where the labels have two columns makes the
    metric reporter raise IndexError at the second label of the first
    epoch, and [train] raises with it instead of returning. *)
Lemma train_raises_with_reporter :
  [Toy.batch_a] <> [] /\
  [Toy.batch_c] <> [] /\
  train Toy.net_call Toy.criterion Toy.backward_step Toy.sigmoid
    0 [Toy.batch_a] [Toy.batch_c] 1 tt Toy.treshold
  = ([Line_epoch 1 1; Line_validation_metrics;
      Line_counts_header; Line_counts 1 0 1 0],
     raise IndexError).
Proof.
  split; [discriminate|]. split; [discriminate|]. reflexivity.
Qed.

Lemma train_returns_loss_histories_witness :
  [Toy.batch_a] <> [] /\
  [Toy.batch_b] <> [] /\
  (forall e, e < 2 ->
     epoch_reported Toy.net_call Toy.criterion Toy.backward_step
       Toy.sigmoid [Toy.batch_a] [Toy.batch_b] Toy.treshold 0 tt e) /\
  exists out loss_train_history loss_val_history,
    train Toy.net_call Toy.criterion Toy.backward_step Toy.sigmoid
      0 [Toy.batch_a] [Toy.batch_b] 2 tt Toy.treshold
    = (out, ok (2, loss_train_history, loss_val_history)) /\
    length loss_train_history = 2 /\
    length loss_val_history = 2.
Proof.
  assert (Ha : [Toy.batch_a] <> []) by discriminate.
  assert (Hb : [Toy.batch_b] <> []) by discriminate.
  assert (Hrep : forall e, e < 2 ->
            epoch_reported Toy.net_call Toy.criterion Toy.backward_step
              Toy.sigmoid [Toy.batch_a] [Toy.batch_b] Toy.treshold 0 tt e).
  { intros e He. destruct e as [|[|e]]; [| |lia];
      unfold epoch_reported; vm_compute; reflexivity. }
  split; [exact Ha|]. split; [exact Hb|]. split; [exact Hrep|].
  destruct (train_returns_loss_histories Toy.Net Toy.Opt Toy.Samples
              Toy.net_call Toy.criterion Toy.backward_step Toy.sigmoid
              [Toy.batch_a] [Toy.batch_b] Toy.treshold 0 tt 2 Ha Hb Hrep)
    as (out & h1 & h2 & E & L1 & L2 & _).
  exists out, h1, h2. split; [exact E|]. split; assumption.
Defined.

(** C9, as stated, fails: with the threshold 0.6, the Python float
    5404319552844595 / 2^53, which float32 does not represent, a
    probability of 0.6000000238418579 (the float32 nearest to it) is
    strictly greater than the caller-supplied threshold and is classified
    negative, because the threshold is converted to that very float32
    before the comparison. *)
Lemma binarization_rounds_threshold :
  let treshold_preds :=
    Np.Fin (Q2Qc (5404319552844595 # 9007199254740992)) in
  let p := Np.Fin (Q2Qc (5033165 # 8388608)) in
  Np.float32 treshold_preds = p /\
  Np.lt treshold_preds p /\
  binarize (Np.MkArray 1 [[p]]) treshold_preds = Np.MkArray 1 [[false]].
Proof.
  cbn zeta. split; [|split].
  - vm_compute. f_equal. apply Qc_is_canon. reflexivity.
  - constructor. vm_compute. reflexivity.
  - vm_compute. reflexivity.
Qed.

Lemma binarization_is_strict_witness :
  Np.float32 Toy.treshold = Toy.treshold /\
  Np.gtb (Np.Fin (Q2Qc (3 # 4))) (Np.float32 Toy.treshold) = true /\
  Np.lt Toy.treshold (Np.Fin (Q2Qc (3 # 4))).
Proof.
  assert (E : Np.float32 Toy.treshold = Toy.treshold).
  { vm_compute. f_equal. apply Qc_is_canon. reflexivity. }
  assert (H : Np.gtb (Np.Fin (Q2Qc (3 # 4))) (Np.float32 Toy.treshold)
              = true) by (vm_compute; reflexivity).
  split; [exact E|]. split; [exact H|].
  pose proof (binarization_is_strict Toy.Net Toy.Opt Toy.Samples
                Toy.net_call Toy.criterion Toy.backward_step Toy.sigmoid
                Toy.treshold)
    as (_ & _ & _ & _ & _ & _ & _ & Hiff).
  exact (proj1 (Hiff E (Np.Fin (Q2Qc (3 # 4)))) H).
Defined.

Lemma metric_report_reads_validation_only_witness :
  let tv := train_pass Toy.net_call Toy.criterion Toy.backward_step
              Toy.sigmoid [Toy.batch_a] Toy.treshold 0 tt in
  let tv' := MkTrainVars (tr_net tv) (tr_optimizer tv) (train_loss tv)
               [] [] [] in
  tr_net tv' = tr_net tv /\
  tr_optimizer tv' = tr_optimizer tv /\
  train_loss tv' = train_loss tv /\
  train_labels tv' <> train_labels tv /\
  epoch_after_train_pass Toy.net_call Toy.criterion Toy.sigmoid
    [Toy.batch_a] [Toy.batch_a] Toy.treshold (MkTrainState 0 tt [] []) tv'
  = epoch_after_train_pass Toy.net_call Toy.criterion Toy.sigmoid
      [Toy.batch_a] [Toy.batch_a] Toy.treshold (MkTrainState 0 tt [] []) tv.
Proof.
  cbn zeta.
  split; [reflexivity|]. split; [reflexivity|]. split; [reflexivity|].
  split; [discriminate|].
  destruct (metric_report_reads_validation_only Toy.Net Toy.Opt Toy.Samples
              Toy.net_call Toy.criterion Toy.backward_step Toy.sigmoid
              [Toy.batch_a] [Toy.batch_a] Toy.treshold 1 0
              (MkTrainState 0 tt [] []))
    as (_ & H & _).
  apply H; reflexivity.
Defined.

(* ================================================================== *)
(** * More on the network *)

(** X1.  [ResNet.__init__] raises IndexError exactly when [layers] has
    fewer than four entries; with four or more it returns, and the entries
    after the fourth are never read. *)
Theorem ResNet_init_reads_four_entries (layers : list nat)
    (num_classes : nat) :
  (length layers < 4 -> ResNet_init layers num_classes = raise IndexError) /\
  (4 <= length layers ->
   exists net, ResNet_init layers num_classes = ok net /\
               ResNet_init (firstn 4 layers) num_classes = ok net).
Proof.
  split; intros H.
  - destruct layers as [|n0 [|n1 [|n2 [|n3 rest]]]]; try reflexivity.
    cbn [length] in H. lia.
  - destruct layers as [|n0 [|n1 [|n2 [|n3 rest]]]];
      cbn [length] in H; try lia.
    eexists. split; reflexivity.
Qed.

Lemma ResNet_init_reads_four_entries_witness :
  length [3; 4; 6] < 4 /\
  ResNet_init [3; 4; 6] 5 = raise IndexError /\
  4 <= length [3; 4; 6; 3; 9] /\
  exists net, ResNet_init [3; 4; 6; 3; 9] 5 = ok net /\
              ResNet_init [3; 4; 6; 3] 5 = ok net.
Proof.
  assert (H1 : length [3; 4; 6] < 4) by (cbn; lia).
  assert (H2 : 4 <= length [3; 4; 6; 3; 9]) by (cbn; lia).
  split; [exact H1|].
  split; [exact (proj1 (ResNet_init_reads_four_entries [3; 4; 6] 5) H1)|].
  split; [exact H2|].
  exact (proj2 (ResNet_init_reads_four_entries [3; 4; 6; 3; 9] 5) H2).
Defined.

(** X2.  In every network that [ResNet.__init__] returns, stage k has
    max(1, layers[k]) blocks (a count of 0 still gives one block); the
    first block of each of the four stages carries a projection, with
    strides 1, 2, 2, 2 and channels 64 -> 256 -> 512 -> 1024 -> 2048; no
    other block carries one; the classifier reads 2048 features. *)
Theorem ResNet_init_stages (layers : list nat) (num_classes : nat)
    (net : ResNet) :
  ResNet_init layers num_classes = ok net ->
  map (@length Bottleneck) (stages net)
  = map (Nat.max 1) (firstn 4 layers) /\
  map (fun stage => map downsample (firstn 1 stage)) (stages net)
  = [[Some (projection 64 64 1)]; [Some (projection 256 128 2)];
     [Some (projection 512 256 2)]; [Some (projection 1024 512 2)]] /\
  Forall (fun stage => Forall (fun b => downsample b = None) (skipn 1 stage))
         (stages net) /\
  in_features (fc net) = 2048 /\ out_features (fc net) = num_classes /\
  inplanes net = 2048.
Proof.
  intros Hinit.
  destruct (ResNet_init_inv _ _ _ Hinit)
    as (n0 & n1 & n2 & n3 & rest & -> & ->).
  unfold stages. cbn [layer_1 layer_2 layer_3 layer_4 fc inplanes firstn map].
  assert (Hlen : forall i p b s,
             length (snd (_make_layer i p b s)) = Nat.max 1 b).
  { intros i p b s. unfold _make_layer. cbn [snd length].
    rewrite length_map, length_seq. lia. }
  assert (Htail : forall i p b s,
             Forall (fun b => downsample b = None)
                    (skipn 1 (snd (_make_layer i p b s)))).
  { intros i p b s. unfold _make_layer. cbn [snd skipn].
    apply Forall_forall. intros x Hx.
    apply in_map_iff in Hx as [j [<- _]]. reflexivity. }
  rewrite !Hlen. split; [reflexivity|]. split; [reflexivity|].
  split; [repeat constructor; apply Htail|].
  repeat split.
Qed.

Lemma ResNet_init_stages_witness :
  exists net,
    ResNet_init [3; 0; 6; 1] 5 = ok net /\
    map (@length Bottleneck) (stages net) = [3; 1; 6; 1].
Proof.
  destruct (ResNet_init [3; 0; 6; 1] 5) as [e|net] eqn:Hinit;
    [discriminate Hinit|].
  exists net. split; [reflexivity|].
  exact (proj1 (ResNet_init_stages [3; 0; 6; 1] 5 net Hinit)).
Defined.

(** X3.  A stage built by [_make_layer] with positive channel counts and
    stride, whatever its number of blocks, maps an input of shape
    (batch, inplanes, length) with length at least 1 to the shape
    (batch, planes * 4, ceil(length / stride)), provided that in training
    mode more than one value per channel is left. *)
Theorem stage_output_shape (training : bool)
    (self_inplanes planes blocks stride batch length : nat) :
  1 <= self_inplanes -> 1 <= planes -> 1 <= stride -> 1 <= length ->
  (training = true -> batch * ceil_div length stride <> 1) ->
  Sequential_forward training
    (snd (_make_layer self_inplanes planes blocks stride))
    (Shape3 batch self_inplanes length)
  = ok (Shape3 batch (planes * 4) (ceil_div length stride)).
Proof. intros _ Hp Hs Hl Hbn. now apply stage_forward_shape. Qed.

Lemma stage_output_shape_witness :
  1 <= 256 /\ 1 <= 128 /\ 1 <= 2 /\ 1 <= 250 /\
  Sequential_forward false (snd (_make_layer 256 128 4 2))
    (Shape3 4 256 250)
  = ok (Shape3 4 512 125).
Proof.
  assert (H0 : 1 <= 256) by lia. assert (H1 : 1 <= 128) by lia.
  assert (H2 : 1 <= 2) by lia. assert (H3 : 1 <= 250) by lia.
  split; [exact H0|]. split; [exact H1|]. split; [exact H2|].
  split; [exact H3|].
  exact (stage_output_shape false 256 128 4 2 4 250 H0 H1 H2 H3
           (fun H => False_ind _ (Bool.diff_false_true H))).
Defined.

(** X4.  A block built without projection although it needs one raises
    RuntimeError at the addition of the skip path: when its input channel
    count is neither planes * 4 nor 1, or when its stride is at least 2
    and smaller than the length of the input. *)
Theorem Bottleneck_needs_projection (training : bool)
    (inplanes planes stride batch length : nat) :
  1 <= stride -> 1 <= length ->
  (training = true -> batch * ceil_div length stride <> 1) ->
  (inplanes <> planes * 4 /\ inplanes <> 1) \/ (2 <= stride < length) ->
  Bottleneck_forward training (Bottleneck_init inplanes planes stride None)
    (Shape3 batch inplanes length)
  = raise RuntimeError.
Proof.
  intros Hs Hl Hbn Hmis.
  destruct (Nat.eq_dec planes 0) as [->|Hp]; [reflexivity|].
  assert (Hbn0 : training = true -> batch * length <> 1).
  { intros Ht E. apply single_value_iff in E as [-> ->].
    apply (Hbn Ht). apply single_value_iff. split; [reflexivity|].
    pose proof (ceil_div_pos 1 stride) as P.
    pose proof (ceil_div_le 1 stride Hs) as Q. lia. }
  unfold Bottleneck_forward, Bottleneck_init.
  cbn [conv_1 batch_norm_1 conv_2 batch_norm_2 conv_3 batch_norm_3
       downsample].
  assert (Hpe : 1 <= planes * expansion) by (apply expansion_pos; lia).
  rewrite Conv1d_forward_shape by lia. cbn [rbind ok]; unfold relu.
  rewrite ceil_div_pointwise, ceil_div_1 by lia.
  rewrite BatchNorm1d_forward_shape by assumption.
  cbn [rbind ok]; unfold relu.
  rewrite Conv1d_forward_shape by lia. cbn [rbind ok]; unfold relu.
  rewrite ceil_div_strided by lia.
  rewrite BatchNorm1d_forward_shape by assumption.
  cbn [rbind ok]; unfold relu.
  pose proof (ceil_div_pos length stride Hl Hs) as Hpos.
  rewrite Conv1d_forward_shape by lia. cbn [rbind ok]; unfold relu.
  rewrite ceil_div_pointwise, ceil_div_1 by lia.
  rewrite BatchNorm1d_forward_shape by assumption.
  cbn [rbind ok]; unfold relu.
  unfold tensor_add, broadcast_dim. cbn [sz_batch sz_channels sz_length].
  rewrite Nat.eqb_refl. cbn [rbind ok]. change expansion with 4.
  destruct (Nat.eqb_spec (planes * 4) inplanes) as [Ec|Nc].
  - destruct Hmis as [[Hc _]|Hlen]; [congruence|]. cbn [rbind ok].
    assert (Hlt : ceil_div length stride < length).
    { unfold ceil_div. apply Nat.Div0.div_lt_upper_bound. nia. }
    assert (Hgt : 2 <= ceil_div length stride).
    { unfold ceil_div. apply Nat.div_le_lower_bound; lia. }
    destruct (Nat.eqb_spec (ceil_div length stride) length); [lia|].
    destruct (Nat.eqb_spec (ceil_div length stride) 1); [lia|].
    destruct (Nat.eqb_spec length 1); [lia | reflexivity].
  - destruct (Nat.eqb_spec (planes * 4) 1); [lia|].
    destruct (Nat.eqb_spec inplanes 1) as [E1|N1]; [|reflexivity].
    destruct Hmis as [[_ Hc]|Hlen]; [contradiction|]. cbn [rbind ok].
    assert (Hlt : ceil_div length stride < length).
    { unfold ceil_div. apply Nat.Div0.div_lt_upper_bound. nia. }
    assert (Hgt : 2 <= ceil_div length stride).
    { unfold ceil_div. apply Nat.div_le_lower_bound; lia. }
    destruct (Nat.eqb_spec (ceil_div length stride) length); [lia|].
    destruct (Nat.eqb_spec (ceil_div length stride) 1); [lia|].
    destruct (Nat.eqb_spec length 1); [lia | reflexivity].
Qed.

Lemma Bottleneck_needs_projection_witness :
  1 <= 1 /\ 1 <= 250 /\ (64 <> 64 * 4 /\ 64 <> 1) /\
  Bottleneck_forward false (Bottleneck_init 64 64 1 None) (Shape3 4 64 250)
  = raise RuntimeError.
Proof.
  assert (H1 : 1 <= 1) by lia. assert (H2 : 1 <= 250) by lia.
  assert (H3 : 64 <> 64 * 4 /\ 64 <> 1) by (split; discriminate).
  split; [exact H1|]. split; [exact H2|]. split; [exact H3|].
  exact (Bottleneck_needs_projection false 64 64 1 4 250 H1 H2
           (fun H => False_ind _ (Bool.diff_false_true H)) (or_introl H3)).
Defined.

Lemma ceil_div_alt (a s : nat) :
  1 <= a -> 1 <= s -> ceil_div a s = (a - 1) / s + 1.
Proof.
  intros Ha Hs. rewrite <- ceil_div_pointwise by assumption.
  f_equal. f_equal. lia.
Qed.

Lemma ceil_div_0 (s : nat) : 1 <= s -> ceil_div 0 s = 0.
Proof. intros Hs. unfold ceil_div. apply Nat.div_small. lia. Qed.

(** Rounding up twice is rounding up once. *)
Lemma ceil_div_ceil_div (a m n : nat) :
  1 <= m -> 1 <= n -> ceil_div (ceil_div a m) n = ceil_div a (m * n).
Proof.
  intros Hm Hn. destruct (Nat.eq_dec a 0) as [->|Ha].
  - rewrite (ceil_div_0 m), !ceil_div_0 by nia. reflexivity.
  - rewrite (ceil_div_alt a m), (ceil_div_alt a (m * n)) by nia.
    rewrite ceil_div_alt by lia.
    replace ((a - 1) / m + 1 - 1) with ((a - 1) / m) by lia.
    now rewrite Nat.Div0.div_div.
Qed.

Lemma ResNet_features_shape (training : bool) (layers : list nat)
    (num_classes : nat) (net : ResNet) (batch length : nat) :
  ResNet_init layers num_classes = ok net ->
  survives training batch length ->
  ResNet_features training net (Shape3 batch 12 length)
  = ok (Shape3 batch 2048 (ceil_div length 32)).
Proof.
  intros Hinit [Hl Hbn].
  destruct (ResNet_init_inv _ _ _ Hinit) as (n0 & n1 & n2 & n3 & rest & _ & ->).
  replace (ceil_div length 32)
    with (ceil_div (ceil_div (ceil_div (ceil_div (ceil_div length 2) 2) 2) 2)
            2)
    by (rewrite !ceil_div_ceil_div by lia; reflexivity).
  pose proof (ceil_div_2_lower length) as B1.
  pose proof (ceil_div_2_lower (ceil_div length 2)) as B2.
  pose proof (ceil_div_2_lower (ceil_div (ceil_div length 2) 2)) as B3.
  pose proof (ceil_div_2_lower
                (ceil_div (ceil_div (ceil_div length 2) 2) 2)) as B4.
  pose proof (ceil_div_2_lower
                (ceil_div (ceil_div (ceil_div (ceil_div length 2) 2) 2) 2))
    as B5.
  set (l1 := ceil_div length 2) in *.
  set (l2 := ceil_div l1 2) in *.
  set (l3 := ceil_div l2 2) in *.
  set (l4 := ceil_div l3 2) in *.
  set (l5 := ceil_div l4 2) in *.
  assert (Hsingle : forall l, 1 <= l -> (33 <= length -> 2 <= l) ->
                              training = true -> batch * l <> 1).
  { intros l H1 H2 Ht E. apply single_value_iff in E as [Eb El].
    specialize (Hbn Ht Eb). lia. }
  unfold ResNet_features.
  cbn [stem_conv_1 stem_batch_norm_1 maxpool_1 layer_1 layer_2 layer_3
       layer_4].
  rewrite Conv1d_forward_shape by lia. cbn [rbind ok]; unfold relu.
  rewrite ceil_div_stem by lia. fold l1.
  rewrite BatchNorm1d_forward_shape by (apply Hsingle; lia).
  cbn [rbind ok]; unfold relu. unfold MaxPool1d_forward.
  cbn [pool_stride pool_padding pool_kernel sz_length sz_batch sz_channels
       Nat.eqb].
  destruct (Nat.ltb_spec (l1 + 2 * 1) 3) as [H|_]; [lia|].
  cbn [rbind ok]. rewrite ceil_div_strided by lia. fold l2.
  rewrite (stage_forward_shape training 64 64 n0 1)
    by (rewrite ?ceil_div_1; try apply Hsingle; lia).
  cbn [rbind ok]. rewrite ceil_div_1.
  rewrite (stage_forward_shape training (64 * expansion) 128 n1 2)
    by (try apply Hsingle; fold l3; lia).
  cbn [rbind ok]. fold l3.
  rewrite (stage_forward_shape training (128 * expansion) 256 n2 2)
    by (try apply Hsingle; fold l4; lia).
  cbn [rbind ok]. fold l4.
  rewrite (stage_forward_shape training (256 * expansion) 512 n3 2)
    by (try apply Hsingle; fold l5; lia).
  reflexivity.
Qed.

(** X5.  [ResNet.forward] is its stem and stages followed by its head
    (average pool, flatten, classifier); on a surviving input the features
    that reach the average pool have shape (batch, 2048,
    ceil(length / 32)): the stem and the stages divide the length by 32 in
    all, rounding up. *)
Theorem ResNet_features_total_stride (training : bool) (layers : list nat)
    (num_classes : nat) (net : ResNet) (batch length : nat) :
  ResNet_init layers num_classes = ok net ->
  survives training batch length ->
  ResNet_features training net (Shape3 batch 12 length)
  = ok (Shape3 batch 2048 (ceil_div length 32)) /\
  forall x,
    ResNet_forward training net x
    = rbind (ResNet_features training net x) (ResNet_head net).
Proof.
  intros Hinit Hs. split.
  - now apply ResNet_features_shape with (layers := layers)
                                        (num_classes := num_classes).
  - intros x. unfold ResNet_forward, ResNet_features, ResNet_head.
    destruct (Conv1d_forward (stem_conv_1 net) x) as [e|o1]; [reflexivity|].
    cbn [rbind].
    destruct (BatchNorm1d_forward training (stem_batch_norm_1 net) o1)
      as [e|o2]; [reflexivity|]. cbn [rbind].
    destruct (MaxPool1d_forward (maxpool_1 net) (relu o2)) as [e|o3];
      [reflexivity|]. cbn [rbind].
    destruct (Sequential_forward training (layer_1 net) o3) as [e|o4];
      [reflexivity|]. cbn [rbind].
    destruct (Sequential_forward training (layer_2 net) o4) as [e|o5];
      [reflexivity|]. cbn [rbind].
    destruct (Sequential_forward training (layer_3 net) o5) as [e|o6];
      [reflexivity|]. cbn [rbind].
    destruct (Sequential_forward training (layer_4 net) o6) as [e|o7];
      reflexivity.
Qed.

Lemma ResNet_features_total_stride_witness :
  exists net,
    ResNet_init [3; 4; 6; 3] 5 = ok net /\
    survives true 4 1000 /\
    ResNet_features true net (Shape3 4 12 1000) = ok (Shape3 4 2048 32).
Proof.
  destruct (ResNet_init [3; 4; 6; 3] 5) as [e|net] eqn:Hinit;
    [discriminate Hinit|].
  exists net.
  assert (Hs : survives true 4 1000) by (split; [lia | intros _ H; lia]).
  split; [reflexivity|]. split; [exact Hs|].
  exact (proj1 (ResNet_features_total_stride true [3; 4; 6; 3] 5 net 4 1000
                  Hinit Hs)).
Defined.

(** X6.  What [ResNet.forward] refuses, and how: an input whose channel
    count is not 12 and an input with an empty length axis raise
    RuntimeError in the first convolution; in training mode a batch of one
    sample of length 1 to 32 raises ValueError in a normalisation layer. *)
Theorem ResNet_forward_refuses (training : bool) (layers : list nat)
    (num_classes : nat) (net : ResNet) (batch channels length : nat) :
  ResNet_init layers num_classes = ok net ->
  (channels <> 12 ->
   ResNet_forward training net (Shape3 batch channels length)
   = raise RuntimeError) /\
  ResNet_forward training net (Shape3 batch 12 0) = raise RuntimeError /\
  (1 <= length <= 32 ->
   ResNet_forward true net (Shape3 1 12 length) = raise ValueError).
Proof.
  intros Hinit.
  destruct (ResNet_init_inv _ _ _ Hinit) as (n0 & n1 & n2 & n3 & rest & _ & ->).
  split; [|split].
  - intros Hc. unfold ResNet_forward, Conv1d_forward.
    cbn [stem_conv_1 sz_channels in_channels].
    destruct (Nat.eqb_spec channels 12) as [E|_]; [contradiction|].
    reflexivity.
  - reflexivity.
  - intros [Hl Hle]. unfold ResNet_forward.
    cbn [stem_conv_1 stem_batch_norm_1 maxpool_1 layer_1 layer_2 layer_3
         layer_4 fc].
    pose proof (ceil_div_2_lower length) as B1.
    set (l1 := ceil_div length 2) in *.
    pose proof (ceil_div_2_lower l1) as B2.
    set (l2 := ceil_div l1 2) in *.
    pose proof (ceil_div_2_lower l2) as B3.
    set (l3 := ceil_div l2 2) in *.
    pose proof (ceil_div_2_lower l3) as B4.
    set (l4 := ceil_div l3 2) in *.
    pose proof (ceil_div_2_lower l4) as B5.
    set (l5 := ceil_div l4 2) in *.
    assert (P1 : 1 <= l1) by (apply ceil_div_pos; lia).
    assert (P2 : 1 <= l2) by (apply ceil_div_pos; lia).
    assert (P3 : 1 <= l3) by (apply ceil_div_pos; lia).
    assert (P4 : 1 <= l4) by (apply ceil_div_pos; lia).
    assert (P5 : 1 <= l5) by (apply ceil_div_pos; lia).
    assert (Q1 : l1 <= 16) by (apply ceil_div_2_upper; lia).
    assert (Q2 : l2 <= 8) by (apply ceil_div_2_upper; lia).
    assert (Q3 : l3 <= 4) by (apply ceil_div_2_upper; lia).
    assert (Q4 : l4 <= 2) by (apply ceil_div_2_upper; lia).
    assert (Q5 : l5 <= 1) by (apply ceil_div_2_upper; lia).
    rewrite Conv1d_forward_shape by lia. cbn [rbind ok]; unfold relu.
    rewrite ceil_div_stem by lia. fold l1.
    destruct (Nat.eq_dec l1 1) as [E1|N1]; [rewrite E1; reflexivity|].
    rewrite BatchNorm1d_forward_shape by (intros _; lia).
    cbn [rbind ok]; unfold relu. unfold MaxPool1d_forward.
    cbn [pool_stride pool_padding pool_kernel sz_length sz_batch sz_channels
         Nat.eqb].
    destruct (Nat.ltb_spec (l1 + 2 * 1) 3) as [H|_]; [lia|].
    cbn [rbind ok]. rewrite ceil_div_strided by lia. fold l2.
    destruct (Nat.eq_dec l2 1) as [E2|N2].
    { rewrite stage_forward_single_value by (rewrite ?ceil_div_1; lia).
      reflexivity. }
    rewrite (stage_forward_shape true 64 64 n0 1)
      by (rewrite ?ceil_div_1; try (intros _); lia).
    cbn [rbind ok]. rewrite ceil_div_1.
    destruct (Nat.eq_dec l3 1) as [E3|N3].
    { rewrite stage_forward_single_value by (fold l3; lia). reflexivity. }
    rewrite (stage_forward_shape true (64 * expansion) 128 n1 2)
      by (try (intros _); fold l3; lia).
    cbn [rbind ok]. fold l3.
    destruct (Nat.eq_dec l4 1) as [E4|N4].
    { rewrite stage_forward_single_value by (fold l4; lia). reflexivity. }
    rewrite (stage_forward_shape true (128 * expansion) 256 n2 2)
      by (try (intros _); fold l4; lia).
    cbn [rbind ok]. fold l4.
    rewrite stage_forward_single_value by (fold l5; lia). reflexivity.
Qed.

Lemma ResNet_forward_refuses_witness :
  exists net,
    ResNet_init [3; 4; 6; 3] 5 = ok net /\
    1 <= 32 <= 32 /\
    ResNet_forward true net (Shape3 1 12 32) = raise ValueError /\
    ResNet_forward true net (Shape3 4 11 1000) = raise RuntimeError.
Proof.
  destruct (ResNet_init [3; 4; 6; 3] 5) as [e|net] eqn:Hinit;
    [discriminate Hinit|].
  exists net.
  assert (H : 1 <= 32 <= 32) by lia.
  assert (Hc : 11 <> 12) by discriminate.
  split; [reflexivity|]. split; [exact H|].
  split.
  - exact (proj2 (proj2 (ResNet_forward_refuses true [3; 4; 6; 3] 5 net
                           1 12 32 Hinit)) H).
  - exact (proj1 (ResNet_forward_refuses true [3; 4; 6; 3] 5 net
                    4 11 1000 Hinit) Hc).
Defined.

(* ================================================================== *)
(** * More on the metric reporter *)

Lemma count_pairs_total (y_true y_pred : list bool) :
  length y_true = length y_pred ->
  Sk.count_pairs true true y_true y_pred
  + Sk.count_pairs false true y_true y_pred
  + Sk.count_pairs false false y_true y_pred
  + Sk.count_pairs true false y_true y_pred
  = length y_true.
Proof.
  revert y_pred. induction y_true as [|a y IH]; intros [|b y_pred] H;
    try reflexivity; try discriminate H.
  injection H as H. rewrite !count_pairs_cons. cbn [length].
  rewrite <- (IH y_pred H). destruct a, b; cbn; lia.
Qed.

Lemma label_body_counts_add_up (bin_labels bin_preds : Np.ndarray bool)
    (preds : Np.ndarray Np.float) (acc : metric_lists) (i : nat) :
  Forall (counts_add_up (Np.shape0 bin_labels))
         (printed (label_body bin_labels bin_preds preds acc i)).
Proof.
  unfold label_body, Np.column.
  destruct (i <? Np.shape1 bin_labels); [|constructor].
  rewrite bind_lift_ok.
  destruct (i <? Np.shape1 bin_preds); [|constructor].
  rewrite bind_lift_ok. unfold Sk.confusion_matrix.
  destruct (Nat.eqb_spec (length (Np.col false bin_labels i))
              (length (Np.col false bin_preds i))) as [E|_];
    cbn [negb]; [|constructor].
  destruct (length (Np.col false bin_labels i) =? 0); [constructor|].
  rewrite bind_lift_ok, !bind_print. cbn [fst snd]. unfold printed.
  cbn [fst].
  constructor; [exact I|]. constructor.
  { cbn [counts_add_up]. rewrite count_pairs_total by assumption.
    apply length_col. }
  rewrite bind_lift_ok.
  destruct (i <? Np.shape1 preds); [|constructor].
  rewrite bind_lift_ok.
  destruct (Sk.roc_auc_score (Np.col false bin_labels i)
              (Np.col Np.NaN preds i)) as [e|r]; constructor.
Qed.

(** X7.  Whatever its input and whether or not it later raises, every
    line of confusion counts that [metric_func] prints partitions the
    samples: TP + FP + TN + FN is the number of rows of [bin_labels]. *)
Theorem printed_counts_add_up (bin_labels bin_preds : Np.ndarray bool)
    (preds : Np.ndarray Np.float) :
  Forall (counts_add_up (Np.shape0 bin_labels))
         (printed (metric_func bin_labels bin_preds preds)).
Proof.
  unfold metric_func.
  pose proof (for_each_printed (counts_add_up (Np.shape0 bin_labels))
                (label_body bin_labels bin_preds preds)
                (seq 0 (Np.shape1 bin_labels)) empty_lists
                (label_body_counts_add_up bin_labels bin_preds preds))
    as Hloop.
  destruct (for_each (label_body bin_labels bin_preds preds)
              (seq 0 (Np.shape1 bin_labels)) empty_lists) as [o [e|acc]].
  - exact Hloop.
  - rewrite bind_ok, !bind_print. unfold printed in *. cbn [fst snd] in *.
    apply Forall_app. split; [exact Hloop|].
    repeat (constructor; [exact I|]).
    destruct (Sk.classification_report bin_labels bin_preds) as [e|[]];
      cbn; repeat constructor.
Qed.

(** With probabilities that have as many rows as the labels, the inputs
    of [runs_to_end] are the only ones on which every label passes through
    the body of the loop and the classification report accepts the
    arrays. *)
Lemma labels_runs_to_end (bin_labels bin_preds : Np.ndarray bool)
    (preds : Np.ndarray Np.float) :
  Np.shape0 preds = Np.shape0 bin_labels ->
  Sk.classification_report bin_labels bin_preds = ok tt ->
  (forall i, i < Np.shape1 bin_labels ->
             label_ok bin_labels bin_preds preds i = true) ->
  runs_to_end bin_labels bin_preds preds = true.
Proof.
  unfold runs_to_end, Sk.classification_report, label_ok.
  intros Hrows Hrep Hall.
  destruct ((1 <=? Np.shape1 bin_labels)
            && (Np.shape1 bin_labels =? Np.shape1 bin_preds)
            && (Np.shape0 bin_labels =? Np.shape0 bin_preds)) eqn:E;
    [|discriminate Hrep].
  apply andb_prop in E as [E R3]. apply andb_prop in E as [R1 R2].
  apply Nat.eqb_eq in R2, R3.
  assert (Hlast : Np.shape1 bin_labels - 1 < Np.shape1 bin_labels)
    by (apply Nat.leb_le in R1; lia).
  pose proof (Hall _ Hlast) as L.
  apply andb_prop in L as [L _]. apply andb_prop in L as [L _].
  apply andb_prop in L as [L _]. apply andb_prop in L as [L L5].
  apply andb_prop in L as [_ L4].
  apply Nat.ltb_lt in L5.
  assert (E3 : (Np.shape1 bin_labels <=? Np.shape1 preds) = true)
    by (apply Nat.leb_le; lia).
  rewrite R1, <- R2, <- R3, E3, L4, Hrows, !Nat.eqb_refl. cbn [andb].
  apply forallb_forall. intros i Hi. apply in_seq in Hi.
  assert (Hi' : i < Np.shape1 bin_labels) by lia.
  pose proof (Hall i Hi') as L.
  apply andb_prop in L as [L _]. now apply andb_prop in L as [_ L7].
Qed.

(** X8.  [metric_func] runs to its end on the inputs of [runs_to_end]:
    labels and predictions of one shape with at least one row and one
    column, probabilities with as many rows and no fewer columns, finite
    in every column read; a label column with a single class does not
    stop it.  Among the inputs whose probabilities have as many rows as
    the labels these are the only ones: on any other it raises. *)
Theorem metric_func_returns_when (bin_labels bin_preds : Np.ndarray bool)
    (preds : Np.ndarray Np.float) :
  (runs_to_end bin_labels bin_preds preds = true ->
   outcome (metric_func bin_labels bin_preds preds) = ok tt) /\
  (Np.shape0 preds = Np.shape0 bin_labels ->
   outcome (metric_func bin_labels bin_preds preds) = ok tt ->
   runs_to_end bin_labels bin_preds preds = true) /\
  (Np.shape0 preds = Np.shape0 bin_labels ->
   runs_to_end bin_labels bin_preds preds = false ->
   exists e, outcome (metric_func bin_labels bin_preds preds) = raise e).
Proof.
  assert (Hnec : Np.shape0 preds = Np.shape0 bin_labels ->
                 outcome (metric_func bin_labels bin_preds preds) = ok tt ->
                 runs_to_end bin_labels bin_preds preds = true).
  { intros Hrows H. unfold metric_func in H.
    pose proof (label_loop_ok_inv bin_labels bin_preds preds) as Hinv.
    cbn zeta in Hinv.
    destruct (for_each (label_body bin_labels bin_preds preds)
                (seq 0 (Np.shape1 bin_labels)) empty_lists)
      as [o [e|acc]]; [discriminate H|].
    destruct (Hinv acc eq_refl) as [_ Hok].
    apply labels_runs_to_end; [exact Hrows | | exact Hok].
    rewrite bind_ok, !bind_print in H. unfold outcome in H.
    cbn [fst snd] in H.
    destruct (Sk.classification_report bin_labels bin_preds) as [e|[]];
      [discriminate H | reflexivity]. }
  split; [|split; [exact Hnec|]].
  - intros H. apply runs_to_end_labels in H as [Hrep Hall].
    pose proof (metric_func_runs bin_labels bin_preds preds Hall Hrep) as E.
    cbn zeta in E. now rewrite E.
  - intros Hrows Hf.
    assert (Hne : outcome (metric_func bin_labels bin_preds preds) <> ok tt)
      by (intros E; apply (Hnec Hrows) in E; congruence).
    destruct (outcome (metric_func bin_labels bin_preds preds)) as [e|[]].
    + exists e. reflexivity.
    + exfalso. now apply Hne.
Qed.

Lemma metric_func_returns_when_witness :
  let bin_labels := Np.MkArray 1 [[true]; [true]] in
  let bin_preds := Np.MkArray 1 [[false]; [true]] in
  let preds := Np.MkArray 2 [[Np.zero; Np.NaN]; [Np.one; Np.NaN]] in
  runs_to_end bin_labels bin_preds preds = true /\
  outcome (metric_func bin_labels bin_preds preds) = ok tt.
Proof.
  cbn zeta.
  assert (H : runs_to_end (Np.MkArray 1 [[true]; [true]])
                (Np.MkArray 1 [[false]; [true]])
                (Np.MkArray 2 [[Np.zero; Np.NaN]; [Np.one; Np.NaN]]) = true)
    by reflexivity.
  split; [exact H|].
  exact (proj1 (metric_func_returns_when
                  (Np.MkArray 1 [[true]; [true]])
                  (Np.MkArray 1 [[false]; [true]])
                  (Np.MkArray 2 [[Np.zero; Np.NaN]; [Np.one; Np.NaN]])) H).
Defined.

(** X9.  The averaged figures are all or nothing: as soon as one label
    does not pass through the body of the loop (a column is missing or
    empty, the columns have different lengths, a probability is not
    finite), [metric_func] raises having printed nothing but lines of
    counts -- no micro, macro, weighted or ROC-AUC figure, whatever the
    other labels are. *)
Theorem metric_func_no_partial_average (bin_labels bin_preds : Np.ndarray bool)
    (preds : Np.ndarray Np.float) (i : nat) :
  i < Np.shape1 bin_labels ->
  label_ok bin_labels bin_preds preds i = false ->
  Forall counts_line (printed (metric_func bin_labels bin_preds preds)) /\
  exists e, outcome (metric_func bin_labels bin_preds preds) = raise e.
Proof.
  intros Hi Hfail. unfold metric_func.
  pose proof (for_each_printed counts_line
                (label_body bin_labels bin_preds preds)
                (seq 0 (Np.shape1 bin_labels)) empty_lists
                (label_body_printed bin_labels bin_preds preds)) as Hloop.
  destruct (for_each_raises (label_body bin_labels bin_preds preds)
              (seq 0 (Np.shape1 bin_labels)) empty_lists i) as [e He].
  - apply in_seq. lia.
  - intros acc.
    destruct (label_body_run bin_labels bin_preds preds acc i)
      as [[Hok _]|[_ He]]; [congruence | exact He].
  - destruct (for_each (label_body bin_labels bin_preds preds)
                (seq 0 (Np.shape1 bin_labels)) empty_lists) as [o [x|acc]].
    + split; [exact Hloop|]. exists x. reflexivity.
    + discriminate He.
Qed.

Lemma metric_func_no_partial_average_witness :
  let bin_labels := Np.MkArray 2 [[true; false]; [false; true]] in
  let bin_preds := Np.MkArray 1 [[true]; [false]] in
  let preds := Np.MkArray 2 [[Np.one; Np.zero]; [Np.zero; Np.one]] in
  1 < Np.shape1 bin_labels /\
  label_ok bin_labels bin_preds preds 1 = false /\
  Forall counts_line (printed (metric_func bin_labels bin_preds preds)) /\
  outcome (metric_func bin_labels bin_preds preds) = raise IndexError.
Proof.
  cbn zeta.
  assert (H1 : 1 < Np.shape1 (Np.MkArray 2 [[true; false]; [false; true]]))
    by (cbn; lia).
  split; [exact H1|]. split; [reflexivity|].
  split; [|reflexivity].
  exact (proj1 (metric_func_no_partial_average
                  (Np.MkArray 2 [[true; false]; [false; true]])
                  (Np.MkArray 1 [[true]; [false]])
                  (Np.MkArray 2 [[Np.one; Np.zero]; [Np.zero; Np.one]])
                  1 H1 eq_refl)).
Defined.

Section Rates.

Local Open Scope Qc_scope.

Lemma Qc_of_nat_le (a b : nat) :
  (a <= b)%nat -> Np.Qc_of_nat a <= Np.Qc_of_nat b.
Proof.
  intros H. unfold Np.Qc_of_nat, Qcle. cbn [this Q2Qc].
  rewrite !Qred_correct, <- Zle_Qle. lia.
Qed.

Lemma Qc_of_nat_positive (n : nat) : (0 < n)%nat -> 0 < Np.Qc_of_nat n.
Proof.
  intros H. unfold Np.Qc_of_nat, Qclt. cbn [this Q2Qc].
  rewrite !Qred_correct. unfold Qlt. cbn. lia.
Qed.

Lemma rate_bounds (a b : nat) :
  (a + b)%nat <> 0%nat ->
  exists q, Np.true_divide a (a + b) = Np.Fin q /\ 0 <= q /\ q <= 1.
Proof.
  intros H. exists (Np.Qc_of_nat a / Np.Qc_of_nat (a + b)).
  split; [now apply true_divide_fin|].
  assert (Hpos : 0 < Np.Qc_of_nat (a + b)) by (apply Qc_of_nat_positive; lia).
  assert (Hne : Np.Qc_of_nat (a + b) <> 0) by now rewrite Qc_of_nat_zero_iff.
  assert (E : Np.Qc_of_nat a / Np.Qc_of_nat (a + b) * Np.Qc_of_nat (a + b)
              = Np.Qc_of_nat a) by now field.
  split.
  - apply Qcmult_lt_0_le_reg_r with (z := Np.Qc_of_nat (a + b));
      [assumption|].
    rewrite E, Qcmult_0_l. change 0 with (Np.Qc_of_nat 0).
    apply Qc_of_nat_le. lia.
  - apply Qcmult_lt_0_le_reg_r with (z := Np.Qc_of_nat (a + b));
      [assumption|].
    rewrite E, Qcmult_1_l. apply Qc_of_nat_le. lia.
Qed.

End Rates.

(** X10.  The three per-label rates are proportions: from confusion
    counts with a non-zero denominator, sensitivity, specificity and
    precision are finite and lie between 0 and 1. *)
Theorem rates_are_proportions (TP_i FP_i TN_i FN_i : nat) :
  TP_i + FN_i <> 0 -> TN_i + FP_i <> 0 -> TP_i + FP_i <> 0 ->
  exists s sp p,
    sensitivity_of TP_i FN_i = Np.Fin s /\
    specificity_of TN_i FP_i = Np.Fin sp /\
    precision_of TP_i FP_i = Np.Fin p /\
    (0 <= s <= 1)%Qc /\ (0 <= sp <= 1)%Qc /\ (0 <= p <= 1)%Qc.
Proof.
  intros H1 H2 H3.
  destruct (rate_bounds TP_i FN_i H1) as (s & Es & Hs).
  destruct (rate_bounds TN_i FP_i H2) as (sp & Esp & Hsp).
  destruct (rate_bounds TP_i FP_i H3) as (p & Ep & Hp).
  exists s, sp, p. repeat split; try assumption; tauto.
Qed.

Lemma rates_are_proportions_witness :
  3 + 1 <> 0 /\ 5 + 2 <> 0 /\ 3 + 2 <> 0 /\
  exists s, sensitivity_of 3 1 = Np.Fin s /\ (0 <= s <= 1)%Qc.
Proof.
  assert (H1 : 3 + 1 <> 0) by discriminate.
  assert (H2 : 5 + 2 <> 0) by discriminate.
  assert (H3 : 3 + 2 <> 0) by discriminate.
  split; [exact H1|]. split; [exact H2|]. split; [exact H3|].
  destruct (rates_are_proportions 3 2 5 1 H1 H2 H3)
    as (s & sp & p & Es & _ & _ & Hs & _).
  exists s. split; assumption.
Defined.

Lemma f1_without_true_positive (FN_i FP_i : nat) :
  f1_of (sensitivity_of 0 FN_i) (precision_of 0 FP_i) = Np.NaN.
Proof.
  unfold sensitivity_of, precision_of. cbn [Nat.add].
  destruct FN_i as [|n]; [reflexivity|].
  rewrite (true_divide_0_pos (S n)) by discriminate.
  destruct FP_i as [|m]; [reflexivity|].
  rewrite (true_divide_0_pos (S m)) by discriminate.
  unfold f1_of, Np.two, Np.zero. cbn [Np.mul Np.add]. unfold Np.div.
  rewrite Qcplus_0_l, Qcmult_0_r, !Qc_eqb_refl. reflexivity.
Qed.



(* ================================================================== *)
(** * More on the loops *)

Lemma forallb_of_map {A B} (g : A -> B) (p : B -> bool) (l : list A) :
  forallb p (map g l) = forallb (fun a => p (g a)) l.
Proof.
  induction l as [|a l IH]; [reflexivity|].
  cbn [map forallb]. now rewrite IH.
Qed.

Section Outcomes.

Context {A B : Type}.

Lemma concatenate_map_array (f : A -> B) (arrays : list (Np.ndarray A)) :
  Np.concatenate (map (Np.map_array f) arrays)
  = rbind (Np.concatenate arrays) (fun a => ok (Np.map_array f a)).
Proof.
  destruct arrays as [|a rest]; [reflexivity|].
  cbn [map Np.concatenate]. rewrite forallb_of_map.
  cbn [Np.map_array Np.shape1].
  destruct (forallb (fun b => Np.shape1 b =? Np.shape1 a) rest);
    [|reflexivity].
  cbn [rbind ok]. unfold Np.map_array. cbn [Np.shape1 Np.rows].
  f_equal. f_equal. rewrite concat_map, !map_map. cbn [map].
  f_equal. f_equal. now rewrite map_map.
Qed.

End Outcomes.

Lemma for_each_same_exn {S S' J} (body : S -> J -> M S)
    (body' : S' -> J -> M S') (l : list J) :
  (forall s s' i, same_exn (outcome (body s i)) (outcome (body' s' i))) ->
  forall s s',
    same_exn (outcome (for_each body l s)) (outcome (for_each body' l s')).
Proof.
  intros Hbody. induction l as [|i l IH]; intros s s'; [exact I|].
  cbn [for_each]. rewrite !outcome_bind.
  specialize (Hbody s s' i).
  destruct (outcome (body s i)) as [e|s1],
           (outcome (body' s' i)) as [e'|s1']; cbn in Hbody |- *;
    try contradiction; [exact Hbody | apply IH].
Qed.

(** Whether and how the body of the loop over the labels raises depends
    on the binary predictions through their shape only. *)
Lemma label_body_same_exn (bin_labels bin_preds bin_preds' : Np.ndarray bool)
    (preds : Np.ndarray Np.float) (acc acc' : metric_lists) (i : nat) :
  Np.shape1 bin_preds = Np.shape1 bin_preds' ->
  Np.shape0 bin_preds = Np.shape0 bin_preds' ->
  same_exn (outcome (label_body bin_labels bin_preds preds acc i))
           (outcome (label_body bin_labels bin_preds' preds acc' i)).
Proof.
  intros H1 H0. unfold label_body, Np.column. rewrite <- H1.
  destruct (i <? Np.shape1 bin_labels); cbn [andb]; [|reflexivity].
  rewrite ?bind_lift_ok.
  destruct (i <? Np.shape1 bin_preds); cbn [andb]; [|reflexivity].
  rewrite ?bind_lift_ok. unfold Sk.confusion_matrix.
  rewrite !length_col, <- H0.
  destruct (Np.shape0 bin_labels =? Np.shape0 bin_preds); cbn [negb];
    [|reflexivity].
  destruct (Np.shape0 bin_labels =? 0); [reflexivity|].
  rewrite ?bind_lift_ok, !bind_print. unfold outcome. cbn [fst snd].
  rewrite ?bind_lift_ok.
  destruct (i <? Np.shape1 preds); cbn [andb]; [|reflexivity].
  rewrite ?bind_lift_ok.
  destruct (Sk.roc_auc_score (Np.col false bin_labels i)
              (Np.col Np.NaN preds i)) as [e|r]; reflexivity.
Qed.

Lemma metric_func_outcome_shape
    (bin_labels bin_preds bin_preds' : Np.ndarray bool)
    (preds : Np.ndarray Np.float) :
  Np.shape1 bin_preds = Np.shape1 bin_preds' ->
  Np.shape0 bin_preds = Np.shape0 bin_preds' ->
  outcome (metric_func bin_labels bin_preds preds)
  = outcome (metric_func bin_labels bin_preds' preds).
Proof.
  intros H1 H0. unfold metric_func. rewrite !outcome_bind.
  pose proof (for_each_same_exn
                (label_body bin_labels bin_preds preds)
                (label_body bin_labels bin_preds' preds)
                (seq 0 (Np.shape1 bin_labels))
                (fun s s' i => label_body_same_exn bin_labels bin_preds
                                 bin_preds' preds s s' i H1 H0)
                empty_lists empty_lists) as H.
  destruct (outcome (for_each (label_body bin_labels bin_preds preds)
                       (seq 0 (Np.shape1 bin_labels)) empty_lists))
    as [e|acc],
    (outcome (for_each (label_body bin_labels bin_preds' preds)
                (seq 0 (Np.shape1 bin_labels)) empty_lists))
    as [e'|acc']; cbn in H; try contradiction.
  - now subst.
  - cbn [rbind]. rewrite !bind_print. unfold outcome. cbn [fst snd].
    unfold Sk.classification_report. rewrite <- H1, <- H0.
    destruct ((1 <=? Np.shape1 bin_labels)
              && (Np.shape1 bin_labels =? Np.shape1 bin_preds)
              && (Np.shape0 bin_labels =? Np.shape0 bin_preds));
      reflexivity.
Qed.

Section MoreLoopFacts.

Variables Net Opt Samples : Type.
Variable net_call : bool -> Net -> Samples -> Net * Np.ndarray Np.float.
Variable criterion : Np.ndarray Np.float -> Np.ndarray bool -> Np.float.
Variable backward_step :
  Opt -> Net -> Samples -> Np.ndarray bool -> Opt * Net.
Variable sigmoid : Np.float -> Np.float.

Local Abbreviation train_body_at :=
  (train_body net_call criterion backward_step sigmoid).
Local Abbreviation eval_body_at := (eval_body net_call criterion sigmoid).
Local Abbreviation train_pass_at :=
  (train_pass net_call criterion backward_step sigmoid).
Local Abbreviation eval_pass_at := (eval_pass net_call criterion sigmoid).
Local Abbreviation epoch_body_at :=
  (epoch_body net_call criterion backward_step sigmoid).
Local Abbreviation train_at :=
  (train net_call criterion backward_step sigmoid).
Local Abbreviation test_at := (test net_call criterion sigmoid).

(** What a pass keeps true of its lists, batch after batch. *)
Lemma eval_fold_arrays (t : Np.float) (loader : list (Batch Samples))
    (v : eval_vars Net) :
  ev_preds v = map (fun p => binarize p t) (ev_prob v) ->
  let v' := fold_left (eval_body_at t) loader v in
  ev_labels v' = ev_labels v ++ map labels loader /\
  ev_preds v' = map (fun p => binarize p t) (ev_prob v') /\
  length (ev_prob v') = length (ev_prob v) + length loader.
Proof.
  revert v. induction loader as [|b loader IH]; intros v Hv; cbn zeta.
  - cbn [fold_left map length]. rewrite app_nil_r. repeat split;
      [assumption | lia].
  - cbn [fold_left map length].
    destruct (IH (eval_body_at t v b)) as (H1 & H2 & H3).
    + unfold eval_body.
      destruct (net_call false (ev_net v) (ecg_signals b)) as [n preds].
      cbn [ev_preds ev_prob]. rewrite map_app, Hv. reflexivity.
    + cbn zeta in *. rewrite H1, H3. split; [|split; [exact H2|]].
      * unfold eval_body.
        destruct (net_call false (ev_net v) (ecg_signals b)) as [n preds].
        cbn [ev_labels]. now rewrite <- app_assoc.
      * unfold eval_body.
        destruct (net_call false (ev_net v) (ecg_signals b)) as [n preds].
        cbn [ev_prob]. rewrite length_app. cbn [length]. lia.
Qed.

Lemma train_fold_arrays (t : Np.float) (loader : list (Batch Samples))
    (v : train_vars Net Opt) :
  train_preds v = map (fun p => binarize p t) (train_prob v) ->
  let v' := fold_left (train_body_at t) loader v in
  train_labels v' = train_labels v ++ map labels loader /\
  train_preds v' = map (fun p => binarize p t) (train_prob v').
Proof.
  revert v. induction loader as [|b loader IH]; intros v Hv; cbn zeta.
  - cbn [fold_left map]. rewrite app_nil_r. split; [reflexivity | assumption].
  - cbn [fold_left map].
    destruct (IH (train_body_at t v b)) as (H1 & H2).
    + unfold train_body.
      destruct (net_call true (tr_net v) (ecg_signals b)) as [n preds].
      destruct (backward_step (tr_optimizer v) n (ecg_signals b) (labels b))
        as [o n'].
      cbn [train_preds train_prob]. rewrite map_app, Hv. reflexivity.
    + cbn zeta in *. rewrite H1. split; [|exact H2].
      unfold train_body.
      destruct (net_call true (tr_net v) (ecg_signals b)) as [n preds].
      destruct (backward_step (tr_optimizer v) n (ecg_signals b) (labels b))
        as [o n'].
      cbn [train_labels]. now rewrite <- app_assoc.
Qed.


(** The threshold reaches nothing but the binary predictions. *)
Lemma train_fold_threshold (t t' : Np.float) (loader : list (Batch Samples))
    (v v' : train_vars Net Opt) :
  tr_net v = tr_net v' -> tr_optimizer v = tr_optimizer v' ->
  train_loss v = train_loss v' ->
  let r := fold_left (train_body_at t) loader v in
  let r' := fold_left (train_body_at t') loader v' in
  tr_net r = tr_net r' /\ tr_optimizer r = tr_optimizer r' /\
  train_loss r = train_loss r'.
Proof.
  revert v v'. induction loader as [|b loader IH]; intros v v' H1 H2 H3;
    cbn zeta.
  - cbn [fold_left]. repeat split; assumption.
  - cbn [fold_left]. apply IH; unfold train_body; rewrite <- H1, <- H2, <- H3;
      destruct (net_call true (tr_net v) (ecg_signals b)) as [n preds];
      destruct (backward_step (tr_optimizer v) n (ecg_signals b) (labels b))
        as [o n']; reflexivity.
Qed.

Lemma eval_fold_threshold (t t' : Np.float) (loader : list (Batch Samples))
    (v v' : eval_vars Net) :
  ev_net v = ev_net v' -> ev_loss v = ev_loss v' ->
  ev_labels v = ev_labels v' -> ev_prob v = ev_prob v' ->
  let r := fold_left (eval_body_at t) loader v in
  let r' := fold_left (eval_body_at t') loader v' in
  ev_net r = ev_net r' /\ ev_loss r = ev_loss r' /\
  ev_labels r = ev_labels r' /\ ev_prob r = ev_prob r'.
Proof.
  revert v v'. induction loader as [|b loader IH]; intros v v' H1 H2 H3 H4;
    cbn zeta.
  - cbn [fold_left]. repeat split; assumption.
  - cbn [fold_left].
    apply IH; unfold eval_body; rewrite <- H1, <- H2, <- H3, <- H4;
      destruct (net_call false (ev_net v) (ecg_signals b)) as [n preds];
      reflexivity.
Qed.

Lemma for_each_outcome_ext {S J} (body body' : S -> J -> M S)
    (l : list J) :
  (forall s i, outcome (body s i) = outcome (body' s i)) ->
  forall s, outcome (for_each body l s) = outcome (for_each body' l s).
Proof.
  intros Hbody. induction l as [|i l IH]; intros s; [reflexivity|].
  cbn [for_each]. rewrite !outcome_bind, Hbody.
  destruct (outcome (body' s i)) as [e|s1]; [reflexivity | apply IH].
Qed.

Lemma test_outcome (net : Net) (test_loader : list (Batch Samples))
    (t : Np.float) :
  let ev := eval_pass_at test_loader t net in
  outcome (test_at net test_loader t)
  = (test_loss <- py_truediv (ev_loss ev) (length test_loader) ;;
     _ <- report_outcome ev ;;
     ok test_loss)%result.
Proof.
  intros ev. unfold test, report_outcome. fold ev.
  destruct (py_truediv (ev_loss ev) (length test_loader)) as [x|tl];
    [reflexivity|]. rewrite bind_lift_ok, bind_print.
  unfold outcome. cbn [fst snd rbind].
  destruct (Np.concatenate (ev_labels ev)) as [x|VL]; [reflexivity|].
  rewrite bind_lift_ok.
  destruct (Np.concatenate (ev_preds ev)) as [x|VP]; [reflexivity|].
  rewrite bind_lift_ok.
  destruct (Np.concatenate (ev_prob ev)) as [x|VR]; [reflexivity|].
  rewrite bind_lift_ok. cbn [rbind].
  destruct (metric_func VL VP VR) as [o [x|[]]]; reflexivity.
Qed.

(** Whether and how the report on a pass raises does not depend on the
    threshold of the pass. *)
Lemma report_outcome_threshold (t t' : Np.float)
    (loader : list (Batch Samples)) (net : Net) :
  report_outcome (eval_pass_at loader t net)
  = report_outcome (eval_pass_at loader t' net).
Proof.
  destruct (eval_fold_arrays t loader (MkEvalVars net Np.zero [] [] [])
              eq_refl) as (_ & P & _).
  destruct (eval_fold_arrays t' loader (MkEvalVars net Np.zero [] [] [])
              eq_refl) as (_ & P' & _).
  destruct (eval_fold_threshold t t' loader
              (MkEvalVars net Np.zero [] [] [])
              (MkEvalVars net Np.zero [] [] [])
              eq_refl eq_refl eq_refl eq_refl) as (_ & _ & EL & EP).
  cbn zeta in *. unfold report_outcome, eval_pass.
  rewrite P, P', <- EL, <- EP.
  set (ev := fold_left (eval_body_at t) loader
               (MkEvalVars net Np.zero [] [] [])).
  destruct (Np.concatenate (ev_labels ev)) as [x|VL]; [reflexivity|].
  cbn [rbind]. unfold binarize. rewrite !concatenate_map_array.
  destruct (Np.concatenate (ev_prob ev)) as [x|VR]; [reflexivity|].
  cbn [rbind ok]. apply metric_func_outcome_shape.
  - reflexivity.
  - unfold Np.shape0, Np.map_array. cbn [Np.rows].
    now rewrite !length_map.
Qed.

(** X13.  The threshold changes what is printed and nothing else:
    for any two thresholds [train] returns the same network and the same
    loss histories, or raises the same exception, and [test] returns the
    same loss, or raises the same exception. *)
Theorem threshold_only_changes_the_report (t t' : Np.float)
    (net : Net) (optimizer : Opt)
    (train_loader val_loader test_loader : list (Batch Samples))
    (n_epoch : nat) :
  outcome (train_at net train_loader val_loader n_epoch optimizer t)
  = outcome (train_at net train_loader val_loader n_epoch optimizer t') /\
  outcome (test_at net test_loader t) = outcome (test_at net test_loader t').
Proof.
  split.
  - unfold train. rewrite !outcome_bind.
    rewrite (for_each_outcome_ext
               (epoch_body_at train_loader val_loader n_epoch t)
               (epoch_body_at train_loader val_loader n_epoch t'));
      [reflexivity|].
    intros st e. unfold epoch_body. rewrite !outcome_bind. cbn [rbind].
    unfold outcome at 1 3. cbn [snd print rbind ok].
    rewrite !epoch_outcome. cbn zeta.
    destruct (train_fold_threshold t t' train_loader
                (MkTrainVars (st_net st) (st_optimizer st) Np.zero [] [] [])
                (MkTrainVars (st_net st) (st_optimizer st) Np.zero [] [] [])
                eq_refl eq_refl eq_refl) as (E1 & E2 & E3).
    cbn zeta in *. unfold train_pass. rewrite <- E1, <- E2, <- E3.
    set (n1 := tr_net _).
    destruct (eval_fold_threshold t t' val_loader
                (MkEvalVars n1 Np.zero [] [] [])
                (MkEvalVars n1 Np.zero [] [] [])
                eq_refl eq_refl eq_refl eq_refl) as (F1 & F2 & _ & _).
    cbn zeta in *.
    rewrite (report_outcome_threshold t t' val_loader n1).
    unfold eval_pass. rewrite <- F1, <- F2. reflexivity.
  - rewrite !test_outcome. cbn zeta.
    destruct (eval_fold_threshold t t' test_loader
                (MkEvalVars net Np.zero [] [] [])
                (MkEvalVars net Np.zero [] [] [])
                eq_refl eq_refl eq_refl eq_refl) as (F1 & F2 & _ & _).
    cbn zeta in *.
    rewrite (report_outcome_threshold t t' test_loader net).
    unfold eval_pass. rewrite <- F2. reflexivity.
Qed.

(** X14.  [train] at its edges: with [n_epoch = 0] it returns the
    network untouched and two empty histories without printing or reading
    a loader; with at least one epoch, an empty training loader, or an
    empty validation loader, makes it raise ZeroDivisionError in the
    first epoch, after the epoch header and before any report. *)
Theorem train_edge_cases (net : Net) (optimizer : Opt)
    (train_loader val_loader : list (Batch Samples))
    (n_epoch : nat) (t : Np.float) :
  train_at net train_loader val_loader 0 optimizer t
  = ([], ok (net, [], [])) /\
  (1 <= n_epoch -> train_loader = [] \/ val_loader = [] ->
   train_at net train_loader val_loader n_epoch optimizer t
   = ([Line_epoch 1 n_epoch], raise ZeroDivisionError)).
Proof.
  split; [reflexivity|].
  intros Hn Hempty. destruct n_epoch as [|n]; [lia|].
  unfold train. cbn [seq for_each].
  assert (E : epoch_body_at train_loader val_loader (S n) t
                (MkTrainState net optimizer [] []) 0
              = ([Line_epoch 1 (S n)], raise ZeroDivisionError)).
  { unfold epoch_body, epoch_after_train_pass. rewrite bind_print.
    destruct train_loader as [|b train_loader]; [reflexivity|].
    destruct Hempty as [Hempty | ->]; [discriminate Hempty|].
    rewrite py_truediv_nonempty by discriminate. rewrite bind_lift_ok.
    reflexivity. }
  rewrite E. reflexivity.
Qed.


Lemma py_truediv_ok_inv (x y : Np.float) (n : nat) :
  py_truediv x n = ok y -> n <> 0 /\ y = Np.div x (Np.of_nat n).
Proof.
  unfold py_truediv. destruct n as [|n]; [discriminate|].
  cbn [Nat.eqb]. intros H. injection H as <-. split; [discriminate|].
  reflexivity.
Qed.

Lemma epochs_result (train_loader val_loader : list (Batch Samples))
    (t : Np.float) (net : Net) (optimizer : Opt) (n_epoch n a : nat)
    (st st' : train_state Net Opt) :
  state_at net_call criterion backward_step sigmoid train_loader val_loader
    t net optimizer a = (st_net st, st_optimizer st) ->
  outcome (for_each (epoch_body_at train_loader val_loader n_epoch t)
             (seq a n) st) = ok st' ->
  (n = 0 \/ (train_loader <> [] /\ val_loader <> [])) /\
  st' = MkTrainState
          (fst (state_at net_call criterion backward_step sigmoid
                  train_loader val_loader t net optimizer (a + n)))
          (snd (state_at net_call criterion backward_step sigmoid
                  train_loader val_loader t net optimizer (a + n)))
          (loss_train_history st
           ++ map (fun e =>
                     Np.div
                       (accumulated_train_loss net_call criterion
                          backward_step sigmoid train_loader val_loader t
                          net optimizer e)
                       (Np.of_nat (length train_loader))) (seq a n))
          (loss_val_history st
           ++ map (fun e =>
                     Np.div
                       (accumulated_val_loss net_call criterion
                          backward_step sigmoid train_loader val_loader t
                          net optimizer e)
                       (Np.of_nat (length val_loader))) (seq a n)).
Proof.
  revert a st. induction n as [|n IH]; intros a st Hst H.
  - cbn in H. injection H as <-. split; [now left|].
    rewrite Nat.add_0_r, Hst. cbn [map seq fst snd]. rewrite !app_nil_r.
    now destruct st.
  - cbn [seq for_each] in H. rewrite outcome_bind in H.
    destruct (outcome (epoch_body_at train_loader val_loader n_epoch t st a))
      as [x|st1] eqn:E; [discriminate H|].
    cbn [rbind] in H.
    unfold epoch_body in E. rewrite outcome_bind in E.
    unfold outcome at 1 in E. cbn [snd print rbind ok] in E.
    rewrite epoch_outcome in E. cbn zeta in E.
    destruct (py_truediv _ (length train_loader)) as [x|tl] eqn:D1;
      [discriminate E|].
    cbn [rbind] in E.
    destruct (py_truediv _ (length val_loader)) as [x|vl] eqn:D2;
      [discriminate E|].
    cbn [rbind] in E.
    destruct (report_outcome _) as [x|[]]; [discriminate E|].
    cbn [rbind] in E. injection E as <-.
    apply py_truediv_ok_inv in D1 as [N1 ->].
    apply py_truediv_ok_inv in D2 as [N2 ->].
    apply IH in H;
      [|cbn [state_at st_net st_optimizer]; rewrite Hst; reflexivity].
    destruct H as [_ ->].
    split.
    { right. split; intros ->; [now apply N1 | now apply N2]. }
    replace (a + S n) with (S a + n) by lia.
    cbn [loss_train_history loss_val_history seq map].
    rewrite <- !app_assoc. cbn [app].
    unfold accumulated_train_loss, accumulated_val_loss.
    rewrite Hst. reflexivity.
Qed.

(** X16.  Whenever [train] returns, without any assumption on its
    arguments, the two histories have exactly [n_epoch] entries, entry e
    being the loss accumulated in epoch e divided by the number of batches
    of its loader, the network returned is the network after [n_epoch]
    epochs, and both loaders are non-empty unless [n_epoch = 0]. *)
Theorem train_result_when_returned (net net' : Net) (optimizer : Opt)
    (train_loader val_loader : list (Batch Samples)) (n_epoch : nat)
    (t : Np.float) (loss_train_history loss_val_history : list Np.float) :
  outcome (train_at net train_loader val_loader n_epoch optimizer t)
  = ok (net', loss_train_history, loss_val_history) ->
  length loss_train_history = n_epoch /\
  length loss_val_history = n_epoch /\
  (n_epoch = 0 \/ (train_loader <> [] /\ val_loader <> [])) /\
  net' = fst (state_at net_call criterion backward_step sigmoid
                train_loader val_loader t net optimizer n_epoch) /\
  loss_train_history
  = map (fun e =>
           Np.div
             (accumulated_train_loss net_call criterion backward_step
                sigmoid train_loader val_loader t net optimizer e)
             (Np.of_nat (length train_loader))) (seq 0 n_epoch) /\
  loss_val_history
  = map (fun e =>
           Np.div
             (accumulated_val_loss net_call criterion backward_step
                sigmoid train_loader val_loader t net optimizer e)
             (Np.of_nat (length val_loader))) (seq 0 n_epoch).
Proof.
  intros H. unfold train in H. rewrite outcome_bind in H.
  destruct (outcome (for_each (epoch_body_at train_loader val_loader
                                 n_epoch t)
                       (seq 0 n_epoch) (MkTrainState net optimizer [] [])))
    as [x|st'] eqn:E; [discriminate H|].
  cbn [rbind] in H. unfold outcome, ret in H. cbn [snd] in H.
  injection H as <- <- <-.
  destruct (epochs_result train_loader val_loader t net optimizer n_epoch
              n_epoch 0 (MkTrainState net optimizer [] []) st' eq_refl E)
    as [Hne ->].
  cbn [st_net loss_train_history loss_val_history app Nat.add].
  rewrite !length_map, !length_seq. repeat split. exact Hne.
Qed.

End MoreLoopFacts.

Lemma train_edge_cases_witness :
  1 <= 3 /\
  train Toy.net_call Toy.criterion Toy.backward_step Toy.sigmoid
    0 [Toy.batch_a] [] 3 tt Toy.treshold
  = ([Line_epoch 1 3], raise ZeroDivisionError).
Proof.
  assert (H : 1 <= 3) by lia.
  split; [exact H|].
  exact (proj2 (train_edge_cases Toy.Net Toy.Opt Toy.Samples Toy.net_call
                  Toy.criterion Toy.backward_step Toy.sigmoid 0 tt
                  [Toy.batch_a] [] 3 Toy.treshold)
           H (or_intror eq_refl)).
Defined.


Lemma train_result_when_returned_witness :
  exists net' loss_train_history loss_val_history,
    outcome (train Toy.net_call Toy.criterion Toy.backward_step Toy.sigmoid
               0 [Toy.batch_a] [Toy.batch_a] 2 tt Toy.treshold)
    = ok (net', loss_train_history, loss_val_history) /\
    length loss_train_history = 2 /\
    length loss_val_history = 2.
Proof.
  destruct (outcome (train Toy.net_call Toy.criterion Toy.backward_step
                       Toy.sigmoid 0 [Toy.batch_a] [Toy.batch_a] 2 tt
                       Toy.treshold))
    as [x|[[net' h1] h2]] eqn:E; [vm_compute in E; discriminate E|].
  exists net', h1, h2. split; [reflexivity|].
  destruct (train_result_when_returned Toy.Net Toy.Opt Toy.Samples
              Toy.net_call Toy.criterion Toy.backward_step Toy.sigmoid
              0 net' tt [Toy.batch_a] [Toy.batch_a] 2 Toy.treshold h1 h2 E)
    as (L1 & L2 & _).
  split; assumption.
Defined.
